(** * The connection engine of go-smtp (conn.go)

    A shallow embedding of [Conn] and of its command handlers, and the
    properties of the envelope state machine, of the reply writer and of the
    STARTTLS and AUTH paths that the specification states.

    Strings are Go strings (byte sequences), [int] is [Z].  Everything the
    engine does to the outside is recorded, in order, in a history of events:
    the lines handed to [c.text.PrintfLine], the calls made to the backend,
    to the session, to a SASL mechanism and to the TLS layer together with
    what they returned, and the close of the transport.  The collaborators
    answer as functions of that history, so a theorem that holds for every
    environment holds for every behaviour of backend, session and peer. *)

From Stdlib Require Import ZArith String Ascii.
From stdpp Require Import base option list strings gmap pretty.

Local Open Scope string_scope.
Local Open Scope list_scope.
Local Open Scope Z_scope.

(** ** Go strings *)

(** [s[n:]] for [n <= len(s)]. *)
Fixpoint slice_from (n : nat) (s : string) : string :=
  match n, s with
  | O, _ => s
  | S n', String _ s' => slice_from n' s'
  | S _, EmptyString => EmptyString
  end.

(** [s[0:n]] for [n <= len(s)]. *)
Definition slice_to (n : nat) (s : string) : string := String.substring 0 n s.

Definition in_cutset (cutset : string) (a : ascii) : bool :=
  bool_decide (a ∈ list_ascii_of_string cutset).

Fixpoint TrimLeft (cutset : string) (s : string) : string :=
  match s with
  | EmptyString => EmptyString
  | String a s' => if in_cutset cutset a then TrimLeft cutset s' else s
  end.

Fixpoint TrimRight (cutset : string) (s : string) : string :=
  match s with
  | EmptyString => EmptyString
  | String a s' =>
      let t := TrimRight cutset s' in
      if bool_decide (t = EmptyString) && in_cutset cutset a
      then EmptyString else String a t
  end.

(** [strings.Trim(s, cutset)] for a cutset of ASCII bytes (the engine only
    uses the cutsets [" "] and ["<> "]): bytes of the cutset are removed at
    both ends. *)
Definition Trim (s cutset : string) : string :=
  TrimRight cutset (TrimLeft cutset s).

(** [strings.Split(s, sep)] for a one-byte separator: one more piece than
    there are separators, never the empty list. *)
Fixpoint Split (s : string) (sep : ascii) : list string :=
  match s with
  | EmptyString => [EmptyString]
  | String a s' =>
      match Split s' sep with
      | piece :: pieces =>
          if bool_decide (a = sep) then EmptyString :: piece :: pieces
          else String a piece :: pieces
      | [] => [String a EmptyString]
      end
  end.

Definition HasPrefix (s p : string) : bool := String.prefix p s.

Definition HasSuffix (s p : string) : bool :=
  bool_decide (slice_from (String.length s - String.length p) s = p)
  && bool_decide (String.length p ≤ String.length s)%nat.

(** ** Data model *)

(** [type EnhancedCode [3]int]. *)
Definition EnhancedCode : Type := Z * Z * Z.

(** [*SMTPError], the structured error of the collaborators, and any other
    [error], of which the engine only uses [err.Error()]. *)
Record SMTPError := mkSMTPError {
  Code : Z;
  ErrEnhancedCode : EnhancedCode;
  Message : string
}.

Inductive error :=
| SMTPErr (e : SMTPError)
| OtherErr (text : string).

(** The transport [c.conn]: the accepted connection, or a [*tls.Conn]
    wrapped around one. *)
Inductive NetConn :=
| RawConn (remote : string)
| TLSConn (under : NetConn).

Fixpoint RemoteAddrOf (n : NetConn) : string :=
  match n with
  | RawConn r => r
  | TLSConn u => RemoteAddrOf u
  end.

(** The type assertion of [c.conn] to a TLS connection succeeds. *)
Definition isTLSConn (n : NetConn) : bool :=
  match n with
  | RawConn _ => false
  | TLSConn _ => true
  end.

Record ConnectionState := mkConnectionState {
  Hostname : string;
  RemoteAddr : string;
  TLS : bool
}.

(** A [Session] value held by the engine is a handle on an object of the
    backend; a SASL server factory of [server.auths] likewise. *)
Definition Session := nat.
Definition SaslFactory := nat.

(** The fields of [Server] that conn.go reads.  [TLSConfig] is [true] for a
    non-nil configuration.  The deadlines and the debug mirror do not change
    what is written and are left out. *)
Record Server := mkServer {
  Domain : string;
  LMTP : bool;
  Strict : bool;
  AuthDisabled : bool;
  AllowInsecureAuth : bool;
  MaxMessageBytes : Z;
  MaxRecipients : Z;
  TLSConfig : bool;
  caps : list string;
  auths : gmap string SaslFactory
}.

(** [Conn].  [text] is the transport that [c.text] was built over by the
    last [init]. *)
Record Conn := mkConn {
  conn : NetConn;
  text : NetConn;
  server : Server;
  helo : string;
  nbrErrors : Z;
  session : option Session;
  fromReceived : bool;
  recipients : list string
}.

(** What [sasl.Next] hands back: challenge, done, error, and the session the
    mechanism installed through [c.SetSession] while it ran, if it did. *)
Record NextResult := mkNextResult {
  challenge : string;
  done_ : bool;
  next_err : option error;
  installed : option (option Session)
}.

(** ** Events *)

Inductive Event :=
| EvPrintfLine (via : NetConn) (line : string)
| EvReadLine (got : option string)
| EvAnonymousLogin (st : ConnectionState) (r : option Session * option error)
| EvMail (s : Session) (from : string) (r : option error)
| EvRcpt (s : Session) (to : string) (r : option error)
| EvData (s : Session) (body : list string) (r : option error)
| EvSessionReset (s : Session)
| EvLogout (s : Session)
| EvNext (f : SaslFactory) (response : option string) (r : NextResult)
| EvHandshake (under : NetConn) (r : option error)
| EvConnClose (n : NetConn)
| EvHelo (domain : string)
| EvReset.

Definition History := list Event.

(** ** Environment

    What conn.go uses and does not define: functions of the Go standard
    library whose result depends on Unicode tables or on an encoding, the
    constants and parsers that the package declares in other files, and the
    collaborators. *)
Record Env := mkEnv {
  (* strings.ToUpper, strings.Fields, base64.StdEncoding, strconv.ParseInt(s, 10, 32) *)
  ToUpper : string -> string;
  Fields : string -> list string;
  DecodeString : string -> option string;
  EncodeToString : string -> string;
  ParseInt : string -> option Z;
  (* the package's sentinels and parsers *)
  NoEnhancedCode : EnhancedCode;
  EnhancedCodeNotSet : EnhancedCode;
  parseHelloArgument : string -> option string;
  parseArgs : list string -> option (gmap string string);
  (* Backend, Session, sasl.Server, tls.Conn *)
  AnonymousLogin : History -> ConnectionState -> option Session * option error;
  Mail : History -> Session -> string -> option error;
  Rcpt : History -> Session -> string -> option error;
  Data : History -> Session -> list string -> option error;
  Next : History -> SaslFactory -> option string -> NextResult;
  Handshake : History -> NetConn -> option error
}.

(** The sentinels are not codes that a reply carries: their class is none of
    2, 4, 5, and they differ from each other. *)
Definition generic_class (cat : Z) : bool :=
  bool_decide (cat = 2) || bool_decide (cat = 4) || bool_decide (cat = 5).

Definition sentinels_wf (env : Env) : Prop :=
  generic_class (NoEnhancedCode env).1.1 = false ∧
  generic_class (EnhancedCodeNotSet env).1.1 = false ∧
  NoEnhancedCode env ≠ EnhancedCodeNotSet env.

(** ** State and effects *)

(** The engine, the lines the peer sends while a command is being handled
    (continuation lines of AUTH, the body after DATA), whether the transport
    has been closed, and the history. *)
Record St := mkSt {
  cn : Conn;
  wire : list string;
  closed : bool;
  hist : History
}.

(** A handler either returns or panics; both leave a state behind. *)
Inductive Res (A : Type) :=
| Returned (a : A) (s : St)
| Panicked (s : St).
Arguments Returned {A} a s.
Arguments Panicked {A} s.

Definition M (A : Type) : Type := St -> Res A.

#[global] Instance M_ret : MRet M := λ A a s, Returned a s.
#[global] Instance M_bind : MBind M := λ A B f m s,
  match m s with
  | Returned a s' => f a s'
  | Panicked s' => Panicked s'
  end.

Definition panic {A} : M A := λ s, Panicked s.
Definition get_conn : M Conn := λ s, Returned (cn s) s.
Definition get_hist : M History := λ s, Returned (hist s) s.
Definition modify_conn (f : Conn -> Conn) : M unit :=
  λ s, Returned tt (mkSt (f (cn s)) (wire s) (closed s) (hist s)).
Definition emit (e : Event) : M unit :=
  λ s, Returned tt (mkSt (cn s) (wire s) (closed s) (hist s ++ [e])).

(** The state a computation leaves behind. *)
Definition state_of {A} (r : Res A) : St :=
  match r with
  | Returned _ s => s
  | Panicked s => s
  end.

Definition panicked {A} (r : Res A) : bool :=
  match r with
  | Returned _ _ => false
  | Panicked _ => true
  end.

(** Field updates of [Conn]. *)
Definition set_conn (n : NetConn) (c : Conn) : Conn :=
  mkConn n (text c) (server c) (helo c) (nbrErrors c) (session c)
         (fromReceived c) (recipients c).
Definition set_text (n : NetConn) (c : Conn) : Conn :=
  mkConn (conn c) n (server c) (helo c) (nbrErrors c) (session c)
         (fromReceived c) (recipients c).
Definition set_helo (h : string) (c : Conn) : Conn :=
  mkConn (conn c) (text c) (server c) h (nbrErrors c) (session c)
         (fromReceived c) (recipients c).
Definition set_nbrErrors (n : Z) (c : Conn) : Conn :=
  mkConn (conn c) (text c) (server c) (helo c) n (session c)
         (fromReceived c) (recipients c).
Definition set_session (s : option Session) (c : Conn) : Conn :=
  mkConn (conn c) (text c) (server c) (helo c) (nbrErrors c) s
         (fromReceived c) (recipients c).
Definition set_fromReceived (b : bool) (c : Conn) : Conn :=
  mkConn (conn c) (text c) (server c) (helo c) (nbrErrors c) (session c)
         b (recipients c).
Definition set_recipients (l : list string) (c : Conn) : Conn :=
  mkConn (conn c) (text c) (server c) (helo c) (nbrErrors c) (session c)
         (fromReceived c) l.

(** [int] is 64 bits wide: [n++] wraps. *)
Definition wrap_int (n : Z) : Z := (n + 2 ^ 63) `mod` 2 ^ 64 - 2 ^ 63.

Definition set_wire (w : list string) : M unit :=
  λ s, Returned tt (mkSt (cn s) w (closed s) (hist s)).
Definition get_wire : M (list string) := λ s, Returned (wire s) s.
Definition set_closed : M unit :=
  λ s, Returned tt (mkSt (cn s) (wire s) true (hist s)).

(** [for _, x := range l { body(x) }]. *)
Fixpoint for_each {A} (body : A -> M unit) (l : list A) : M unit :=
  match l with
  | [] => mret tt
  | x :: l' => body x ;; for_each body l'
  end.

(** Modelled from the spec: [newDataReader] is declared outside conn.go.
    Section 4.6: the reader removes the dot-stuffing escape (a leading
    period of a data line is stripped unless it is the sole character of the
    line, which signals end-of-data) and signals end-of-stream at the
    terminator; the engine drains it whatever the session did.  The result
    is the body the reader yields and the lines left on the wire after the
    terminator.  The limit on the size of a message, which the section also
    gives the reader without saying what is yielded once it is exceeded, is
    not part of this definition. *)
Fixpoint dataReader (w : list string) : list string * list string :=
  match w with
  | [] => ([], [])
  | l :: w' =>
      if bool_decide (l = ".") then ([], w')
      else
        let '(body, rest) := dataReader w' in
        ((if HasPrefix l "." then slice_from 1 l else l) :: body, rest)
  end.

Definition fmt_enhanced (e : EnhancedCode) : string :=
  pretty e.1.1 +:+ "." +:+ pretty e.1.2 +:+ "." +:+ pretty e.2.

(** ** The engine *)

Section Engine.
Context (env : Env).

Definition newConn (c : NetConn) (s : Server) : Conn :=
  mkConn c c s "" 0 None false [].

Definition init : M unit := modify_conn (λ c, set_text (conn c) c).

(** [c.text.PrintfLine]: one line handed to the writer of [c.text]. *)
Definition PrintfLine (line : string) : M unit :=
  c ← get_conn; emit (EvPrintfLine (text c) line).

(** The enhanced code that [WriteResponse] ends up with. *)
Definition resolve_enhanced (code : Z) (enhCode : EnhancedCode) : EnhancedCode :=
  if bool_decide (enhCode = EnhancedCodeNotSet env) then
    let cat := code `quot` 100 in
    if generic_class cat then (cat, 0, 0) else NoEnhancedCode env
  else enhCode.

(** The last line of a reply. *)
Definition final_line (code : Z) (enhCode : EnhancedCode) (t : string) : string :=
  if bool_decide (enhCode = NoEnhancedCode env)
  then pretty code +:+ " " +:+ t
  else pretty code +:+ " " +:+ fmt_enhanced enhCode +:+ " " +:+ t.

(** [WriteResponse(code, enhCode, text...)].  With no text at all the index
    [len(text)-1] is out of range. *)
Definition WriteResponse (code : Z) (enhCode : EnhancedCode)
    (text : list string) : M unit :=
  let enhCode := resolve_enhanced code enhCode in
  for_each (λ t, PrintfLine (pretty code +:+ "-" +:+ t)) (removelast text) ;;
  match last text with
  | None => panic
  | Some t => PrintfLine (final_line code enhCode t)
  end.

Definition SetSession (s : option Session) : M unit :=
  modify_conn (set_session s).

Definition Close : M unit :=
  c ← get_conn;
  match session c with
  | Some s => emit (EvLogout s)
  | None => mret tt
  end ;;
  emit (EvConnClose (conn c)) ;;
  set_closed.

Definition State (c : Conn) : ConnectionState :=
  mkConnectionState (helo c) (RemoteAddrOf (conn c)) (isTLSConn (conn c)).

Definition authAllowed (c : Conn) : bool :=
  negb (AuthDisabled (server c))
  && (isTLSConn (conn c) || AllowInsecureAuth (server c)).

Definition reset : M unit :=
  c ← get_conn;
  emit EvReset ;;
  match session c with
  | Some s => emit (EvSessionReset s)
  | None => mret tt
  end ;;
  modify_conn (set_fromReceived false) ;;
  modify_conn (set_recipients []).

Definition unrecognizedCommand (cmd : string) : M unit :=
  WriteResponse 500 (5, 5, 2)
    ["Syntax error, " +:+ cmd +:+ " command unrecognized"] ;;
  modify_conn (λ c, set_nbrErrors (wrap_int (nbrErrors c + 1)) c) ;;
  c ← get_conn;
  if bool_decide (nbrErrors c > 3) then
    WriteResponse 500 (5, 5, 2) ["Too many unrecognized commands"] ;;
    Close
  else mret tt.

(** The capability lines of the EHLO reply.  Go ranges over the [auths] map
    in an unspecified order; the order of [map_to_list] stands for the one a
    run picks, and no statement below relies on it. *)
Definition ehlo_caps (c : Conn) : list string :=
  caps (server c)
  ++ (if TLSConfig (server c) && negb (isTLSConn (conn c))
      then ["STARTTLS"] else [])
  ++ (if authAllowed c
      then [foldl (λ authCap name, authCap +:+ " " +:+ name) "AUTH"
              (map_to_list (auths (server c))).*1]
      else [])
  ++ (if bool_decide (MaxMessageBytes (server c) > 0)
      then ["SIZE " +:+ pretty (MaxMessageBytes (server c))] else []).

Definition handleGreet (enhanced : bool) (arg : string) : M unit :=
  if negb enhanced then
    match parseHelloArgument env arg with
    | None =>
        WriteResponse 501 (5, 5, 2) ["Domain/address argument required for HELO"]
    | Some domain =>
        modify_conn (set_helo domain) ;;
        emit (EvHelo domain) ;;
        WriteResponse 250 (2, 0, 0) ["Hello " +:+ domain]
    end
  else
    match parseHelloArgument env arg with
    | None =>
        WriteResponse 501 (5, 5, 2) ["Domain/address argument required for EHLO"]
    | Some domain =>
        modify_conn (set_helo domain) ;;
        emit (EvHelo domain) ;;
        c ← get_conn;
        WriteResponse 250 (NoEnhancedCode env) (("Hello " +:+ domain) :: ehlo_caps c)
    end.

(** Reply for an error of a collaborator: a structured error verbatim, any
    other one with the code of the call site. *)
Definition reply_error (err : error) (code : Z) (enh : EnhancedCode) : M unit :=
  match err with
  | SMTPErr e => WriteResponse (Code e) (ErrEnhancedCode e) [Message e]
  | OtherErr t => WriteResponse code enh [t]
  end.

Definition mail_syntax_error : M unit :=
  WriteResponse 501 (5, 5, 2) ["Was expecting MAIL arg syntax of FROM:<address>"].

(** The ESMTP parameters of MAIL: [true] when the command goes on. *)
Definition check_mail_params (c : Conn) (params : list string) : M bool :=
  if bool_decide (params = []) then mret true
  else
    match parseArgs env params with
    | None =>
        WriteResponse 501 (5, 5, 4) ["Unable to parse MAIL ESMTP parameters"] ;;
        mret false
    | Some args =>
        let size_arg := default "" (args !! "SIZE") in
        if bool_decide (size_arg = "") then mret true
        else
          match ParseInt env size_arg with
          | None =>
              WriteResponse 501 (5, 5, 4) ["Unable to parse SIZE as an integer"] ;;
              mret false
          | Some size =>
              if bool_decide (MaxMessageBytes (server c) > 0)
                 && bool_decide (size > MaxMessageBytes (server c))
              then
                WriteResponse 552 (5, 3, 4) ["Max message size exceeded"] ;;
                mret false
              else mret true
          end
    end.

(** The anonymous login of MAIL when no session exists: [true] when the
    command goes on. *)
Definition ensure_session : M bool :=
  c ← get_conn;
  match session c with
  | Some _ => mret true
  | None =>
      h ← get_hist;
      let r := AnonymousLogin env h (State c) in
      emit (EvAnonymousLogin (State c) r) ;;
      match r.2 with
      | Some err => reply_error err 502 (5, 7, 0) ;; mret false
      | None => SetSession r.1 ;; mret true
      end
  end.

Definition handleMail (arg : string) : M unit :=
  c ← get_conn;
  if bool_decide (helo c = "") then
    WriteResponse 502 (2, 5, 1) ["Please introduce yourself first."]
  else
    ok ← ensure_session;
    if negb ok then mret tt
    else if bool_decide (String.length arg < 6)%nat
         || negb (bool_decide (ToUpper env (slice_to 5 arg) = "FROM:"))
    then mail_syntax_error
    else
      match Split (Trim (slice_from 5 arg) " ") " " with
      | [] => panic
      | from0 :: params =>
          if Strict (server c)
             && (negb (HasPrefix from0 "<") || negb (HasSuffix from0 ">"))
          then mail_syntax_error
          else
            let from := Trim from0 "<> " in
            if bool_decide (from = "") then mail_syntax_error
            else
              ok ← check_mail_params c params;
              if negb ok then mret tt
              else
                c ← get_conn;
                match session c with
                | None => panic
                | Some s =>
                    h ← get_hist;
                    let r := Mail env h s from in
                    emit (EvMail s from r) ;;
                    match r with
                    | Some err => reply_error err 451 (4, 0, 0)
                    | None =>
                        WriteResponse 250 (2, 0, 0)
                          ["Roger, accepting mail from <" +:+ from +:+ ">"] ;;
                        modify_conn (set_fromReceived true)
                    end
                end
      end.

Definition handleRcpt (arg : string) : M unit :=
  c ← get_conn;
  if negb (fromReceived c) then
    WriteResponse 502 (5, 5, 1) ["Missing MAIL FROM command."]
  else if bool_decide (String.length arg < 4)%nat
       || negb (bool_decide (ToUpper env (slice_to 3 arg) = "TO:"))
  then
    WriteResponse 501 (5, 5, 2) ["Was expecting RCPT arg syntax of TO:<address>"]
  else
    let recipient := Trim (slice_from 3 arg) "<> " in
    if bool_decide (MaxRecipients (server c) > 0)
       && bool_decide (Z.of_nat (length (recipients c)) >= MaxRecipients (server c))
    then
      WriteResponse 552 (5, 5, 3)
        ["Maximum limit of " +:+ pretty (MaxRecipients (server c))
         +:+ " recipients reached"]
    else
      match session c with
      | None => panic
      | Some s =>
          h ← get_hist;
          let r := Rcpt env h s recipient in
          emit (EvRcpt s recipient r) ;;
          match r with
          | Some err => reply_error err 451 (4, 0, 0)
          | None =>
              modify_conn (λ c, set_recipients (recipients c ++ [recipient]) c) ;;
              WriteResponse 250 (2, 0, 0)
                ["I'll make sure <" +:+ recipient +:+ "> gets this"]
          end
      end.

(** The challenge/response loop of [handleAuth], over the lines [w] the peer
    has yet to send: [true] when the mechanism reports completion.  Each turn
    that goes on takes one line off the wire; a wire that has run dry makes
    [ReadLine] fail. *)
Fixpoint saslLoop (f : SaslFactory) (w : list string)
    (response : option string) : M bool :=
  h ← get_hist;
  let r := Next env h f response in
  emit (EvNext f response r) ;;
  match installed r with
  | Some s => SetSession s
  | None => mret tt
  end ;;
  match next_err r with
  | Some err => reply_error err 454 (4, 7, 0) ;; set_wire w ;; mret false
  | None =>
      if done_ r then set_wire w ;; mret true
      else
        let encoded :=
          if bool_decide (0 < String.length (challenge r))%nat
          then EncodeToString env (challenge r) else "" in
        WriteResponse 334 (NoEnhancedCode env) [encoded] ;;
        match w with
        | [] => emit (EvReadLine None) ;; set_wire [] ;; mret false
        | line :: w' =>
            emit (EvReadLine (Some line)) ;;
            match DecodeString env line with
            | None =>
                WriteResponse 454 (4, 7, 0) ["Invalid base64 data"] ;;
                set_wire w' ;; mret false
            | Some resp => saslLoop f w' (Some resp)
            end
        end
  end.

(** [handleAuth] from the lookup of the mechanism on, with the initial
    response [ir] ([None] for a nil slice). *)
Definition auth_exchange (mechanism : string) (ir : option string) : M unit :=
  c ← get_conn;
  match auths (server c) !! mechanism with
  | None =>
      WriteResponse 504 (5, 7, 4) ["Unsupported authentication mechanism"]
  | Some newSasl =>
      w ← get_wire;
      completed ← saslLoop newSasl w ir;
      if negb completed then mret tt
      else
        c ← get_conn;
        if bool_decide (session c ≠ None) then
          WriteResponse 235 (2, 0, 0) ["Authentication succeeded"]
        else mret tt
  end.

Definition handleAuth (arg : string) : M unit :=
  c ← get_conn;
  if bool_decide (helo c = "") then
    WriteResponse 502 (5, 5, 1) ["Please introduce yourself first."]
  else
    match Fields env arg with
    | [] => WriteResponse 502 (5, 5, 4) ["Missing parameter"]
    | name :: rest =>
        let mechanism := ToUpper env name in
        match rest with
        | [] => auth_exchange mechanism None
        | encoded :: _ =>
            match DecodeString env encoded with
            | None => mret tt
            | Some ir => auth_exchange mechanism (Some ir)
            end
        end
    end.

Definition handleStartTLS : M unit :=
  c ← get_conn;
  if isTLSConn (conn c) then
    WriteResponse 502 (5, 5, 1) ["Already running in TLS"]
  else if negb (TLSConfig (server c)) then
    WriteResponse 502 (5, 5, 1) ["TLS not supported"]
  else
    WriteResponse 220 (2, 0, 0) ["Ready to start TLS"] ;;
    let tlsConn := TLSConn (conn c) in
    h ← get_hist;
    let r := Handshake env h (conn c) in
    emit (EvHandshake (conn c) r) ;;
    match r with
    | Some _ => WriteResponse 550 (5, 0, 0) ["Handshake error"]
    | None => mret tt
    end ;;
    modify_conn (set_conn tlsConn) ;;
    init ;;
    reset.

Definition handleData (arg : string) : M unit :=
  if negb (bool_decide (arg = "")) then
    WriteResponse 501 (5, 5, 4) ["DATA command should not have any arguments"]
  else
    c ← get_conn;
    if negb (fromReceived c) || bool_decide (length (recipients c) = 0%nat) then
      WriteResponse 502 (5, 5, 1) ["Missing RCPT TO command."]
    else
      WriteResponse 354 (2, 0, 0)
        ["Go ahead. End your data with <CR><LF>.<CR><LF>"] ;;
      w ← get_wire;
      let '(body, rest) := dataReader w in
      match session c with
      | None => panic
      | Some s =>
          h ← get_hist;
          let err := Data env h s body in
          emit (EvData s body err) ;;
          set_wire rest ;;
          let '(code, enhancedCode, msg) :=
            match err with
            | Some (SMTPErr e) => (Code e, ErrEnhancedCode e, Message e)
            | Some (OtherErr t) =>
                (554, (5, 0, 0),
                 "Error: transaction failed, blame it on the weather: " +:+ t)
            | None => (250, (2, 0, 0), "OK: queued")
            end in
          (if LMTP (server c) then
             for_each (λ rcpt,
               WriteResponse code enhancedCode ["<" +:+ rcpt +:+ "> " +:+ msg])
               (recipients c)
           else WriteResponse code enhancedCode [msg]) ;;
          reset
      end.

Definition Reject : M unit :=
  WriteResponse 421 (4, 4, 5) ["Too busy. Try again later."] ;; Close.

Definition greet : M unit :=
  c ← get_conn;
  WriteResponse 220 (NoEnhancedCode env) [Domain (server c) +:+ " ESMTP Service Ready"].

(** The [switch] of [handle]. *)
Definition dispatch (cmd arg : string) : M unit :=
  if bool_decide (cmd = "") then WriteResponse 500 (5, 5, 2) ["Speak up"]
  else
    let cmd := ToUpper env cmd in
    c ← get_conn;
    if bool_decide (cmd ∈ ["SEND"; "SOML"; "SAML"; "EXPN"; "HELP"; "TURN"]) then
      WriteResponse 502 (5, 5, 1) [cmd +:+ " command not implemented"]
    else if bool_decide (cmd ∈ ["HELO"; "EHLO"; "LHLO"]) then
      let lmtp := bool_decide (cmd = "LHLO") in
      let enhanced := lmtp || bool_decide (cmd = "EHLO") in
      (if LMTP (server c) && negb lmtp
       then WriteResponse 500 (5, 5, 1) ["This is a LMTP server, use LHLO"]
       else mret tt) ;;
      (if negb (LMTP (server c)) && lmtp
       then WriteResponse 500 (5, 5, 1) ["This is not a LMTP server"]
       else mret tt) ;;
      handleGreet enhanced arg
    else if bool_decide (cmd = "MAIL") then handleMail arg
    else if bool_decide (cmd = "RCPT") then handleRcpt arg
    else if bool_decide (cmd = "VRFY") then
      WriteResponse 252 (2, 5, 0) ["Cannot VRFY user, but will accept message"]
    else if bool_decide (cmd = "NOOP") then
      WriteResponse 250 (2, 0, 0) ["I have sucessfully done nothing"]
    else if bool_decide (cmd = "RSET") then
      reset ;; WriteResponse 250 (2, 0, 0) ["Session reset"]
    else if bool_decide (cmd = "DATA") then handleData arg
    else if bool_decide (cmd = "QUIT") then
      WriteResponse 221 (2, 0, 0) ["Goodnight and good luck"] ;; Close
    else if bool_decide (cmd = "AUTH") then
      if AuthDisabled (server c) then unrecognizedCommand cmd else handleAuth arg
    else if bool_decide (cmd = "STARTTLS") then handleStartTLS
    else unrecognizedCommand cmd.

(** [handle]: the dispatch under the deferred [recover], which answers a
    panic with 421 and closes the connection.  The entry that the recovery
    then writes to the error log is not modelled, nor is a panic inside a
    collaborator: here a handler panics only where it calls a session that
    is not there. *)
Definition handle (cmd arg : string) : M unit :=
  λ s,
    match dispatch cmd arg s with
    | Returned _ s' => Returned tt s'
    | Panicked s' =>
        (WriteResponse 421 (4, 0, 0) ["Internal server error"] ;; Close) s'
    end.

(** Modelled from the spec: the per-connection command loop is declared
    outside conn.go.  Section 2: the engine reads command lines, each flows
    through the dispatcher, and the loop repeats until the connection is
    closed.  The commands arrive split into verb and argument.  The list
    holds the command lines that the loop reads: where the loop stops on a
    read that fails, the list ends. *)
Fixpoint serve (cmds : list (string * string)) (s : St) : St :=
  match cmds with
  | [] => s
  | (cmd, arg) :: rest =>
      if closed s then s else serve rest (state_of (handle cmd arg s))
  end.

End Engine.

(** ** A concrete environment

    An environment to run the engine in: the ASCII behaviour of the library
    functions, parsers in the manner of the package's, a backend that takes
    everything, a mechanism that completes at once and installs a session,
    and a TLS peer whose handshake succeeds or fails as [tls_ok] says. *)
Module Sample.

Definition upper_byte (a : ascii) : ascii :=
  let n := N_of_ascii a in
  if (97 <=? n)%N && (n <=? 122)%N then ascii_of_N (n - 32) else a.

Fixpoint ToUpper (s : string) : string :=
  match s with
  | EmptyString => EmptyString
  | String a s' => String (upper_byte a) (ToUpper s')
  end.

Definition is_space (a : ascii) : bool :=
  let n := N_of_ascii a in
  bool_decide (n = 32%N) || ((9 <=? n)%N && (n <=? 13)%N).

(** Splits around runs of white space; [cur] is the field being read,
    reversed. *)
Fixpoint fields_from (cur : list ascii) (s : string) : list string :=
  let flush := if bool_decide (cur = []) then []
               else [string_of_list_ascii (rev cur)] in
  match s with
  | EmptyString => flush
  | String a s' =>
      if is_space a then flush ++ fields_from [] s'
      else fields_from (a :: cur) s'
  end.

Definition Fields (s : string) : list string := fields_from [] s.

Definition sextet (a : ascii) : option N :=
  let n := N_of_ascii a in
  if (65 <=? n)%N && (n <=? 90)%N then Some (n - 65)%N
  else if (97 <=? n)%N && (n <=? 122)%N then Some (n - 71)%N
  else if (48 <=? n)%N && (n <=? 57)%N then Some (n + 4)%N
  else if bool_decide (n = 43%N) then Some 62%N
  else if bool_decide (n = 47%N) then Some 63%N
  else None.

Definition pad : ascii := "="%char.

(** Standard base64 with padding, four characters at a time. *)
Fixpoint decode_quads (l : list ascii) : option (list ascii) :=
  match l with
  | [] => Some []
  | a :: b :: c :: d :: rest =>
      x ← sextet a; y ← sextet b;
      let b0 := ascii_of_N (x * 4 + y / 16) in
      if bool_decide (c = pad) then
        if bool_decide (d = pad) && bool_decide (rest = []) then Some [b0] else None
      else
        z ← sextet c;
        let b1 := ascii_of_N ((y `mod` 16) * 16 + z / 4) in
        if bool_decide (d = pad) then
          if bool_decide (rest = []) then Some [b0; b1] else None
        else
          t ← sextet d;
          let b2 := ascii_of_N ((z `mod` 4) * 64 + t) in
          tail ← decode_quads rest;
          Some (b0 :: b1 :: b2 :: tail)
  | _ => None
  end.

Definition DecodeString (s : string) : option string :=
  string_of_list_ascii <$> decode_quads (list_ascii_of_string s).

Definition digit (n : N) : ascii :=
  if (n <? 26)%N then ascii_of_N (n + 65)
  else if (n <? 52)%N then ascii_of_N (n + 71)
  else if (n <? 62)%N then ascii_of_N (n - 4)
  else if (n =? 62)%N then "+"%char else "/"%char.

Fixpoint encode_triples (l : list ascii) : list ascii :=
  match l with
  | [] => []
  | [a] =>
      let x := N_of_ascii a in
      [digit (x / 4); digit ((x `mod` 4) * 16); pad; pad]
  | [a; b] =>
      let x := N_of_ascii a in
      let y := N_of_ascii b in
      [digit (x / 4); digit ((x `mod` 4) * 16 + y / 16);
       digit ((y `mod` 16) * 4); pad]
  | a :: b :: c :: rest =>
      let x := N_of_ascii a in
      let y := N_of_ascii b in
      let z := N_of_ascii c in
      digit (x / 4) :: digit ((x `mod` 4) * 16 + y / 16)
      :: digit ((y `mod` 16) * 4 + z / 64) :: digit (z `mod` 64)
      :: encode_triples rest
  end.

Definition EncodeToString (s : string) : string :=
  string_of_list_ascii (encode_triples (list_ascii_of_string s)).

Fixpoint digits_value (acc : Z) (s : string) : option Z :=
  match s with
  | EmptyString => Some acc
  | String a s' =>
      let n := N_of_ascii a in
      if (48 <=? n)%N && (n <=? 57)%N
      then digits_value (acc * 10 + Z.of_N (n - 48)) s'
      else None
  end.

(** A decimal integer that fits 32 bits. *)
Definition ParseInt (s : string) : option Z :=
  v ← match s with
      | EmptyString => None
      | String "-" (String a s') => Z.opp <$> digits_value 0 (String a s')
      | String "+" (String a s') => digits_value 0 (String a s')
      | _ => digits_value 0 s
      end;
  if bool_decide (- 2 ^ 31 ≤ v < 2 ^ 31) then Some v else None.

(** The token before the first space, which must not be empty. *)
Definition parseHelloArgument (arg : string) : option string :=
  match Split arg " " with
  | domain :: _ => if bool_decide (domain = "") then None else Some domain
  | [] => None
  end.

(** [KEY=VALUE] or a bare [KEY]. *)
Fixpoint parseArgs (args : list string) : option (gmap string string) :=
  match args with
  | [] => Some ∅
  | arg :: args' =>
      m ← parseArgs args';
      if bool_decide (arg = "") then Some m
      else match Split arg "=" with
           | [k] => Some (<[ToUpper k := ""]> m)
           | [k; v] => Some (<[ToUpper k := v]> m)
           | _ => None
           end
  end.

Definition env (tls_ok : bool) : Env :=
  mkEnv ToUpper Fields DecodeString EncodeToString ParseInt
    (-1, -1, -1) (0, 0, 0) parseHelloArgument parseArgs
    (λ _ _, (Some 1%nat, None))
    (λ _ _ _, None)
    (λ _ _ _, None)
    (λ _ _ _, None)
    (λ _ _ _, mkNextResult "" true None (Some (Some 2%nat)))
    (λ _ _, if tls_ok then None else Some (OtherErr "tls: handshake failure")).

Definition srv : Server := {|
  Domain := "mx.example";
  LMTP := false;
  Strict := false;
  AuthDisabled := false;
  AllowInsecureAuth := true;
  MaxMessageBytes := 1024;
  MaxRecipients := 2;
  TLSConfig := true;
  caps := ["PIPELINING"; "8BITMIME"];
  auths := {["PLAIN" := 0%nat]}
|}.

(** A fresh connection from [peer], nothing yet on the wire but [w]. *)
Definition fresh (w : list string) : St :=
  mkSt (newConn (RawConn "192.0.2.1:25") srv) w false [].

End Sample.

(** ** Reading a history *)

(** The state with more events in its history. *)
Definition log (evs : list Event) (s : St) : St :=
  mkSt (cn s) (wire s) (closed s) (hist s ++ evs).

(** The state a connection starts in: [newConn], nothing written yet. *)
Definition accepted (c : NetConn) (srv : Server) (w : list string) : St :=
  mkSt (newConn c srv) w false [].

(** The lines of a reply, as [WriteResponse] prints them. *)
Definition reply_lines (env : Env) (code : Z) (enhCode : EnhancedCode)
    (text : list string) : list string :=
  ((λ t, pretty code +:+ "-" +:+ t) <$> removelast text)
  ++ match last text with
     | Some t => [final_line env code (resolve_enhanced env code enhCode) t]
     | None => []
     end.

(** The events of a reply written through [via]. *)
Definition reply (env : Env) (via : NetConn) (code : Z) (enhCode : EnhancedCode)
    (text : list string) : list Event :=
  EvPrintfLine via <$> reply_lines env code enhCode text.

(** The lines printed in a history, in order. *)
Definition printed (h : History) : list string :=
  omap (λ e, match e with EvPrintfLine _ l => Some l | _ => None end) h.

(** What a step added to the history. *)
Definition added (before after : St) : list Event :=
  drop (length (hist before)) (hist after).

(** The session accepted a sender, a recipient. *)
Definition sender_accepted (e : Event) : bool :=
  match e with
  | EvMail _ _ None => true
  | _ => false
  end.

Definition recipient_accepted (e : Event) : bool :=
  match e with
  | EvRcpt _ _ None => true
  | _ => false
  end.

(** Senders and recipients accepted since the last [reset()]. *)
Definition track (acc : nat * nat) (e : Event) : nat * nat :=
  match e with
  | EvReset => (0, 0)%nat
  | EvMail _ _ None => (S acc.1, acc.2)
  | EvRcpt _ _ None => (acc.1, S acc.2)
  | _ => acc
  end.

Definition envelope_events (h : History) : nat * nat := foldl track (0, 0)%nat h.

(** The envelope fields agree with the history. *)
Definition envelope_inv (s : St) : Prop :=
  fromReceived (cn s) = bool_decide (0 < (envelope_events (hist s)).1)%nat ∧
  length (recipients (cn s)) = (envelope_events (hist s)).2 ∧
  (fromReceived (cn s) = false → recipients (cn s) = []).

(** Events that leave the envelope counts alone. *)
Definition quiet (evs : list Event) : Prop :=
  ∀ acc, foldl track acc evs = acc.

(** The envelope fields are those of [s], and the history has only grown
    by events that are neither an acceptance nor a reset. *)
Definition same_envelope (s s' : St) : Prop :=
  fromReceived (cn s') = fromReceived (cn s) ∧
  recipients (cn s') = recipients (cn s) ∧
  ∃ evs, hist s' = hist s ++ evs ∧ quiet evs.

(** A command line whose verb reads [verb] once put in upper case. *)
Definition is_verb (env : Env) (cmd verb : string) : Prop :=
  cmd ≠ "" ∧ ToUpper env cmd = verb.

(** The reply lines that the statements below name. *)
Definition go_ahead : string :=
  "354 2.0.0 Go ahead. End your data with <CR><LF>.<CR><LF>".

(** Senders and recipients accepted since the last reset, greeting or
    handshake of an upgrade. *)
Definition track_since_greeting (acc : nat * nat) (e : Event) : nat * nat :=
  match e with
  | EvReset | EvHelo _ | EvHandshake _ _ => (0, 0)%nat
  | EvMail _ _ None => (S acc.1, acc.2)
  | EvRcpt _ _ None => (acc.1, S acc.2)
  | _ => acc
  end.

Definition events_since_greeting (h : History) : nat * nat :=
  foldl track_since_greeting (0, 0)%nat h.

Definition mail_syntax_line : string :=
  "501 5.5.2 Was expecting MAIL arg syntax of FROM:<address>".

(** The state in which [handleMail] goes on after the anonymous login, when
    that login is needed and does not fail. *)
Definition after_login (env : Env) (s : St) : St :=
  match session (cn s) with
  | Some _ => s
  | None =>
      let login := AnonymousLogin env (hist s) (State (cn s)) in
      mkSt (set_session login.1 (cn s)) (wire s) (closed s)
        (hist s ++ [EvAnonymousLogin (State (cn s)) login])
  end.

Definition known_verbs : list string :=
  ["SEND"; "SOML"; "SAML"; "EXPN"; "HELP"; "TURN"; "HELO"; "EHLO"; "LHLO";
   "MAIL"; "RCPT"; "VRFY"; "NOOP"; "RSET"; "DATA"; "QUIT"; "AUTH"; "STARTTLS"].

(** The command lines that [handle] sends to [unrecognizedCommand]: a verb
    outside the [switch], or AUTH when authentication is disabled. *)
Definition unrecognized (env : Env) (srv : Server) (cmd : string) : Prop :=
  cmd ≠ "" ∧
  (ToUpper env cmd ∉ known_verbs
   ∨ (ToUpper env cmd = "AUTH" ∧ AuthDisabled srv = true)).

Definition unrecognized_line (verb : string) : string :=
  "500 5.5.2 Syntax error, " +:+ verb +:+ " command unrecognized".

Definition too_many_line : string := "500 5.5.2 Too many unrecognized commands".

Definition ready_line : string := "220 2.0.0 Ready to start TLS".

Definition handshake_error_line : string := "550 5.0.0 Handshake error".

Definition wrong_variant_line (lmtp_server : bool) : string :=
  if lmtp_server then "500 5.5.1 This is a LMTP server, use LHLO"
  else "500 5.5.1 This is not a LMTP server".

(** ** Further readings of a state and of a history *)

#[global] Instance NetConn_eq_dec : EqDecision NetConn.
Proof. solve_decision. Defined.

(** The fields of the engine that the envelope commands have no business
    with, and whether the transport has been closed. *)
Definition shell (s : St) : NetConn * NetConn * Server * string * Z * bool :=
  (conn (cn s), text (cn s), server (cn s), helo (cn s), nbrErrors (cn s),
   closed s).

(** An event that is neither an acceptance by the session nor a reset. *)
Definition neutral (e : Event) : bool :=
  match e with
  | EvReset | EvMail _ _ None | EvRcpt _ _ None => false
  | _ => true
  end.

(** The recipients the session has accepted since the last [reset()], in
    the order of acceptance. *)
Definition track_recipients (acc : list string) (e : Event) : list string :=
  match e with
  | EvReset => []
  | EvRcpt _ to None => acc ++ [to]
  | _ => acc
  end.

Definition accepted_recipients (h : History) : list string :=
  foldl track_recipients [] h.

(** A collaborator was called: backend, session or mechanism. *)
Definition is_call (e : Event) : bool :=
  match e with
  | EvAnonymousLogin _ _ | EvMail _ _ _ | EvRcpt _ _ _ | EvData _ _ _
  | EvSessionReset _ | EvLogout _ | EvNext _ _ _ | EvHandshake _ _ => true
  | _ => false
  end.

(** The reply to the outcome of a call to the session: a structured error
    verbatim, any other error under the code of the call site. *)
Definition error_reply (env : Env) (via : NetConn) (err : error) (code : Z)
    (enh : EnhancedCode) : list Event :=
  match err with
  | SMTPErr e => reply env via (Code e) (ErrEnhancedCode e) [Message e]
  | OtherErr t => reply env via code enh [t]
  end.

(** What [Close] adds to the history. *)
Definition close_events (c : Conn) : list Event :=
  match session c with
  | Some sess => [EvLogout sess]
  | None => []
  end ++ [EvConnClose (conn c)].

Definition internal_error_line : string := "421 4.0.0 Internal server error".

(** An environment whose backend answers every anonymous login with [r]. *)
Definition with_login (r : option Session * option error) (e : Env) : Env :=
  mkEnv (ToUpper e) (Fields e) (DecodeString e) (EncodeToString e) (ParseInt e)
    (NoEnhancedCode e) (EnhancedCodeNotSet e) (parseHelloArgument e) (parseArgs e)
    (λ _ _, r) (Mail e) (Rcpt e) (Data e) (Next e) (Handshake e).

(** An environment whose session answers every call with [r], and one whose
    mechanism answers every turn with [r]. *)
Definition with_session (r : option error) (e : Env) : Env :=
  mkEnv (ToUpper e) (Fields e) (DecodeString e) (EncodeToString e) (ParseInt e)
    (NoEnhancedCode e) (EnhancedCodeNotSet e) (parseHelloArgument e) (parseArgs e)
    (AnonymousLogin e) (λ _ _ _, r) (λ _ _ _, r) (λ _ _ _, r) (Next e)
    (Handshake e).

Definition with_next (r : NextResult) (e : Env) : Env :=
  mkEnv (ToUpper e) (Fields e) (DecodeString e) (EncodeToString e) (ParseInt e)
    (NoEnhancedCode e) (EnhancedCodeNotSet e) (parseHelloArgument e) (parseArgs e)
    (AnonymousLogin e) (Mail e) (Rcpt e) (Data e) (λ _ _ _, r) (Handshake e).

(** The events of an AUTH exchange: lines printed, turns of the mechanism,
    lines read. *)
Definition auth_event (e : Event) : bool :=
  match e with
  | EvPrintfLine _ _ | EvNext _ _ _ | EvReadLine _ => true
  | _ => false
  end.

(** The recipient sequence is the sequence of accepted recipients. *)
Definition recipients_inv (s : St) : Prop :=
  recipients (cn s) = accepted_recipients (hist s).

(** Code, enhanced code and text of the reply to an outcome of
    [Session.Data]. *)
Definition data_outcome (r : option error) : Z * EnhancedCode * string :=
  match r with
  | Some (SMTPErr e) => (Code e, ErrEnhancedCode e, Message e)
  | Some (OtherErr t) =>
      (554, (5, 0, 0),
       "Error: transaction failed, blame it on the weather: " +:+ t)
  | None => (250, (2, 0, 0), "OK: queued")
  end.

(** The replies that end a DATA transaction: one, or in LMTP mode one for
    each recipient. *)
Definition data_replies (env : Env) (c : Conn) (r : option error) : list Event :=
  let '(code, enh, msg) := data_outcome r in
  if LMTP (server c)
  then concat ((λ rcpt, reply env (text c) code enh ["<" +:+ rcpt +:+ "> " +:+ msg])
                 <$> recipients c)
  else reply env (text c) code enh [msg].

(** The engine with its envelope cleared. *)
Definition cleared (c : Conn) : Conn :=
  set_recipients [] (set_fromReceived false c).

(** What [reset] adds to the history. *)
Definition reset_events (c : Conn) : list Event :=
  EvReset :: match session c with
             | Some sess => [EvSessionReset sess]
             | None => []
             end.

(** The command lines that [handle] answers with a fixed line and nothing
    else, and that line. *)
Definition fixed_reply (env : Env) (cmd : string) : option string :=
  let verb := ToUpper env cmd in
  if bool_decide (cmd = "") then Some "500 5.5.2 Speak up"
  else if bool_decide (verb ∈ ["SEND"; "SOML"; "SAML"; "EXPN"; "HELP"; "TURN"])
  then Some ("502 5.5.1 " +:+ verb +:+ " command not implemented")
  else if bool_decide (verb = "VRFY")
  then Some "252 2.5.0 Cannot VRFY user, but will accept message"
  else if bool_decide (verb = "NOOP")
  then Some "250 2.0.0 I have sucessfully done nothing"
  else None.

(** The argument of MAIL passes the syntax checks of [handleMail], with
    [from] the address and [params] the ESMTP parameters after it. *)
Definition mail_argument (env : Env) (strict : bool) (arg from : string)
    (params : list string) : Prop :=
  (6 ≤ String.length arg)%nat ∧ ToUpper env (slice_to 5 arg) = "FROM:" ∧
  ∃ from0,
    Split (Trim (slice_from 5 arg) " ") " " = from0 :: params
    ∧ (strict = true → HasPrefix from0 "<" = true ∧ HasSuffix from0 ">" = true)
    ∧ from = Trim from0 "<> " ∧ from ≠ "".

(** The argument of MAIL fails a syntax check of [handleMail]: too short or
    without the prefix, not in brackets under strict mode, or empty once
    trimmed. *)
Definition mail_argument_bad (env : Env) (strict : bool) (arg : string) : Prop :=
  (String.length arg < 6)%nat ∨ ToUpper env (slice_to 5 arg) ≠ "FROM:"
  ∨ ∃ from0 params,
      Split (Trim (slice_from 5 arg) " ") " " = from0 :: params
      ∧ ((strict = true ∧ (HasPrefix from0 "<" = false ∨ HasSuffix from0 ">" = false))
         ∨ Trim from0 "<> " = "").

(** The line that refuses the ESMTP parameters of MAIL, if they are
    refused. *)
Definition mail_params_refusal (env : Env) (srv : Server)
    (params : list string) : option string :=
  if bool_decide (params = []) then None
  else
    match parseArgs env params with
    | None => Some "501 5.5.4 Unable to parse MAIL ESMTP parameters"
    | Some args =>
        let size_arg := default "" (args !! "SIZE") in
        if bool_decide (size_arg = "") then None
        else
          match ParseInt env size_arg with
          | None => Some "501 5.5.4 Unable to parse SIZE as an integer"
          | Some size =>
              if bool_decide (MaxMessageBytes srv > 0)
                 && bool_decide (size > MaxMessageBytes srv)
              then Some "552 5.3.4 Max message size exceeded"
              else None
          end
    end.

(** The argument of RCPT passes the syntax check of [handleRcpt]. *)
Definition rcpt_argument (env : Env) (arg : string) : Prop :=
  (4 ≤ String.length arg)%nat ∧ ToUpper env (slice_to 3 arg) = "TO:".

(** A server like [Sample.srv], in strict mode. *)
Definition strict_srv : Server :=
  mkServer "mx.example" false true false true 1024 2 true [] ∅.

(** The engine holds the session [sess], or holds none and the anonymous
    login is about to yield [sess]. *)
Definition session_ready (env : Env) (s : St) (sess : Session) : Prop :=
  session (cn s) = Some sess
  ∨ (session (cn s) = None
     ∧ AnonymousLogin env (hist s) (State (cn s)) = (Some sess, None)).

(** The argument of AUTH names the mechanism [name] and carries the
    initial response [ir]: none ([None], a nil slice) when the argument has
    one field, the decoding of the second field otherwise. *)
Definition auth_argument (env : Env) (arg name : string)
    (ir : option string) : Prop :=
  (Fields env arg = [name] ∧ ir = None)
  ∨ ∃ encoded more decoded,
      Fields env arg = name :: encoded :: more
      ∧ DecodeString env encoded = Some decoded ∧ ir = Some decoded.

(** The engine after a turn of the mechanism: with the session the
    mechanism installed, if it installed one. *)
Definition installs (r : NextResult) (c : Conn) : Conn :=
  match installed r with
  | Some x => set_session x c
  | None => c
  end.

(** The TLS handshakes that a history has run, failed ones included. *)
Definition count_handshake (n : nat) (e : Event) : nat :=
  match e with
  | EvHandshake _ _ => S n
  | _ => n
  end.

Definition handshakes (h : History) : nat := foldl count_handshake 0%nat h.

Definition is_handshake (e : Event) : bool :=
  match e with
  | EvHandshake _ _ => true
  | _ => false
  end.

(** The transport that a connection accepted on [c] holds once [n]
    handshakes have been run on it. *)
Definition transport_after (c : NetConn) (n : nat) : NetConn :=
  match n with
  | O => c
  | S _ => TLSConn c
  end.

(** The transport agrees with the handshakes of the history. *)
Definition transport_inv (c : NetConn) (s : St) : Prop :=
  conn (cn s) = transport_after c (handshakes (hist s)) ∧
  (handshakes (hist s) ≤ 1)%nat ∧
  (isTLSConn c = true → handshakes (hist s) = 0%nat).

Definition too_busy_line : string := "421 4.4.5 Too busy. Try again later.".

(** A server like [Sample.srv] without a limit on the size of a message,
    and one on which authentication is disabled. *)
Definition unlimited_srv : Server :=
  mkServer "mx.example" false false false true 0 2 true
    ["PIPELINING"; "8BITMIME"] {["PLAIN" := 0%nat]}.

Definition no_auth_srv : Server :=
  mkServer "mx.example" false false true true 1024 2 true
    ["PIPELINING"; "8BITMIME"] ∅.

(** The capability lines of the EHLO reply when the range over
    [server.auths] yields the mechanism names in the order [names]. *)
Definition ehlo_caps_in (names : list string) (c : Conn) : list string :=
  caps (server c)
  ++ (if TLSConfig (server c) && negb (isTLSConn (conn c))
      then ["STARTTLS"] else [])
  ++ (if authAllowed c
      then [foldl (λ authCap name, authCap +:+ " " +:+ name) "AUTH" names]
      else [])
  ++ (if bool_decide (MaxMessageBytes (server c) > 0)
      then ["SIZE " +:+ pretty (MaxMessageBytes (server c))] else []).

(** [names] lists the mechanisms registered on [srv], each once, in some
    order. *)
Definition mechanism_order (srv : Server) (names : list string) : Prop :=
  NoDup names ∧ ∀ name, name ∈ names ↔ is_Some (auths srv !! name).

(** The state in which the deferred recovery of [handle] leaves the
    connection when the handler panicked after adding [evs]. *)
Definition recovered (s : St) (evs : list Event) : St :=
  mkSt (cn s) (wire s) true
    (hist s ++ evs ++ [EvPrintfLine (text (cn s)) internal_error_line;
                       EvConnClose (conn (cn s))]).

(** ** The reply writer *)

Section Writer.
Context (env : Env).

Lemma log_nil s : log [] s = s.
Proof. destruct s. unfold log. simpl. by rewrite app_nil_r. Qed.

Lemma log_log evs1 evs2 s : log evs2 (log evs1 s) = log (evs1 ++ evs2) s.
Proof. unfold log. simpl. by rewrite app_assoc. Qed.

Lemma for_each_PrintfLine (f : string -> string) l s :
  for_each (λ t, PrintfLine (f t)) l s
  = Returned tt (log ((λ t, EvPrintfLine (text (cn s)) (f t)) <$> l) s).
Proof.
  revert s. induction l as [|t l IH]; intros s; simpl.
  - by rewrite log_nil.
  - unfold mbind, M_bind, PrintfLine at 1, get_conn, emit. simpl.
    rewrite IH. simpl. f_equal. unfold log. simpl. by rewrite <- app_assoc.
Qed.

Lemma WriteResponse_eq code enhCode text_ s :
  text_ ≠ [] →
  WriteResponse env code enhCode text_ s
  = Returned tt (log (reply env (text (cn s)) code enhCode text_) s).
Proof.
  intros Hne. unfold WriteResponse, reply, reply_lines.
  unfold mbind, M_bind. rewrite for_each_PrintfLine.
  destruct (last text_) as [t|] eqn:Hlast.
  - unfold PrintfLine, mbind, M_bind, get_conn, emit. simpl.
    f_equal. unfold log. simpl.
    by rewrite fmap_app, <- list_fmap_compose, <- app_assoc.
  - apply last_None in Hlast. done.
Qed.

Lemma WriteResponse_empty code enhCode s :
  WriteResponse env code enhCode [] s = Panicked s.
Proof. reflexivity. Qed.

Lemma for_each_WriteResponse code enhCode (f : string -> string) l s :
  for_each (λ x, WriteResponse env code enhCode [f x]) l s
  = Returned tt
      (log (concat ((λ x, reply env (text (cn s)) code enhCode [f x]) <$> l)) s).
Proof.
  revert s. induction l as [|x l IH]; intros s; simpl.
  - by rewrite log_nil.
  - unfold mbind, M_bind. rewrite WriteResponse_eq by done.
    rewrite IH. simpl. by rewrite log_log.
Qed.

(** The last line of a reply with an explicit code that is no sentinel. *)
Lemma final_line_explicit code a b c t :
  sentinels_wf env → generic_class a = true →
  final_line env code (resolve_enhanced env code (a, b, c)) t
  = pretty code +:+ " " +:+ fmt_enhanced (a, b, c) +:+ " " +:+ t.
Proof.
  intros (Hno & Hns & _) Ha. unfold final_line, resolve_enhanced.
  assert (H1 : (a, b, c) ≠ EnhancedCodeNotSet env)
    by (intros E; rewrite <- E in Hns; simpl in Hns; congruence).
  assert (H2 : (a, b, c) ≠ NoEnhancedCode env)
    by (intros E; rewrite <- E in Hno; simpl in Hno; congruence).
  by rewrite (bool_decide_eq_false_2 _ H1), (bool_decide_eq_false_2 _ H2).
Qed.

End Writer.

Section WriterClaims.
Context (env : Env).

Lemma generic_class_cases cat :
  generic_class cat = true → cat = 2 ∨ cat = 4 ∨ cat = 5.
Proof.
  unfold generic_class. rewrite !orb_true_iff, !bool_decide_eq_true. tauto.
Qed.

(** The last line of a reply whose enhanced code is the not-set sentinel. *)
Lemma final_line_not_set code t :
  sentinels_wf env →
  final_line env code (resolve_enhanced env code (EnhancedCodeNotSet env)) t
  = if generic_class (code `quot` 100)
    then pretty code +:+ " " +:+ pretty (code `quot` 100) +:+ ".0.0 " +:+ t
    else pretty code +:+ " " +:+ t.
Proof.
  intros (Hno & Hns & Hne). unfold final_line, resolve_enhanced.
  rewrite (bool_decide_eq_true_2 (EnhancedCodeNotSet env = EnhancedCodeNotSet env))
    by done.
  destruct (generic_class (code `quot` 100)) eqn:Hcat.
  - rewrite bool_decide_eq_false_2.
    + apply generic_class_cases in Hcat.
      destruct Hcat as [-> | [-> | ->]]; reflexivity.
    + intros E. rewrite <- E in Hno. simpl in Hno. congruence.
  - by rewrite bool_decide_eq_true_2.
Qed.

(** The last line of a reply given the no-enhanced-code marker. *)
Lemma final_line_no_code code t :
  sentinels_wf env →
  final_line env code (resolve_enhanced env code (NoEnhancedCode env)) t
  = pretty code +:+ " " +:+ t.
Proof.
  intros (Hno & Hns & Hne). unfold final_line, resolve_enhanced.
  rewrite (bool_decide_eq_false_2 (NoEnhancedCode env = EnhancedCodeNotSet env))
    by done.
  by rewrite bool_decide_eq_true_2.
Qed.

Lemma reply_lines_snoc code enhCode texts t :
  reply_lines env code enhCode (texts ++ [t])
  = ((λ x, pretty code +:+ "-" +:+ x) <$> texts)
    ++ [final_line env code (resolve_enhanced env code enhCode) t].
Proof.
  unfold reply_lines. by rewrite removelast_last, last_snoc.
Qed.

(** C6.  The reply writer, for every base code, every text and every state:
    all lines but the last are [code-text]; given the not-set sentinel, the
    last line carries the enhanced code [class.0.0] taken from the hundreds
    digit of the code when that class is 2, 4 or 5, and no enhanced code
    otherwise; given the no-enhanced-code marker the last line carries no
    enhanced-code segment.  So 250 with the sentinel gives [250 2.0.0 text],
    421 gives [421 4.0.0 text], and 502 with the marker gives [502 text]. *)
Theorem WriteResponse_enhanced_code (s : St) (code : Z) (texts : list string)
    (t : string) :
  sentinels_wf env →
  let via := text (cn s) in
  let head := (λ x, EvPrintfLine via (pretty code +:+ "-" +:+ x)) <$> texts in
  WriteResponse env code (EnhancedCodeNotSet env) (texts ++ [t]) s
  = Returned tt (log (head ++ [EvPrintfLine via
      (if generic_class (code `quot` 100)
       then pretty code +:+ " " +:+ pretty (code `quot` 100) +:+ ".0.0 " +:+ t
       else pretty code +:+ " " +:+ t)]) s)
  ∧ WriteResponse env code (NoEnhancedCode env) (texts ++ [t]) s
    = Returned tt (log (head ++ [EvPrintfLine via (pretty code +:+ " " +:+ t)]) s)
  ∧ WriteResponse env 250 (EnhancedCodeNotSet env) [t] s
    = Returned tt (log [EvPrintfLine via ("250 2.0.0 " +:+ t)] s)
  ∧ WriteResponse env 421 (EnhancedCodeNotSet env) [t] s
    = Returned tt (log [EvPrintfLine via ("421 4.0.0 " +:+ t)] s)
  ∧ WriteResponse env 502 (NoEnhancedCode env) [t] s
    = Returned tt (log [EvPrintfLine via ("502 " +:+ t)] s).
Proof.
  intros Hwf via head.
  assert (Hgen : ∀ enh, WriteResponse env code enh (texts ++ [t]) s
    = Returned tt (log (head ++ [EvPrintfLine via
        (final_line env code (resolve_enhanced env code enh) t)]) s)).
  { intros enh. rewrite WriteResponse_eq by (by destruct texts).
    unfold reply. rewrite reply_lines_snoc, fmap_app, <- list_fmap_compose.
    reflexivity. }
  assert (Hone : ∀ c enh, WriteResponse env c enh [t] s
    = Returned tt (log [EvPrintfLine via
        (final_line env c (resolve_enhanced env c enh) t)] s)).
  { intros c enh. by rewrite WriteResponse_eq. }
  repeat split.
  - by rewrite Hgen, final_line_not_set.
  - by rewrite Hgen, final_line_no_code.
  - by rewrite Hone, final_line_not_set.
  - by rewrite Hone, final_line_not_set.
  - by rewrite Hone, final_line_no_code.
Qed.

End WriterClaims.

Lemma sample_sentinels_wf tls_ok : sentinels_wf (Sample.env tls_ok).
Proof. repeat split; done. Defined.

Lemma WriteResponse_enhanced_code_witness :
  sentinels_wf (Sample.env true) ∧
  WriteResponse (Sample.env true) 250 (0, 0, 0) ["Hello"; "OK"] (Sample.fresh [])
  = Returned tt (log [EvPrintfLine (RawConn "192.0.2.1:25") "250-Hello";
                      EvPrintfLine (RawConn "192.0.2.1:25") "250 2.0.0 OK"]
                   (Sample.fresh [])).
Proof.
  split; [apply sample_sentinels_wf|].
  apply (WriteResponse_enhanced_code (Sample.env true) (Sample.fresh []) 250
           ["Hello"] "OK" (sample_sentinels_wf true)).
Defined.

(** ** Running the handlers *)

Arguments WriteResponse : simpl never.
Arguments reply : simpl never.
Arguments slice_from : simpl never.
Arguments slice_to : simpl never.
Arguments Trim : simpl never.
Arguments Split : simpl never.
Arguments HasPrefix : simpl never.
Arguments HasSuffix : simpl never.
Arguments String.length : simpl never.

Ltac unfold_monad :=
  unfold mbind, M_bind, mret, M_ret, get_conn, get_hist, get_wire,
    modify_conn, emit, set_wire, set_closed, SetSession, panic, init, Close in *.

(** One step of symbolic execution of a handler applied to a state. *)
Ltac run_step :=
  first
    [ rewrite WriteResponse_eq by done
    | rewrite for_each_WriteResponse
    | progress unfold_monad
    | progress simpl
    | match goal with
      | |- context [match ?x with _ => _ end] =>
          lazymatch x with
          | context [match _ with _ => _ end] => fail
          | _ => destruct x eqn:?
          end
      | |- context [if ?x then _ else _] =>
          lazymatch x with
          | context [if _ then _ else _] => fail
          | _ => destruct x eqn:?
          end
      end ].

Ltac run := repeat run_step.

Section Frames.
Context (env : Env).

Lemma quiet_nil : quiet [].
Proof. by intros acc. Qed.

Lemma quiet_app evs1 evs2 : quiet evs1 → quiet evs2 → quiet (evs1 ++ evs2).
Proof. intros H1 H2 acc. by rewrite foldl_app, H1, H2. Qed.

Lemma quiet_reply via code enhCode text_ : quiet (reply env via code enhCode text_).
Proof.
  unfold reply. induction (reply_lines env code enhCode text_) as [|l ls IH];
    intros acc; simpl; [done|apply IH].
Qed.

Lemma quiet_cons_quiet e evs :
  (∀ acc, track acc e = acc) → quiet evs → quiet (e :: evs).
Proof. intros He Hq acc. simpl. by rewrite He. Qed.

Lemma envelope_events_app h evs :
  envelope_events (h ++ evs) = foldl track (envelope_events h) evs.
Proof. apply foldl_app. Qed.

Lemma envelope_events_quiet h evs :
  quiet evs → envelope_events (h ++ evs) = envelope_events h.
Proof. intros Hq. by rewrite envelope_events_app, Hq. Qed.

Lemma same_envelope_refl s : same_envelope s s.
Proof. repeat split. exists []. by rewrite app_nil_r. Qed.

Lemma same_envelope_trans s1 s2 s3 :
  same_envelope s1 s2 → same_envelope s2 s3 → same_envelope s1 s3.
Proof.
  intros (Hf1 & Hr1 & evs1 & Hh1 & Hq1) (Hf2 & Hr2 & evs2 & Hh2 & Hq2).
  repeat split; [congruence..|].
  exists (evs1 ++ evs2). split; [|by apply quiet_app].
  by rewrite Hh2, Hh1, app_assoc.
Qed.

Lemma same_envelope_inv s s' :
  same_envelope s s' → envelope_inv s → envelope_inv s'.
Proof.
  intros (Hf & Hr & evs & Hh & Hq) (H1 & H2 & H3). unfold envelope_inv.
  by rewrite Hf, Hr, Hh, envelope_events_quiet.
Qed.

(** A state that differs from [s] in fields other than those of the
    envelope, with quiet events logged. *)
Lemma same_envelope_intro s c w cl evs :
  fromReceived c = fromReceived (cn s) → recipients c = recipients (cn s) →
  quiet evs → same_envelope s (mkSt c w cl (hist s ++ evs)).
Proof. intros ???. repeat split; [done..|]. by exists evs. Qed.

End Frames.

Create HintDb quiet.
#[local] Hint Resolve quiet_nil quiet_app quiet_reply : quiet.

(** Closes an invariant goal on an explicit final state. *)
Ltac inv_leaf :=
  unfold envelope_inv in *; simpl in *;
  rewrite ?envelope_events_app, ?foldl_app in *; simpl in *;
  rewrite ?quiet_reply, ?length_app, ?negb_false_iff, ?negb_true_iff in *;
  simpl in *;
  try (intuition (eauto; first [congruence | lia])).

#[local] Hint Extern 1 (quiet (_ :: _)) =>
  apply quiet_cons_quiet; [reflexivity|] : quiet.

(** Closes a frame goal on an explicit final state. *)
Ltac frame_leaf :=
  first
    [ apply same_envelope_refl
    | repeat split; simpl; try done;
      eexists; split; [rewrite <- ?app_assoc; reflexivity|eauto 10 with quiet] ].

Section Invariant.
Context (env : Env).

Lemma quiet_concat_reply via code enhCode (f : string -> string) l :
  quiet (concat ((λ x, reply env via code enhCode [f x]) <$> l)).
Proof.
  induction l as [|x l IH]; [apply quiet_nil|].
  rewrite fmap_cons.
  apply (quiet_app (reply env via code enhCode [f x])); [apply quiet_reply|exact IH].
Qed.

Lemma Close_eq s :
  Close s = Returned tt
    (mkSt (cn s) (wire s) true
       (hist s ++ match session (cn s) with
                  | Some sess => [EvLogout sess]
                  | None => []
                  end ++ [EvConnClose (conn (cn s))])).
Proof.
  run; try reflexivity. by rewrite <- app_assoc.
Qed.

Lemma handleMail_inv arg s :
  envelope_inv s → envelope_inv (state_of (handleMail env arg s)).
Proof.
  intros Hinv. unfold handleMail, ensure_session, check_mail_params,
    reply_error, mail_syntax_error.
  run; inv_leaf.
Qed.

Lemma handleRcpt_inv arg s :
  envelope_inv s → envelope_inv (state_of (handleRcpt env arg s)).
Proof.
  intros Hinv. unfold handleRcpt, reply_error.
  run; inv_leaf.
Qed.

Lemma reset_inv s : envelope_inv (state_of (reset s)).
Proof. unfold reset. run; inv_leaf. Qed.

Lemma handleGreet_inv enhanced arg s :
  envelope_inv s → envelope_inv (state_of (handleGreet env enhanced arg s)).
Proof.
  intros Hinv. unfold handleGreet.
  run; inv_leaf.
Qed.

Lemma unrecognizedCommand_inv cmd s :
  envelope_inv s → envelope_inv (state_of (unrecognizedCommand env cmd s)).
Proof.
  intros Hinv. unfold unrecognizedCommand.
  run; inv_leaf.
Qed.

Lemma handleStartTLS_inv s :
  envelope_inv s → envelope_inv (state_of (handleStartTLS env s)).
Proof.
  intros Hinv. unfold handleStartTLS, reset.
  run; inv_leaf.
Qed.

Lemma handleData_inv arg s :
  envelope_inv s → envelope_inv (state_of (handleData env arg s)).
Proof.
  intros Hinv. unfold handleData, reset.
  run; inv_leaf.
Qed.

Lemma saslLoop_same_envelope f w response s :
  same_envelope s (state_of (saslLoop env f w response s)).
Proof.
  revert response s.
  induction w as [|line w IH]; intros response s; simpl; unfold reply_error; run.
  all: try (eapply same_envelope_trans; [|apply IH]).
  all: frame_leaf.
Qed.

Lemma handleAuth_same_envelope arg s :
  same_envelope s (state_of (handleAuth env arg s)).
Proof.
  unfold handleAuth, auth_exchange.
  run;
    try match goal with
        | H : saslLoop env ?f ?w ?r ?s0 = _ |- _ =>
            pose proof (saslLoop_same_envelope f w r s0) as Hloop;
            rewrite H in Hloop; simpl in Hloop;
            eapply same_envelope_trans; [exact Hloop|]
        end;
    frame_leaf.
Qed.

Lemma dispatch_inv cmd arg s :
  envelope_inv s → envelope_inv (state_of (dispatch env cmd arg s)).
Proof.
  intros Hinv. unfold dispatch, reset.
  run;
    first [ apply handleGreet_inv | apply handleMail_inv | apply handleRcpt_inv
          | apply handleData_inv | apply handleStartTLS_inv
          | apply unrecognizedCommand_inv
          | eapply same_envelope_inv; [apply handleAuth_same_envelope|]
          | idtac ];
    inv_leaf.
Qed.

(** Every command leaves the envelope fields in agreement with the history,
    whether its handler returns or panics. *)
Lemma handle_inv cmd arg s :
  envelope_inv s → envelope_inv (state_of (handle env cmd arg s)).
Proof.
  intros Hinv. unfold handle.
  pose proof (dispatch_inv cmd arg s Hinv) as Hd.
  destruct (dispatch env cmd arg s) as [[] s'|s']; simpl in *; [done|].
  run; inv_leaf.
Qed.

Lemma accepted_inv c srv w : envelope_inv (accepted c srv w).
Proof. by split. Qed.

Lemma serve_inv cmds s :
  envelope_inv s → envelope_inv (serve env cmds s).
Proof.
  revert s. induction cmds as [|[cmd arg] cmds IH]; intros s Hinv; simpl; [done|].
  destruct (closed s); [done|]. by apply IH, handle_inv.
Qed.

End Invariant.

(** ** Dispatch *)

Section Dispatch.
Context (env : Env).

Lemma handle_returned cmd arg s s' :
  dispatch env cmd arg s = Returned tt s' → handle env cmd arg s = Returned tt s'.
Proof. intros H. unfold handle. by rewrite H. Qed.

Lemma dispatch_DATA cmd arg s :
  is_verb env cmd "DATA" → dispatch env cmd arg s = handleData env arg s.
Proof.
  intros [Hne Hup]. unfold dispatch.
  rewrite bool_decide_eq_false_2 by done. by rewrite Hup.
Qed.

Lemma dispatch_RCPT cmd arg s :
  is_verb env cmd "RCPT" → dispatch env cmd arg s = handleRcpt env arg s.
Proof.
  intros [Hne Hup]. unfold dispatch.
  rewrite bool_decide_eq_false_2 by done. by rewrite Hup.
Qed.

Lemma dispatch_MAIL cmd arg s :
  is_verb env cmd "MAIL" → dispatch env cmd arg s = handleMail env arg s.
Proof.
  intros [Hne Hup]. unfold dispatch.
  rewrite bool_decide_eq_false_2 by done. by rewrite Hup.
Qed.

Lemma dispatch_STARTTLS cmd arg s :
  is_verb env cmd "STARTTLS" → dispatch env cmd arg s = handleStartTLS env s.
Proof.
  intros [Hne Hup]. unfold dispatch.
  rewrite bool_decide_eq_false_2 by done. by rewrite Hup.
Qed.

Lemma dispatch_AUTH cmd arg s :
  is_verb env cmd "AUTH" → AuthDisabled (server (cn s)) = false →
  dispatch env cmd arg s = handleAuth env arg s.
Proof.
  intros [Hne Hup] Hauth. unfold dispatch.
  rewrite bool_decide_eq_false_2 by done. rewrite Hup.
  unfold_monad. simpl. by rewrite Hauth.
Qed.

End Dispatch.

(** ** The data command *)

(** Normalises the text of a one-line reply with an explicit code. *)
Ltac explicit_reply Hwf :=
  unfold reply, reply_lines; simpl;
  rewrite ?(final_line_explicit _ _ _ _ _ _ Hwf) by reflexivity;
  repeat match goal with
         | |- context [pretty ?c +:+ ?rest] =>
             let r := eval vm_compute in (pretty c +:+ rest) in
             change (pretty c +:+ rest) with r
         end.

Section DataCommand.
Context (env : Env) (Hwf : sentinels_wf env).

Lemma added_log evs s s' : hist s' = hist s ++ evs → added s s' = evs.
Proof. intros H. unfold added. by rewrite H, drop_app_length. Qed.

Lemma handleData_argument arg s :
  arg ≠ "" →
  handleData env arg s
  = Returned tt (log [EvPrintfLine (text (cn s))
      "501 5.5.4 DATA command should not have any arguments"] s).
Proof.
  intros Harg. unfold handleData.
  rewrite bool_decide_eq_false_2 by done. simpl.
  rewrite WriteResponse_eq by done. by explicit_reply Hwf.
Qed.

Lemma handleData_no_envelope s :
  fromReceived (cn s) = false ∨ recipients (cn s) = [] →
  handleData env "" s
  = Returned tt (log [EvPrintfLine (text (cn s))
      "502 5.5.1 Missing RCPT TO command."] s).
Proof.
  intros Hst. unfold handleData. simpl. unfold_monad. simpl.
  assert (negb (fromReceived (cn s))
          || bool_decide (length (recipients (cn s)) = 0%nat) = true) as ->.
  { destruct Hst as [-> | ->]; [done|]. by rewrite orb_true_r. }
  rewrite WriteResponse_eq by done. by explicit_reply Hwf.
Qed.

(** With a sender and a recipient the engine prints 354 and, when it holds
    a session, hands it the body read off the wire. *)
Lemma handleData_go_ahead s :
  fromReceived (cn s) = true → recipients (cn s) ≠ [] →
  ∃ tail,
    hist (state_of (handleData env "" s))
    = hist s ++ EvPrintfLine (text (cn s)) go_ahead :: tail ∧
    ∀ sess, session (cn s) = Some sess →
      wire (state_of (handleData env "" s)) = (dataReader (wire s)).2 ∧
      ∃ tail',
        tail = EvData sess (dataReader (wire s)).1
                 (Data env (hist s ++ [EvPrintfLine (text (cn s)) go_ahead]) sess
                    (dataReader (wire s)).1) :: tail'.
Proof.
  intros Hfrom Hrcpt. unfold handleData. simpl. unfold_monad. simpl.
  assert (negb (fromReceived (cn s))
          || bool_decide (length (recipients (cn s)) = 0%nat) = false) as ->.
  { rewrite Hfrom. simpl. apply bool_decide_eq_false_2.
    by destruct (recipients (cn s)). }
  simpl. explicit_reply Hwf.
  fold go_ahead. unfold reset.
  destruct (dataReader (wire s)) as [body rest] eqn:Hdr.
  destruct (session (cn s)) as [sess|] eqn:Hsess; simpl.
  - run; eexists; (split; [rewrite <- ?app_assoc; reflexivity|]);
      intros ? [= <-]; (split; [done|]); eexists;
      match goal with H : Data _ _ _ _ = _ |- _ => rewrite H end; reflexivity.
  - eexists. split; [reflexivity|]. done.
Qed.

(** What the deferred [recover] adds: nothing when the dispatch returns. *)
Lemma handle_no_panic cmd arg s :
  panicked (dispatch env cmd arg s) = false →
  state_of (handle env cmd arg s) = state_of (dispatch env cmd arg s).
Proof. unfold handle. by destruct (dispatch env cmd arg s) as [[] ?|?]. Qed.

Lemma handle_hist cmd arg s :
  ∃ extra,
    hist (state_of (handle env cmd arg s))
    = hist (state_of (dispatch env cmd arg s)) ++ extra.
Proof.
  unfold handle. destruct (dispatch env cmd arg s) as [[] s'|s']; simpl.
  - exists []. by rewrite app_nil_r.
  - run; eexists; rewrite <- ?app_assoc; reflexivity.
Qed.

Lemma data_command_spec cmd arg s :
  envelope_inv s → is_verb env cmd "DATA" →
  let s' := state_of (handle env cmd arg s) in
  let n := envelope_events (hist s) in
  let ready := arg = "" ∧ (1 ≤ n.1)%nat ∧ (1 ≤ n.2)%nat in
  (go_ahead ∈ printed (added s s') ↔ ready)
  ∧ (ready →
     ∃ tail, added s s' = EvPrintfLine (text (cn s)) go_ahead :: tail ∧
       ∀ sess, session (cn s) = Some sess →
         ∃ tail', tail = EvData sess (dataReader (wire s)).1
           (Data env (hist s ++ [EvPrintfLine (text (cn s)) go_ahead]) sess
              (dataReader (wire s)).1) :: tail')
  ∧ (¬ ready →
     s' = log [EvPrintfLine (text (cn s))
                 (if bool_decide (arg = "")
                  then "502 5.5.1 Missing RCPT TO command."
                  else "501 5.5.4 DATA command should not have any arguments")] s).
Proof.
  intros (Hfrom & Hlen & _) Hverb s' n ready.
  assert (Hrej : ∀ line, line ≠ go_ahead →
            s' = log [EvPrintfLine (text (cn s)) line] s →
            ¬ go_ahead ∈ printed (added s s')).
  { intros line Hline -> Hin. rewrite (added_log [EvPrintfLine (text (cn s)) line]) in Hin
      by done. simpl in Hin. apply list_elem_of_singleton in Hin. congruence. }
  destruct (decide (arg = "")) as [->|Harg].
  - destruct (decide ((1 ≤ n.1)%nat ∧ (1 ≤ n.2)%nat)) as [[Hn1 Hn2]|Hn].
    + (* accepted *)
      assert (Hready : ready) by done.
      assert (Hf : fromReceived (cn s) = true).
      { rewrite Hfrom. apply bool_decide_eq_true_2. fold n. lia. }
      assert (Hr : recipients (cn s) ≠ []).
      { intros E. rewrite E in Hlen. simpl in Hlen. fold n in Hlen. lia. }
      destruct (handleData_go_ahead s Hf Hr) as (tail & Hhist & Hsess).
      destruct (handle_hist cmd "" s) as (extra & Hextra).
      rewrite (dispatch_DATA env cmd "" s Hverb), Hhist in Hextra.
      assert (Hadd : added s s' = EvPrintfLine (text (cn s)) go_ahead :: tail ++ extra).
      { apply added_log. subst s'. rewrite Hextra. by rewrite <- app_assoc. }
      split; [|split; [|done]].
      * split; [done|]. intros _. rewrite Hadd. simpl. left.
      * intros _. exists (tail ++ extra). split; [done|].
        intros sess Hs. destruct (Hsess sess Hs) as (_ & tail' & ->).
        by exists (tail' ++ extra).
    + (* no envelope *)
      assert (Hst : fromReceived (cn s) = false ∨ recipients (cn s) = []).
      { fold n in Hfrom, Hlen.
        destruct (decide (1 ≤ n.1)%nat) as [H1|H1].
        - right. destruct (recipients (cn s)); [done|]. simpl in Hlen. lia.
        - left. rewrite Hfrom. apply bool_decide_eq_false_2. lia. }
      assert (Hs' : s' = log [EvPrintfLine (text (cn s))
                                "502 5.5.1 Missing RCPT TO command."] s).
      { subst s'. rewrite handle_no_panic;
          rewrite (dispatch_DATA env cmd "" s Hverb), (handleData_no_envelope s Hst);
          done. }
      assert (¬ ready) by (intros (_ & ?); done).
      split; [|split; [done|]].
      * split; [|done]. intros Hin. exfalso.
        eapply Hrej; [|exact Hs'|exact Hin]. unfold go_ahead. discriminate.
      * intros _. by rewrite bool_decide_eq_true_2.
  - (* argument *)
    assert (Hs' : s' = log [EvPrintfLine (text (cn s))
                "501 5.5.4 DATA command should not have any arguments"] s).
    { subst s'. rewrite handle_no_panic;
        rewrite (dispatch_DATA env cmd arg s Hverb), (handleData_argument arg s Harg);
        done. }
    assert (¬ ready) by (intros (? & _); done).
    split; [|split; [done|]].
    * split; [|done]. intros Hin. exfalso.
        eapply Hrej; [|exact Hs'|exact Hin]. unfold go_ahead. discriminate.
    * intros _. by rewrite bool_decide_eq_false_2.
Qed.

End DataCommand.

(** C1, as the code has it.  For every sequence of commands on a
    connection and every behaviour of the collaborators, a DATA command is
    accepted (the engine prints 354, and hands the body to the session it
    holds) if and only if it carries no argument and at least one sender
    and at least one recipient have been accepted since the last [reset()]
    (RSET, the end of a DATA transaction, STARTTLS); a greeting does not
    start the envelope anew and a sender may be accepted more than once.
    Otherwise the command is answered by a single 502 (or 501, for an
    argument) line and nothing else happens: no data phase. *)
Theorem data_accepted_iff (env : Env) (c : NetConn) (srv : Server)
    (w : list string) (cmds : list (string * string)) (cmd arg : string) :
  sentinels_wf env → is_verb env cmd "DATA" →
  let s := serve env cmds (accepted c srv w) in
  let s' := state_of (handle env cmd arg s) in
  let n := envelope_events (hist s) in
  let ready := arg = "" ∧ (1 ≤ n.1)%nat ∧ (1 ≤ n.2)%nat in
  (go_ahead ∈ printed (added s s') ↔ ready)
  ∧ (ready →
     ∃ tail, added s s' = EvPrintfLine (text (cn s)) go_ahead :: tail ∧
       ∀ sess, session (cn s) = Some sess →
         ∃ tail', tail = EvData sess (dataReader (wire s)).1
           (Data env (hist s ++ [EvPrintfLine (text (cn s)) go_ahead]) sess
              (dataReader (wire s)).1) :: tail')
  ∧ (¬ ready →
     s' = log [EvPrintfLine (text (cn s))
                 (if bool_decide (arg = "")
                  then "502 5.5.1 Missing RCPT TO command."
                  else "501 5.5.4 DATA command should not have any arguments")] s).
Proof.
  intros Hwf Hverb. apply data_command_spec; [done| |done].
  apply serve_inv, accepted_inv.
Qed.

Lemma data_accepted_iff_witness :
  let env := Sample.env true in
  let s := serve env [("EHLO", "a.example"); ("MAIL", "FROM:<u@a.example>");
                      ("RCPT", "TO:<v@b.example>")]
             (accepted (RawConn "192.0.2.1:25") Sample.srv ["Hi"; "."]) in
  sentinels_wf env ∧ is_verb env "data" "DATA" ∧
  go_ahead ∈ printed (added s (state_of (handle env "data" "" s))).
Proof.
  intros env s.
  assert (Hverb : is_verb env "data" "DATA") by (split; [discriminate|reflexivity]).
  split; [apply sample_sentinels_wf|]. split; [exact Hverb|].
  apply (data_accepted_iff env (RawConn "192.0.2.1:25") Sample.srv ["Hi"; "."]
           [("EHLO", "a.example"); ("MAIL", "FROM:<u@a.example>");
            ("RCPT", "TO:<v@b.example>")] "data" ""
           (sample_sentinels_wf true) Hverb).
  repeat split; vm_compute; lia.
Defined.

(** C1 as stated fails on the code.  After EHLO, two accepted MAIL commands
    and one RCPT, DATA is accepted although two senders, not exactly one,
    have been accepted since the greeting.  After EHLO, MAIL, RCPT and a
    second EHLO, DATA is accepted although nothing has been accepted since
    the last greeting.  And with exactly one sender and one recipient
    accepted, a DATA command that carries an argument is not accepted. *)
Lemma data_accepted_counterexample :
  let env := Sample.env true in
  let start := accepted (RawConn "192.0.2.1:25") Sample.srv ["Hi"; "."] in
  let claimed h := (events_since_greeting h).1 = 1%nat
                   ∧ (1 ≤ (events_since_greeting h).2)%nat in
  let s1 := serve env [("EHLO", "a.example"); ("MAIL", "FROM:<u@a.example>");
                       ("MAIL", "FROM:<w@a.example>");
                       ("RCPT", "TO:<v@b.example>")] start in
  let s2 := serve env [("EHLO", "a.example"); ("MAIL", "FROM:<u@a.example>");
                       ("RCPT", "TO:<v@b.example>"); ("EHLO", "a.example")]
              start in
  let s3 := serve env [("EHLO", "a.example"); ("MAIL", "FROM:<u@a.example>");
                       ("RCPT", "TO:<v@b.example>")] start in
  (go_ahead ∈ printed (added s1 (state_of (handle env "DATA" "" s1)))
   ∧ ¬ claimed (hist s1))
  ∧ (go_ahead ∈ printed (added s2 (state_of (handle env "DATA" "" s2)))
     ∧ ¬ claimed (hist s2))
  ∧ (¬ go_ahead ∈ printed (added s3 (state_of (handle env "DATA" "now" s3)))
     ∧ claimed (hist s3)).
Proof.
  intros env start claimed s1 s2 s3.
  split; [|split]; split.
  - apply (bool_decide_unpack _). by vm_compute.
  - intros [H _]. vm_compute in H. discriminate.
  - apply (bool_decide_unpack _). by vm_compute.
  - intros [H _]. vm_compute in H. discriminate.
  - intros H. apply (bool_decide_pack _) in H. by vm_compute in H.
  - split; vm_compute; [reflexivity|lia].
Qed.

(** ** The recipient command *)

Section RecipientCommand.
Context (env : Env) (Hwf : sentinels_wf env).

Lemma no_sender_no_count h acc :
  (∀ e, e ∈ h → sender_accepted e = false) →
  acc.1 = 0%nat → (foldl track acc h).1 = 0%nat.
Proof.
  revert acc. induction h as [|e h IH]; intros acc Hno Hacc; simpl; [done|].
  apply IH.
  - intros e' He'. apply Hno. by right.
  - assert (He : sender_accepted e = false) by (apply Hno; left).
    destruct e as [| | | ? ? [?|] | ? ? [?|] | | | | | | | |]; simpl in *;
      congruence.
Qed.

Lemma handleRcpt_no_sender arg s :
  fromReceived (cn s) = false →
  handleRcpt env arg s
  = Returned tt (log [EvPrintfLine (text (cn s))
      "502 5.5.1 Missing MAIL FROM command."] s).
Proof.
  intros Hfrom. unfold handleRcpt. unfold_monad. simpl. rewrite Hfrom. simpl.
  rewrite WriteResponse_eq by done. by explicit_reply Hwf.
Qed.

Lemma handleRcpt_limit arg s :
  fromReceived (cn s) = true →
  (4 ≤ String.length arg)%nat → ToUpper env (slice_to 3 arg) = "TO:" →
  0 < MaxRecipients (server (cn s)) ≤ Z.of_nat (length (recipients (cn s))) →
  handleRcpt env arg s
  = Returned tt (log [EvPrintfLine (text (cn s))
      ("552 5.5.3 Maximum limit of " +:+ pretty (MaxRecipients (server (cn s)))
       +:+ " recipients reached")] s).
Proof.
  intros Hfrom Hlen Hto [Hmax Hfull]. unfold handleRcpt. unfold_monad. simpl.
  rewrite Hfrom, Hto. simpl.
  rewrite (bool_decide_eq_false_2 (String.length arg < 4)%nat) by lia.
  rewrite ?(bool_decide_eq_true_2 ("TO:" = "TO:")) by done. simpl.
  rewrite (bool_decide_eq_true_2 (MaxRecipients (server (cn s)) > 0)) by lia.
  rewrite bool_decide_eq_true_2 by lia. simpl.
  rewrite WriteResponse_eq by done. by explicit_reply Hwf.
Qed.

End RecipientCommand.

(** C7.  On every connection, whatever was sent before and however the
    collaborators behaved, as long as the session has accepted no sender a
    recipient command is answered [502 5.5.1 Missing MAIL FROM command.]:
    that line is all the command adds to the history (the session is not
    consulted), the engine is left as it was, and the recipient sequence is
    empty. *)
Theorem rcpt_before_mail (env : Env) (c : NetConn) (srv : Server)
    (w : list string) (cmds : list (string * string)) (cmd arg : string) :
  sentinels_wf env → is_verb env cmd "RCPT" →
  let s := serve env cmds (accepted c srv w) in
  (∀ e, e ∈ hist s → sender_accepted e = false) →
  let s' := state_of (handle env cmd arg s) in
  s' = log [EvPrintfLine (text (cn s)) "502 5.5.1 Missing MAIL FROM command."] s
  ∧ recipients (cn s) = [] ∧ recipients (cn s') = []
  ∧ (∀ e, e ∈ added s s' → recipient_accepted e = false).
Proof.
  intros Hwf Hverb s Hno s'.
  destruct (serve_inv env cmds (accepted c srv w) (accepted_inv c srv w))
    as (Hfrom & _ & Hempty). fold s in Hfrom, Hempty.
  assert (Hf : fromReceived (cn s) = false).
  { rewrite Hfrom. apply bool_decide_eq_false_2.
    unfold envelope_events. rewrite no_sender_no_count; [lia|done..]. }
  assert (Hs' : s' = log [EvPrintfLine (text (cn s))
                            "502 5.5.1 Missing MAIL FROM command."] s).
  { subst s'. rewrite handle_no_panic;
      rewrite (dispatch_RCPT env cmd arg s Hverb), (handleRcpt_no_sender env Hwf arg s Hf);
      done. }
  split; [done|]. split; [by apply Hempty|]. split.
  - rewrite Hs'. simpl. by apply Hempty.
  - intros e. rewrite (added_log [EvPrintfLine (text (cn s))
      "502 5.5.1 Missing MAIL FROM command."]) by (by rewrite Hs').
    intros ->%list_elem_of_singleton. done.
Qed.

Lemma rcpt_before_mail_witness :
  let env := Sample.env true in
  let s := serve env [("EHLO", "a.example")]
             (accepted (RawConn "192.0.2.1:25") Sample.srv []) in
  sentinels_wf env ∧ is_verb env "rcpt" "RCPT" ∧
  (∀ e, e ∈ hist s → sender_accepted e = false) ∧
  printed (added s (state_of (handle env "rcpt" "TO:<v@b.example>" s)))
  = ["502 5.5.1 Missing MAIL FROM command."].
Proof.
  intros env s.
  assert (Hverb : is_verb env "rcpt" "RCPT") by (split; [discriminate|reflexivity]).
  assert (Hno : ∀ e, e ∈ hist s → sender_accepted e = false).
  { apply Forall_forall. vm_compute. repeat constructor. }
  split; [apply sample_sentinels_wf|]. split; [exact Hverb|]. split; [exact Hno|].
  destruct (rcpt_before_mail env (RawConn "192.0.2.1:25") Sample.srv []
              [("EHLO", "a.example")] "rcpt" "TO:<v@b.example>"
              (sample_sentinels_wf true) Hverb Hno) as [-> _].
  reflexivity.
Defined.

(** C5.  On every connection, once the recipient sequence has reached the
    configured maximum (a positive [MaxRecipients]), a recipient command in
    [TO:] syntax is answered [552 5.5.3 Maximum limit of N recipients
    reached]: that line is all the command adds to the history, so the
    session is not consulted, and the recipient sequence is unchanged. *)
Theorem rcpt_over_limit (env : Env) (c : NetConn) (srv : Server)
    (w : list string) (cmds : list (string * string)) (cmd arg : string) :
  sentinels_wf env → is_verb env cmd "RCPT" →
  (4 ≤ String.length arg)%nat → ToUpper env (slice_to 3 arg) = "TO:" →
  let s := serve env cmds (accepted c srv w) in
  0 < MaxRecipients (server (cn s)) ≤ Z.of_nat (length (recipients (cn s))) →
  let s' := state_of (handle env cmd arg s) in
  s' = log [EvPrintfLine (text (cn s))
      ("552 5.5.3 Maximum limit of " +:+ pretty (MaxRecipients (server (cn s)))
       +:+ " recipients reached")] s
  ∧ recipients (cn s') = recipients (cn s)
  ∧ (∀ e, e ∈ added s s' → ∀ sess to r, e ≠ EvRcpt sess to r).
Proof.
  intros Hwf Hverb Hlen Hto s Hmax s'.
  destruct (serve_inv env cmds (accepted c srv w) (accepted_inv c srv w))
    as (_ & _ & Hempty). fold s in Hempty.
  assert (Hf : fromReceived (cn s) = true).
  { destruct (fromReceived (cn s)); [done|].
    rewrite Hempty in Hmax by done. simpl in Hmax. lia. }
  assert (Hs' : s' = log [EvPrintfLine (text (cn s))
      ("552 5.5.3 Maximum limit of " +:+ pretty (MaxRecipients (server (cn s)))
       +:+ " recipients reached")] s).
  { subst s'. rewrite handle_no_panic;
      rewrite (dispatch_RCPT env cmd arg s Hverb),
        (handleRcpt_limit env Hwf arg s Hf Hlen Hto Hmax); done. }
  split; [done|]. split; [by rewrite Hs'|].
  intros e. rewrite (added_log [EvPrintfLine (text (cn s))
      ("552 5.5.3 Maximum limit of " +:+ pretty (MaxRecipients (server (cn s)))
       +:+ " recipients reached")]) by (by rewrite Hs').
  intros ->%list_elem_of_singleton. done.
Qed.

Lemma rcpt_over_limit_witness :
  let env := Sample.env true in
  let s := serve env [("EHLO", "a.example"); ("MAIL", "FROM:<u@a.example>");
                      ("RCPT", "TO:<v@b.example>"); ("RCPT", "TO:<w@b.example>")]
             (accepted (RawConn "192.0.2.1:25") Sample.srv []) in
  sentinels_wf env ∧ is_verb env "RCPT" "RCPT" ∧
  (4 ≤ String.length "TO:<x@b.example>")%nat ∧
  ToUpper env (slice_to 3 "TO:<x@b.example>") = "TO:" ∧
  0 < MaxRecipients (server (cn s)) ≤ Z.of_nat (length (recipients (cn s))) ∧
  printed (added s (state_of (handle env "RCPT" "TO:<x@b.example>" s)))
  = ["552 5.5.3 Maximum limit of 2 recipients reached"]
  ∧ recipients (cn (state_of (handle env "RCPT" "TO:<x@b.example>" s)))
    = ["v@b.example"; "w@b.example"].
Proof.
  intros env s.
  assert (Hverb : is_verb env "RCPT" "RCPT") by (split; [discriminate|reflexivity]).
  assert (Hlen : (4 ≤ String.length "TO:<x@b.example>")%nat) by (vm_compute; lia).
  assert (Hto : ToUpper env (slice_to 3 "TO:<x@b.example>") = "TO:") by reflexivity.
  assert (Hmax : 0 < MaxRecipients (server (cn s))
                 ≤ Z.of_nat (length (recipients (cn s)))) by (vm_compute; split; [done|discriminate]).
  split; [apply sample_sentinels_wf|]. do 4 (split; [done|]).
  destruct (rcpt_over_limit env (RawConn "192.0.2.1:25") Sample.srv []
              [("EHLO", "a.example"); ("MAIL", "FROM:<u@a.example>");
               ("RCPT", "TO:<v@b.example>"); ("RCPT", "TO:<w@b.example>")]
              "RCPT" "TO:<x@b.example>"
              (sample_sentinels_wf true) Hverb Hlen Hto Hmax) as (-> & _).
  split; reflexivity.
Defined.

(** ** The sender command *)

Section SenderCommand.
Context (env : Env) (Hwf : sentinels_wf env).

(** [MAIL FROM:<>]: the address left after the trim is empty, with or
    without strict mode. *)
Lemma handleMail_empty_sender s :
  ToUpper env "FROM:" = "FROM:" →
  helo (cn s) ≠ "" →
  (session (cn s) = None → (AnonymousLogin env (hist s) (State (cn s))).2 = None) →
  handleMail env "FROM:<>" s
  = Returned tt (log [EvPrintfLine (text (cn s)) mail_syntax_line] (after_login env s)).
Proof.
  intros Hup Hhelo Hlogin. unfold handleMail, ensure_session, mail_syntax_error,
    after_login.
  unfold_monad. simpl.
  rewrite (bool_decide_eq_false_2 (helo (cn s) = "")) by done.
  destruct (session (cn s)) as [sess|] eqn:Hsess; simpl;
    rewrite ?Hlogin by done; simpl;
    change (slice_to 5 "FROM:<>") with "FROM:"; rewrite Hup;
    change (Split (Trim (slice_from 5 "FROM:<>") " ") " ") with ["<>"];
    change (String.length "FROM:<>") with 7%nat; simpl;
    change (HasPrefix "<>" "<") with true; change (HasSuffix "<>" ">") with true;
    change (Trim "<>" "<> ") with ""; rewrite andb_false_r; simpl;
    rewrite WriteResponse_eq by done; by explicit_reply Hwf.
Qed.

End SenderCommand.

(** C2, as the code has it.  With strict mode off, and with it on alike, a
    MAIL command whose argument is [FROM:<>] is rejected as a syntax error
    ([501 5.5.2]) once the greeting has been made and a session is held or
    the anonymous login does not fail: the session is not asked to accept a
    sender, no sender is accepted and the envelope is left as it was. *)
Theorem mail_empty_sender_rejected (env : Env) (s : St) (cmd : string) :
  sentinels_wf env → is_verb env cmd "MAIL" → ToUpper env "FROM:" = "FROM:" →
  helo (cn s) ≠ "" →
  let login := AnonymousLogin env (hist s) (State (cn s)) in
  (session (cn s) = None → login.2 = None) →
  let s' := state_of (handle env cmd "FROM:<>" s) in
  added s s'
  = (if session (cn s) is None then [EvAnonymousLogin (State (cn s)) login] else [])
    ++ [EvPrintfLine (text (cn s)) mail_syntax_line]
  ∧ fromReceived (cn s') = fromReceived (cn s)
  ∧ recipients (cn s') = recipients (cn s)
  ∧ closed s' = closed s.
Proof.
  intros Hwf Hverb Hup Hhelo login Hlogin s'.
  subst s'. rewrite handle_no_panic;
    rewrite (dispatch_MAIL env cmd _ s Hverb),
      (handleMail_empty_sender env Hwf s Hup Hhelo Hlogin); [|done].
  unfold after_login. fold login.
  destruct (session (cn s)) as [sess|] eqn:Hsess; simpl.
  - split; [|done]. by apply added_log.
  - split; [|done]. apply added_log. simpl. by rewrite <- app_assoc.
Qed.

Lemma mail_empty_sender_rejected_witness :
  let env := Sample.env true in
  let s := serve env [("EHLO", "a.example")]
             (accepted (RawConn "192.0.2.1:25") Sample.srv []) in
  let login := AnonymousLogin env (hist s) (State (cn s)) in
  sentinels_wf env ∧ is_verb env "MAIL" "MAIL" ∧ ToUpper env "FROM:" = "FROM:" ∧
  helo (cn s) ≠ "" ∧
  (session (cn s) = None → login.2 = None) ∧
  printed (added s (state_of (handle env "MAIL" "FROM:<>" s))) = [mail_syntax_line].
Proof.
  intros env s login.
  assert (Hverb : is_verb env "MAIL" "MAIL") by (split; [discriminate|reflexivity]).
  assert (Hup : ToUpper env "FROM:" = "FROM:") by reflexivity.
  assert (Hhelo : helo (cn s) ≠ "") by (vm_compute; discriminate).
  assert (Hlogin : session (cn s) = None → login.2 = None)
    by (intros _; reflexivity).
  split; [apply sample_sentinels_wf|]. do 4 (split; [done|]).
  destruct (mail_empty_sender_rejected env s "MAIL" (sample_sentinels_wf true)
              Hverb Hup Hhelo Hlogin) as (-> & _).
  reflexivity.
Defined.

(** C2 as stated fails on the code: with strict mode off, after a greeting,
    [MAIL FROM:<>] is answered with the 501 syntax error, the session is not
    asked, and the sender is not accepted. *)
Lemma mail_empty_sender_counterexample :
  let env := Sample.env true in
  let s := serve env [("EHLO", "a.example")]
             (accepted (RawConn "192.0.2.1:25") Sample.srv []) in
  let s' := state_of (handle env "MAIL" "FROM:<>" s) in
  Strict (server (cn s)) = false
  ∧ fromReceived (cn s') = false
  ∧ printed (added s s') = [mail_syntax_line]
  ∧ (∀ e, e ∈ hist s' → sender_accepted e = false).
Proof.
  intros env s s'. repeat split.
  apply Forall_forall. vm_compute. repeat constructor.
Qed.

(** ** Unrecognized commands *)

Section Unrecognized.
Context (env : Env) (Hwf : sentinels_wf env).

Lemma wrap_int_small n : - 2 ^ 63 ≤ n < 2 ^ 63 → wrap_int n = n.
Proof. intros Hn. unfold wrap_int. rewrite Z.mod_small; lia. Qed.

Lemma unrecognizedCommand_eq verb s :
  unrecognizedCommand env verb s
  = Returned tt
      (let n := wrap_int (nbrErrors (cn s) + 1) in
       let c' := set_nbrErrors n (cn s) in
       let first := EvPrintfLine (text (cn s)) (unrecognized_line verb) in
       if bool_decide (n > 3) then
         mkSt c' (wire s) true
           (hist s ++ [first; EvPrintfLine (text (cn s)) too_many_line]
            ++ match session (cn s) with
               | Some sess => [EvLogout sess]
               | None => []
               end ++ [EvConnClose (conn (cn s))])
       else mkSt c' (wire s) (closed s) (hist s ++ [first])).
Proof.
  unfold unrecognizedCommand. unfold_monad.
  rewrite WriteResponse_eq by done. simpl.
  destruct (bool_decide (wrap_int (nbrErrors (cn s) + 1) > 3)) eqn:Hn; simpl.
  - rewrite ?WriteResponse_eq by done. simpl.
    destruct (session (cn s)) eqn:Hsess; unfold_monad; simpl; rewrite Hsess;
      simpl; explicit_reply Hwf; rewrite <- ?app_assoc; reflexivity.
  - explicit_reply Hwf. reflexivity.
Qed.

Lemma dispatch_unrecognized cmd arg s :
  unrecognized env (server (cn s)) cmd →
  dispatch env cmd arg s = unrecognizedCommand env (ToUpper env cmd) s.
Proof.
  intros [Hne [Hunk|[Hauth Hdis]]]; unfold dispatch;
    rewrite (bool_decide_eq_false_2 (cmd = "")) by done; unfold_monad; simpl.
  - unfold known_verbs in Hunk.
    repeat (rewrite bool_decide_eq_false_2;
            [|intros Hin; apply Hunk; clear Hunk;
              first [rewrite Hin | idtac];
              rewrite ?elem_of_cons in *; tauto]).
    reflexivity.
  - rewrite Hauth. simpl. by rewrite Hdis.
Qed.

Lemma handle_unrecognized cmd arg s :
  unrecognized env (server (cn s)) cmd →
  handle env cmd arg s = unrecognizedCommand env (ToUpper env cmd) s.
Proof.
  intros Hun. rewrite unrecognizedCommand_eq. apply handle_returned.
  rewrite dispatch_unrecognized by done. apply unrecognizedCommand_eq.
Qed.

(** A run of unrecognized commands from a state whose counter is [n]. *)
Lemma serve_unrecognized cmds s (n : nat) :
  closed s = false → nbrErrors (cn s) = Z.of_nat n → (n ≤ 3)%nat →
  Forall (λ ca, unrecognized env (server (cn s)) ca.1) cmds →
  let s' := serve env cmds s in
  closed s' = bool_decide (3 < n + length cmds)%nat
  ∧ nbrErrors (cn s') = Z.of_nat (min (n + length cmds) 4)
  ∧ printed (hist s')
    = printed (hist s)
      ++ ((λ ca, unrecognized_line (ToUpper env ca.1)) <$> take (4 - n) cmds)
      ++ (if bool_decide (3 < n + length cmds)%nat then [too_many_line] else []).
Proof.
  revert s n. induction cmds as [|[cmd arg] cmds IH]; intros s n Hopen Hn Hle Hall.
  - simpl. rewrite Nat.add_0_r, Nat.min_l by lia.
    rewrite bool_decide_eq_false_2 by lia. rewrite take_nil. simpl.
    by rewrite app_nil_r.
  - apply Forall_cons in Hall as [Hun Hall]. simpl in Hun.
    cbn [serve]. rewrite Hopen.
    rewrite handle_unrecognized, unrecognizedCommand_eq by done.
    cbn [state_of]. cbv zeta.
    rewrite Hn, wrap_int_small by lia.
    destruct (decide (n = 3)%nat) as [->|Hn3].
    + rewrite bool_decide_eq_true_2 by lia.
      destruct cmds as [|[cmd' arg'] cmds']; cbn [serve closed cn nbrErrors set_nbrErrors hist].
      all: repeat split.
      all: try (rewrite bool_decide_eq_true_2 by (simpl; lia)).
      all: try done.
      all: try (rewrite Nat.min_r by (simpl; lia); done).
      all: unfold printed; rewrite omap_app; simpl;
        destruct (session (cn s)); reflexivity.
    + rewrite bool_decide_eq_false_2 by lia.
      edestruct (IH (mkSt (set_nbrErrors (Z.of_nat n + 1) (cn s)) (wire s) (closed s)
                       (hist s ++ [EvPrintfLine (text (cn s))
                                     (unrecognized_line (ToUpper env cmd))]))
                   (S n)) as (Hc & He & Hp); [done|simpl; lia|lia|done|].
      cbn [length]. rewrite Nat.add_succ_r.
      split; [exact Hc|]. split; [exact He|].
      rewrite Hp. simpl. unfold printed at 1. rewrite omap_app. simpl.
      replace (4 - n)%nat with (S (3 - n)) by lia. simpl.
      by rewrite <- app_assoc.
Qed.

End Unrecognized.

(** C3, as the code has it.  Every unrecognized command adds one to the
    counter, and the connection is closed by it exactly when the counter
    then exceeds 3.  So on a fresh connection a run of unrecognized commands
    closes the connection with the fourth of them, after its reply and a
    further [Too many unrecognized commands] reply; one, two or three of
    them leave it open. *)
Theorem unrecognized_commands_close (env : Env) (c : NetConn) (srv : Server)
    (w : list string) (cmds : list (string * string)) :
  sentinels_wf env →
  Forall (λ ca, unrecognized env srv ca.1) cmds →
  (∀ s0 cmd arg, unrecognized env (server (cn s0)) cmd → closed s0 = false →
     let s1 := state_of (handle env cmd arg s0) in
     nbrErrors (cn s1) = wrap_int (nbrErrors (cn s0) + 1)
     ∧ closed s1 = bool_decide (nbrErrors (cn s1) > 3))
  ∧ let s := serve env cmds (accepted c srv w) in
    closed s = bool_decide (3 < length cmds)%nat
    ∧ nbrErrors (cn s) = Z.of_nat (min (length cmds) 4)
    ∧ printed (hist s)
      = ((λ ca, unrecognized_line (ToUpper env ca.1)) <$> take 4 cmds)
        ++ (if bool_decide (3 < length cmds)%nat then [too_many_line] else []).
Proof.
  intros Hwf Hall. split.
  - intros s0 cmd arg Hun Hopen s1. subst s1.
    rewrite handle_unrecognized, unrecognizedCommand_eq by done.
    cbn [state_of]. cbv zeta.
    destruct (bool_decide (wrap_int (nbrErrors (cn s0) + 1) > 3)) eqn:Hn; simpl;
      by rewrite ?Hn.
  - apply (serve_unrecognized env Hwf cmds (accepted c srv w) 0); try done. lia.
Qed.

Lemma unrecognized_commands_close_witness :
  let env := Sample.env true in
  let cmds := [("FOO", ""); ("BAR", "x"); ("BAZ", ""); ("QUX", "")] in
  sentinels_wf env ∧ Forall (λ ca, unrecognized env Sample.srv ca.1) cmds ∧
  closed (serve env cmds (accepted (RawConn "192.0.2.1:25") Sample.srv [])) = true.
Proof.
  intros env cmds.
  assert (Hall : Forall (λ ca, unrecognized env Sample.srv ca.1) cmds).
  { assert (Hun : ∀ v, v ≠ "" →
              bool_decide (Sample.ToUpper v ∉ known_verbs) = true →
              unrecognized env Sample.srv v).
    { intros v Hv Hk. split; [done|]. left. by apply bool_decide_eq_true_1 in Hk. }
    subst cmds. repeat apply Forall_cons_2; try apply Forall_nil_2;
      apply Hun; (discriminate || reflexivity). }
  split; [apply sample_sentinels_wf|]. split; [exact Hall|].
  destruct (unrecognized_commands_close env (RawConn "192.0.2.1:25") Sample.srv []
              cmds (sample_sentinels_wf true) Hall) as (_ & -> & _).
  reflexivity.
Defined.

(** C3 as stated fails on the code: three consecutive unrecognized commands
    on a fresh connection leave it open, with the counter at 3; the fourth
    closes it. *)
Lemma unrecognized_commands_counterexample :
  let env := Sample.env true in
  let start := accepted (RawConn "192.0.2.1:25") Sample.srv [] in
  let three := serve env [("FOO", ""); ("BAR", ""); ("BAZ", "")] start in
  closed three = false
  ∧ nbrErrors (cn three) = 3
  ∧ printed (hist three)
    = [unrecognized_line "FOO"; unrecognized_line "BAR"; unrecognized_line "BAZ"]
  ∧ closed (state_of (handle env "QUX" "" three)) = true.
Proof. repeat split. Qed.

(** ** STARTTLS *)

Section StartTLS.
Context (env : Env) (Hwf : sentinels_wf env).

(** [handleStartTLS] on a plain transport with TLS configured: whatever the
    handshake returns, the transport is swapped, [c.text] is rebuilt over
    it and the envelope is reset; [helo] and the session stay. *)
Lemma handleStartTLS_eq s :
  isTLSConn (conn (cn s)) = false → TLSConfig (server (cn s)) = true →
  let via := text (cn s) in
  let r := Handshake env (hist s ++ [EvPrintfLine via ready_line]) (conn (cn s)) in
  let tls := TLSConn (conn (cn s)) in
  handleStartTLS env s
  = Returned tt
      (mkSt (mkConn tls tls (server (cn s)) (helo (cn s)) (nbrErrors (cn s))
               (session (cn s)) false [])
         (wire s) (closed s)
         (hist s ++ [EvPrintfLine via ready_line; EvHandshake (conn (cn s)) r]
          ++ (if r is Some _ then [EvPrintfLine via handshake_error_line] else [])
          ++ [EvReset]
          ++ (if session (cn s) is Some sess then [EvSessionReset sess] else []))).
Proof.
  intros Hplain Hcfg via r tls. unfold handleStartTLS, reset. unfold_monad. simpl.
  rewrite Hplain, Hcfg. simpl. explicit_reply Hwf. fold ready_line. fold via. fold r.
  unfold set_recipients, set_fromReceived, set_text, set_conn.
  destruct r as [err|]; simpl.
  - explicit_reply Hwf. fold handshake_error_line.
    destruct (session (cn s)) eqn:Hsess; simpl; rewrite ?Hsess, <- ?app_assoc;
      reflexivity.
  - destruct (session (cn s)) eqn:Hsess; simpl; rewrite ?Hsess, <- ?app_assoc;
      reflexivity.
Qed.

End StartTLS.

(** C8.  When the handshake of a STARTTLS command fails, the engine prints
    220 and then [550 5.0.0 Handshake error] through the plain text layer
    and does not close the connection: no close and no logout is in the
    history and the connection is as open as before.  But the branch of the
    error does not return: the engine goes on to hold the TLS connection
    whose handshake failed as its transport, with the text layer rebuilt
    over it, and to reset the envelope.  Every later read and reply goes
    through that connection. *)
Theorem starttls_handshake_failure (env : Env) (s : St) (cmd arg : string)
    (err : error) :
  sentinels_wf env → is_verb env cmd "STARTTLS" →
  isTLSConn (conn (cn s)) = false → TLSConfig (server (cn s)) = true →
  Handshake env (hist s ++ [EvPrintfLine (text (cn s)) ready_line]) (conn (cn s))
  = Some err →
  let s' := state_of (handle env cmd arg s) in
  added s s'
  = [EvPrintfLine (text (cn s)) ready_line;
     EvHandshake (conn (cn s)) (Some err);
     EvPrintfLine (text (cn s)) handshake_error_line;
     EvReset]
    ++ (if session (cn s) is Some sess then [EvSessionReset sess] else [])
  ∧ closed s' = closed s
  ∧ session (cn s') = session (cn s)
  ∧ conn (cn s') = TLSConn (conn (cn s))
  ∧ text (cn s') = TLSConn (conn (cn s)).
Proof.
  intros Hwf Hverb Hplain Hcfg Hfail s'.
  assert (Hs' : handle env cmd arg s = handleStartTLS env s).
  { pose proof (handleStartTLS_eq env Hwf s Hplain Hcfg) as Heq. simpl in Heq.
    rewrite Heq. apply handle_returned.
    by rewrite (dispatch_STARTTLS env cmd arg s Hverb). }
  subst s'. rewrite Hs'.
  pose proof (handleStartTLS_eq env Hwf s Hplain Hcfg) as Heq. simpl in Heq.
  rewrite Heq, Hfail. simpl.
  split; [|done]. by apply added_log.
Qed.

Lemma starttls_handshake_failure_witness :
  let env := Sample.env false in
  let plain := RawConn "192.0.2.1:25" in
  let s := serve env [("EHLO", "a.example")] (accepted plain Sample.srv []) in
  let s' := state_of (handle env "STARTTLS" "" s) in
  let err := OtherErr "tls: handshake failure" in
  sentinels_wf env ∧ is_verb env "STARTTLS" "STARTTLS" ∧
  isTLSConn (conn (cn s)) = false ∧ TLSConfig (server (cn s)) = true ∧
  Handshake env (hist s ++ [EvPrintfLine (text (cn s)) ready_line]) (conn (cn s))
  = Some err ∧
  printed (added s s') = [ready_line; handshake_error_line] ∧
  closed s' = false ∧ conn (cn s') = TLSConn plain ∧ text (cn s') = TLSConn plain.
Proof.
  intros env plain s s' err.
  assert (Hverb : is_verb env "STARTTLS" "STARTTLS")
    by (split; [discriminate|reflexivity]).
  split; [apply sample_sentinels_wf|]. do 4 (split; [done|]).
  destruct (starttls_handshake_failure env s "STARTTLS" "" err
              (sample_sentinels_wf false) Hverb eq_refl eq_refl eq_refl)
    as (Hadd & Hcl & _ & Hconn & Htext).
  fold s' in Hadd, Hcl, Hconn, Htext.
  rewrite Hadd. split; [reflexivity|]. split; [exact Hcl|]. split; assumption.
Defined.

(** C4, evaluated where the code departs from it.  After EHLO, MAIL and
    RCPT, a STARTTLS command whose handshake succeeds swaps the transport
    and clears the envelope, and the session is reset; but the declared
    identity is kept, and a MAIL command sent next, with no new greeting, is
    accepted. *)
Theorem starttls_then_mail_without_greeting :
  let env := Sample.env true in
  let plain := RawConn "192.0.2.1:25" in
  let before := serve env [("EHLO", "a.example"); ("MAIL", "FROM:<u@a.example>");
                           ("RCPT", "TO:<v@b.example>")]
                  (accepted plain Sample.srv []) in
  let s := state_of (handle env "STARTTLS" "" before) in
  let s' := state_of (handle env "MAIL" "FROM:<u@a.example>" s) in
  (fromReceived (cn before) = true ∧ recipients (cn before) = ["v@b.example"])
  ∧ added before s
    = [EvPrintfLine plain ready_line; EvHandshake plain None; EvReset;
       EvSessionReset 1%nat]
  ∧ conn (cn s) = TLSConn plain ∧ text (cn s) = TLSConn plain
  ∧ fromReceived (cn s) = false ∧ recipients (cn s) = []
  ∧ helo (cn s) = "a.example"
  ∧ added s s'
    = [EvMail 1%nat "u@a.example" None;
       EvPrintfLine (TLSConn plain)
         "250 2.0.0 Roger, accepting mail from <u@a.example>"]
  ∧ fromReceived (cn s') = true.
Proof. repeat split. Qed.

(** ** Greetings of the other protocol variant *)

Section Greeting.
Context (env : Env) (Hwf : sentinels_wf env).

Lemma pretty_250 : pretty 250 = "250".
Proof. by vm_compute. Qed.

Lemma reply_lines_250 enhCode text_ :
  enhCode = (2, 0, 0) ∨ enhCode = NoEnhancedCode env →
  Forall (λ l, slice_to 3 l = "250") (reply_lines env 250 enhCode text_).
Proof.
  intros Henh. unfold reply_lines. apply Forall_app. split.
  - apply Forall_fmap, Forall_true. intros t. simpl. by rewrite pretty_250.
  - destruct (last text_) as [t|]; [|done]. repeat constructor.
    destruct Henh as [-> | ->].
    + rewrite (final_line_explicit _ _ _ _ _ _ Hwf) by done. by rewrite pretty_250.
    + rewrite (final_line_no_code _ _ _ Hwf). by rewrite pretty_250.
Qed.

(** [handleGreet] applied to a state. *)
Lemma handleGreet_eq enhanced arg s :
  handleGreet env enhanced arg s
  = Returned tt
      match parseHelloArgument env arg with
      | Some domain =>
          mkSt (set_helo domain (cn s)) (wire s) (closed s)
            (hist s ++ EvHelo domain
             :: (EvPrintfLine (text (cn s)) <$>
                 reply_lines env 250
                   (if enhanced then NoEnhancedCode env else (2, 0, 0))
                   (("Hello " +:+ domain)
                    :: (if enhanced then ehlo_caps (set_helo domain (cn s))
                        else []))))
      | None =>
          log [EvPrintfLine (text (cn s))
                 ("501 5.5.2 Domain/address argument required for "
                  +:+ (if enhanced then "EHLO" else "HELO"))] s
      end.
Proof.
  unfold handleGreet.
  destruct enhanced, (parseHelloArgument env arg) as [domain|]; simpl;
    unfold_monad; simpl; rewrite WriteResponse_eq by done; simpl;
    try (by explicit_reply Hwf);
    unfold log, reply; simpl; by rewrite <- app_assoc.
Qed.

End Greeting.

(** C9.  A HELO or EHLO command on an LMTP server, and an LHLO command on a
    server that is not one, is answered with the 500 reply of the wrong
    variant and then handled as a greeting all the same: with a valid
    argument the declared identity becomes that argument and a 250 reply
    follows, and otherwise a 501 reply follows. *)
Theorem greeting_wrong_variant (env : Env) (s : St) (cmd arg : string) :
  sentinels_wf env → cmd ≠ "" →
  let verb := ToUpper env cmd in
  let lmtp := LMTP (server (cn s)) in
  (lmtp = true ∧ (verb = "HELO" ∨ verb = "EHLO")) ∨ (lmtp = false ∧ verb = "LHLO") →
  let via := text (cn s) in
  let wrong := EvPrintfLine via (wrong_variant_line lmtp) in
  let s' := state_of (handle env cmd arg s) in
  match parseHelloArgument env arg with
  | Some domain =>
      helo (cn s') = domain ∧
      ∃ lines,
        added s s' = wrong :: EvHelo domain :: (EvPrintfLine via <$> lines)
        ∧ lines ≠ [] ∧ Forall (λ l, slice_to 3 l = "250") lines
        ∧ (verb = "HELO" → lines = ["250 2.0.0 Hello " +:+ domain])
  | None =>
      s' = log [wrong;
                EvPrintfLine via
                  ("501 5.5.2 Domain/address argument required for "
                   +:+ (if bool_decide (verb = "HELO") then "HELO" else "EHLO"))] s
  end.
Proof.
  intros Hwf Hne verb lmtp Hcase via wrong s'.
  set (enhanced := bool_decide (verb = "LHLO") || bool_decide (verb = "EHLO")).
  assert (Hd : dispatch env cmd arg s = handleGreet env enhanced arg (log [wrong] s)).
  { unfold dispatch. rewrite (bool_decide_eq_false_2 (cmd = "")) by done.
    fold verb. unfold_monad. simpl. fold lmtp. subst wrong enhanced.
    destruct Hcase as [[Hl [Hv|Hv]]|[Hl Hv]]; rewrite Hv, Hl; simpl;
      rewrite ?WriteResponse_eq by done; simpl; explicit_reply Hwf;
      reflexivity. }
  assert (Hs' : s' = state_of (handleGreet env enhanced arg (log [wrong] s))).
  { subst s'. rewrite handle_no_panic; rewrite Hd; [done|].
    by rewrite handleGreet_eq. }
  rewrite handleGreet_eq in Hs' by done. simpl in Hs'.
  assert (Hhelo : enhanced = negb (bool_decide (verb = "HELO"))).
  { subst enhanced. by destruct Hcase as [[_ [-> | ->]]|[_ ->]]. }
  destruct (parseHelloArgument env arg) as [domain|].
  - rewrite Hs'. split; [done|]. eexists. split; [|split; [|split]].
    + apply added_log. simpl. rewrite <- app_assoc. reflexivity.
    + unfold reply_lines. intros Hnil. apply app_eq_nil in Hnil as [_ Hnil].
      destruct (last _) eqn:Hlast in Hnil; [done|]. by apply last_None in Hlast.
    + apply reply_lines_250; [done|]. destruct enhanced; auto.
    + intros Hv. rewrite Hhelo, Hv. simpl.
      unfold reply_lines. simpl.
      rewrite (final_line_explicit _ _ _ _ _ _ Hwf) by done. reflexivity.
  - rewrite Hs', Hhelo. unfold log. simpl. rewrite <- app_assoc.
    by destruct (bool_decide (verb = "HELO")).
Qed.

Lemma greeting_wrong_variant_witness :
  let env := Sample.env true in
  let s := accepted (RawConn "192.0.2.1:25") Sample.srv [] in
  let s' := state_of (handle env "lhlo" "a.example" s) in
  sentinels_wf env ∧ "lhlo" ≠ "" ∧
  ((LMTP (server (cn s)) = true
    ∧ (ToUpper env "lhlo" = "HELO" ∨ ToUpper env "lhlo" = "EHLO"))
   ∨ (LMTP (server (cn s)) = false ∧ ToUpper env "lhlo" = "LHLO")) ∧
  helo (cn s') = "a.example".
Proof.
  intros env s s'.
  assert (Hcase : (LMTP (server (cn s)) = true
    ∧ (ToUpper env "lhlo" = "HELO" ∨ ToUpper env "lhlo" = "EHLO"))
   ∨ (LMTP (server (cn s)) = false ∧ ToUpper env "lhlo" = "LHLO"))
    by (right; split; reflexivity).
  assert (Hne : "lhlo" ≠ "") by discriminate.
  split; [apply sample_sentinels_wf|]. do 2 (split; [done|]).
  pose proof (greeting_wrong_variant env s "lhlo" "a.example"
                (sample_sentinels_wf true) Hne Hcase) as H.
  simpl in H. exact (proj1 H).
Defined.

(** ** AUTH with an initial response that is not base64 *)

(** C10.  With authentication enabled and the greeting made, an AUTH
    command whose second field is not valid base64 leaves the state as it
    was: nothing is printed, no mechanism is looked up or run, the session
    is the same and the connection is as open as before.  This holds
    whether or not the mechanism named is registered. *)
Theorem auth_bad_initial_response (env : Env) (s : St) (cmd arg : string)
    (name encoded : string) (more : list string) :
  is_verb env cmd "AUTH" → AuthDisabled (server (cn s)) = false →
  helo (cn s) ≠ "" →
  Fields env arg = name :: encoded :: more →
  DecodeString env encoded = None →
  handle env cmd arg s = Returned tt s.
Proof.
  intros Hverb Hauth Hhelo Hfields Hdec. apply handle_returned.
  rewrite (dispatch_AUTH env cmd arg s Hverb Hauth).
  unfold handleAuth. unfold_monad. simpl.
  rewrite (bool_decide_eq_false_2 (helo (cn s) = "")) by done.
  by rewrite Hfields, Hdec.
Qed.

Lemma auth_bad_initial_response_witness :
  let env := Sample.env true in
  let s := serve env [("EHLO", "a.example")]
             (accepted (RawConn "192.0.2.1:25") Sample.srv []) in
  is_verb env "AUTH" "AUTH" ∧ AuthDisabled (server (cn s)) = false ∧
  helo (cn s) ≠ "" ∧
  Fields env "PLAIN !!!!" = ["PLAIN"; "!!!!"] ∧
  DecodeString env "!!!!" = None ∧
  handle env "AUTH" "PLAIN !!!!" s = Returned tt s.
Proof.
  intros env s.
  assert (Hverb : is_verb env "AUTH" "AUTH") by (split; [discriminate|reflexivity]).
  assert (Hhelo : helo (cn s) ≠ "") by (vm_compute; discriminate).
  do 3 (split; [done|]). do 2 (split; [reflexivity|]).
  exact (auth_bad_initial_response env s "AUTH" "PLAIN !!!!" "PLAIN" "!!!!" []
           Hverb eq_refl Hhelo eq_refl eq_refl).
Defined.

(** C10, where the conditions fail.  On a connection that has made no
    greeting the same command is answered [502 5.5.1 Please introduce
    yourself first.], and after the greeting on a server with authentication
    disabled it is answered as an unrecognized command. *)
Lemma auth_bad_initial_response_counterexample :
  let env := Sample.env true in
  let plain := RawConn "192.0.2.1:25" in
  let s := accepted plain Sample.srv [] in
  let t := serve env [("EHLO", "a.example")] (accepted plain no_auth_srv []) in
  Fields env "PLAIN !!!!" = ["PLAIN"; "!!!!"] ∧ DecodeString env "!!!!" = None
  ∧ printed (added s (state_of (handle env "AUTH" "PLAIN !!!!" s)))
    = ["502 5.5.1 Please introduce yourself first."]
  ∧ helo (cn t) = "a.example"
  ∧ printed (added t (state_of (handle env "AUTH" "PLAIN !!!!" t)))
    = ["500 5.5.2 Syntax error, AUTH command unrecognized"].
Proof.
  vm_compute. repeat split.
Qed.

(** * Further properties of the engine *)

(** ** What a command leaves alone *)

Section Shell.
Context (env : Env).

Lemma Split_nonempty s sep : Split s sep ≠ [].
Proof.
  unfold Split. destruct s as [|a s]; [done|].
  fold (Split s sep). destruct (Split s sep); [done|]. by case_bool_decide.
Qed.

Lemma handleMail_shell arg s :
  shell (state_of (handleMail env arg s)) = shell s.
Proof.
  unfold handleMail, ensure_session, check_mail_params, reply_error,
    mail_syntax_error.
  run; reflexivity.
Qed.

Lemma handleRcpt_shell arg s :
  shell (state_of (handleRcpt env arg s)) = shell s.
Proof. unfold handleRcpt, reply_error. run; reflexivity. Qed.

Lemma handleData_shell arg s :
  shell (state_of (handleData env arg s)) = shell s.
Proof. unfold handleData, reset. run; reflexivity. Qed.

Lemma saslLoop_shell f w response s :
  shell (state_of (saslLoop env f w response s)) = shell s.
Proof.
  revert response s.
  induction w as [|line w IH]; intros response s; simpl; unfold reply_error; run.
  all: try reflexivity.
  all: by rewrite IH.
Qed.

Lemma handleAuth_shell arg s :
  shell (state_of (handleAuth env arg s)) = shell s.
Proof.
  unfold handleAuth, auth_exchange.
  run;
    try match goal with
        | H : saslLoop env ?f ?w ?r ?s0 = _ |- _ =>
            pose proof (saslLoop_shell f w r s0) as Hloop;
            rewrite H in Hloop
        end;
    unfold shell in *; simpl in *; congruence.
Qed.

End Shell.

Section Frame.
Context (env : Env).

Lemma not_known_verb verb :
  bool_decide (verb ∈ ["SEND"; "SOML"; "SAML"; "EXPN"; "HELP"; "TURN"]) = false →
  bool_decide (verb ∈ ["HELO"; "EHLO"; "LHLO"]) = false →
  bool_decide (verb = "MAIL") = false → bool_decide (verb = "RCPT") = false →
  bool_decide (verb = "VRFY") = false → bool_decide (verb = "NOOP") = false →
  bool_decide (verb = "RSET") = false → bool_decide (verb = "DATA") = false →
  bool_decide (verb = "QUIT") = false → bool_decide (verb = "AUTH") = false →
  bool_decide (verb = "STARTTLS") = false →
  verb ∉ known_verbs.
Proof.
  rewrite !bool_decide_eq_false. unfold known_verbs.
  rewrite !elem_of_cons, !elem_of_nil. tauto.
Qed.

Lemma handleGreet_shell enhanced arg s :
  let s' := state_of (handleGreet env enhanced arg s) in
  (conn (cn s'), text (cn s'), server (cn s'), nbrErrors (cn s'), closed s')
  = (conn (cn s), text (cn s), server (cn s), nbrErrors (cn s), closed s).
Proof. unfold handleGreet. run; reflexivity. Qed.

Lemma handleStartTLS_shell s :
  let s' := state_of (handleStartTLS env s) in
  (server (cn s'), helo (cn s'), nbrErrors (cn s'), closed s')
  = (server (cn s), helo (cn s), nbrErrors (cn s), closed s).
Proof. unfold handleStartTLS, reset. run; reflexivity. Qed.

Lemma unrecognizedCommand_shell verb s :
  let s' := state_of (unrecognizedCommand env verb s) in
  (conn (cn s'), text (cn s'), server (cn s'), helo (cn s'))
  = (conn (cn s), text (cn s), server (cn s), helo (cn s)).
Proof. unfold unrecognizedCommand. run; reflexivity. Qed.

(** Brings in the frame of the handler that the goal runs. *)
Ltac use_shell :=
  let H := fresh "Hshell" in
  match goal with
  | |- context [state_of (handleMail env ?a ?s)] =>
      pose proof (handleMail_shell env a s) as H; unfold shell in H
  | |- context [state_of (handleRcpt env ?a ?s)] =>
      pose proof (handleRcpt_shell env a s) as H; unfold shell in H
  | |- context [state_of (handleData env ?a ?s)] =>
      pose proof (handleData_shell env a s) as H; unfold shell in H
  | |- context [state_of (handleAuth env ?a ?s)] =>
      pose proof (handleAuth_shell env a s) as H; unfold shell in H
  | |- context [state_of (handleGreet env ?e ?a ?s)] =>
      pose proof (handleGreet_shell e a s) as H
  | |- context [state_of (handleStartTLS env ?s)] =>
      pose proof (handleStartTLS_shell s) as H
  | |- context [state_of (unrecognizedCommand env ?v ?s)] =>
      pose proof (unrecognizedCommand_shell v s) as H
  end;
  simpl in H; simplify_eq.

Ltac nonempty_cmd := eapply bool_decide_eq_false_1; eassumption.

Ltac absurd_change :=
  let H := fresh "Hneq" in
  intros H; try (exfalso; simpl in *; first [congruence | destruct H; congruence]).

Lemma dispatch_frame cmd arg s :
  let s' := state_of (dispatch env cmd arg s) in
  let verb := ToUpper env cmd in
  server (cn s') = server (cn s)
  ∧ (nbrErrors (cn s') ≠ nbrErrors (cn s) → unrecognized env (server (cn s)) cmd)
  ∧ (helo (cn s') ≠ helo (cn s) → cmd ≠ "" ∧ verb ∈ ["HELO"; "EHLO"; "LHLO"])
  ∧ (conn (cn s') ≠ conn (cn s) ∨ text (cn s') ≠ text (cn s) →
     is_verb env cmd "STARTTLS")
  ∧ (closed s' ≠ closed s →
     is_verb env cmd "QUIT" ∨ unrecognized env (server (cn s)) cmd).
Proof.
  intros s' verb. subst s' verb.
  unfold dispatch, reset.
  run; try use_shell.
  all: repeat match goal with |- _ ∧ _ => split end.
  all: try (simpl; congruence).
  all: absurd_change.
  all: repeat match goal with
              | H : bool_decide _ = true |- _ => apply bool_decide_eq_true_1 in H
              end.
  all: first
         [ by (split; [nonempty_cmd|done])
         | by (left; split; [nonempty_cmd|done])
         | by (split; [nonempty_cmd|left; by apply not_known_verb])
         | by (split; [nonempty_cmd|right; split; done])
         | by (right; split;
               [nonempty_cmd|left; by apply not_known_verb])
         | by (right; split; [nonempty_cmd|right; split; done])
         ].
Qed.

Lemma recover_state s :
  state_of ((WriteResponse env 421 (4, 0, 0) ["Internal server error"] ;; Close) s)
  = mkSt (cn s) (wire s) true
      (hist s ++ reply env (text (cn s)) 421 (4, 0, 0) ["Internal server error"]
       ++ close_events (cn s)).
Proof.
  unfold close_events. run; simpl; by rewrite <- ?app_assoc.
Qed.

Lemma handle_state cmd arg s :
  state_of (handle env cmd arg s)
  = if panicked (dispatch env cmd arg s)
    then state_of ((WriteResponse env 421 (4, 0, 0) ["Internal server error"] ;; Close)
                     (state_of (dispatch env cmd arg s)))
    else state_of (dispatch env cmd arg s).
Proof. unfold handle. by destruct (dispatch env cmd arg s) as [[] ?|?]. Qed.

End Frame.

(** X1.  What a command may touch.  Whatever the command and whatever the
    collaborators do, the server configuration of the connection never
    changes; the counter of unrecognized commands changes only on an
    unrecognized command; the declared identity changes only on HELO, EHLO
    or LHLO; and the transport, with the text layer over it, changes only on
    STARTTLS. *)
Theorem command_frame (env : Env) (cmd arg : string) (s : St) :
  let s' := state_of (handle env cmd arg s) in
  let verb := ToUpper env cmd in
  server (cn s') = server (cn s)
  ∧ (nbrErrors (cn s') ≠ nbrErrors (cn s) → unrecognized env (server (cn s)) cmd)
  ∧ (helo (cn s') ≠ helo (cn s) → cmd ≠ "" ∧ verb ∈ ["HELO"; "EHLO"; "LHLO"])
  ∧ (conn (cn s') ≠ conn (cn s) ∨ text (cn s') ≠ text (cn s) →
     is_verb env cmd "STARTTLS").
Proof.
  intros s' verb. subst s' verb. rewrite handle_state.
  destruct (dispatch_frame env cmd arg s) as (H1 & H2 & H3 & H4 & _).
  destruct (panicked (dispatch env cmd arg s)); [|done].
  by rewrite recover_state.
Qed.

(** X2.  When a connection gets closed.  A command closes the connection
    only if it is QUIT, or an unrecognized command, or if its handler
    panicked and the deferred recovery closed the connection; every other
    command leaves an open connection open. *)
Theorem closed_only_by (env : Env) (cmd arg : string) (s : St) :
  closed s = false → closed (state_of (handle env cmd arg s)) = true →
  is_verb env cmd "QUIT" ∨ unrecognized env (server (cn s)) cmd
  ∨ panicked (dispatch env cmd arg s) = true.
Proof.
  intros Hopen Hclosed. rewrite handle_state in Hclosed.
  destruct (dispatch_frame env cmd arg s) as (_ & _ & _ & _ & H5).
  destruct (panicked (dispatch env cmd arg s)); [by right; right|].
  destruct H5 as [?|?]; [congruence|by left|by right; left].
Qed.

Lemma closed_only_by_witness :
  let env := Sample.env true in
  let s := accepted (RawConn "192.0.2.1:25") Sample.srv [] in
  closed s = false ∧ closed (state_of (handle env "quit" "" s)) = true ∧
  (is_verb env "quit" "QUIT" ∨ unrecognized env (server (cn s)) "quit"
   ∨ panicked (dispatch env "quit" "" s) = true).
Proof.
  intros env s. split; [reflexivity|]. split; [reflexivity|].
  exact (closed_only_by env "quit" "" s eq_refl eq_refl).
Defined.

(** ** Panics and their recovery *)

Section Panics.
Context (env : Env).

Ltac grows :=
  first [ exists []; by rewrite app_nil_r
        | eexists; rewrite <- ?app_assoc; reflexivity ].

Lemma handleMail_panic arg s :
  panicked (handleMail env arg s) = true →
  session (cn (state_of (handleMail env arg s))) = None
  ∧ ∃ evs, hist (state_of (handleMail env arg s)) = hist s ++ evs.
Proof.
  unfold handleMail, ensure_session, check_mail_params, reply_error,
    mail_syntax_error.
  run; intros Hp; try discriminate Hp; try congruence;
    try match goal with H : Split _ _ = [] |- _ => by apply Split_nonempty in H end;
    (split; [done|grows]).
Qed.

Lemma handleRcpt_panic arg s :
  panicked (handleRcpt env arg s) = true →
  session (cn (state_of (handleRcpt env arg s))) = None
  ∧ ∃ evs, hist (state_of (handleRcpt env arg s)) = hist s ++ evs.
Proof.
  unfold handleRcpt, reply_error.
  run; intros Hp; try discriminate Hp; try congruence; (split; [done|grows]).
Qed.

Lemma handleData_panic arg s :
  panicked (handleData env arg s) = true →
  session (cn (state_of (handleData env arg s))) = None
  ∧ ∃ evs, hist (state_of (handleData env arg s)) = hist s ++ evs.
Proof.
  unfold handleData, reset.
  run; intros Hp; try discriminate Hp; try congruence; (split; [done|grows]).
Qed.

Lemma saslLoop_returns f w response s :
  panicked (saslLoop env f w response s) = false.
Proof.
  revert response s.
  induction w as [|line w IH]; intros response s; simpl; unfold reply_error; run;
    solve [reflexivity | apply IH].
Qed.

Lemma handleAuth_returns arg s : panicked (handleAuth env arg s) = false.
Proof.
  unfold handleAuth, auth_exchange.
  run; try reflexivity.
  all: match goal with
       | H : saslLoop env ?f ?w ?r ?s0 = Panicked _ |- _ =>
           pose proof (saslLoop_returns f w r s0) as Hret; by rewrite H in Hret
       end.
Qed.

Lemma handleGreet_returns enhanced arg s :
  panicked (handleGreet env enhanced arg s) = false.
Proof. unfold handleGreet. run; reflexivity. Qed.

Lemma handleStartTLS_returns s : panicked (handleStartTLS env s) = false.
Proof. unfold handleStartTLS, reset. run; reflexivity. Qed.

Lemma unrecognizedCommand_returns verb s :
  panicked (unrecognizedCommand env verb s) = false.
Proof. unfold unrecognizedCommand. run; reflexivity. Qed.

Lemma dispatch_panic cmd arg s :
  panicked (dispatch env cmd arg s) = true →
  (is_verb env cmd "MAIL" ∨ is_verb env cmd "RCPT" ∨ is_verb env cmd "DATA")
  ∧ session (cn (state_of (dispatch env cmd arg s))) = None
  ∧ ∃ evs, hist (state_of (dispatch env cmd arg s)) = hist s ++ evs.
Proof.
  unfold dispatch, reset.
  run; intros Hp; try discriminate Hp.
  all: try (rewrite handleGreet_returns in Hp; discriminate Hp).
  all: try (rewrite handleAuth_returns in Hp; discriminate Hp).
  all: try (rewrite handleStartTLS_returns in Hp; discriminate Hp).
  all: try (rewrite unrecognizedCommand_returns in Hp; discriminate Hp).
  all: repeat match goal with
              | H : bool_decide _ = true |- _ => apply bool_decide_eq_true_1 in H
              end.
  - split; [left; split; [eapply bool_decide_eq_false_1; eassumption|done]|].
    by apply handleMail_panic.
  - split; [right; left; split; [eapply bool_decide_eq_false_1; eassumption|done]|].
    by apply handleRcpt_panic.
  - split; [right; right; split; [eapply bool_decide_eq_false_1; eassumption|done]|].
    by apply handleData_panic.
Qed.

End Panics.

(** ** A call on a session that is not there *)

Section NilSession.
Context (env : Env) (Hwf : sentinels_wf env).

Lemma handleRcpt_nil arg s :
  session (cn s) = None → fromReceived (cn s) = true → rcpt_argument env arg →
  ¬ (0 < MaxRecipients (server (cn s)) ≤ Z.of_nat (length (recipients (cn s)))) →
  handleRcpt env arg s = Panicked s.
Proof.
  intros Hs Hfrom [Hlen Hto] Hmax.
  unfold handleRcpt. unfold_monad. simpl.
  rewrite Hfrom, Hto, Hs. simpl.
  rewrite (bool_decide_eq_false_2 (String.length arg < 4)%nat) by lia. simpl.
  assert (bool_decide (MaxRecipients (server (cn s)) > 0)
          && bool_decide (Z.of_nat (length (recipients (cn s)))
                          >= MaxRecipients (server (cn s))) = false) as ->.
  { destruct (bool_decide (MaxRecipients (server (cn s)) > 0)) eqn:H1; [|done].
    apply bool_decide_eq_true_1 in H1. simpl. apply bool_decide_eq_false_2. lia. }
  reflexivity.
Qed.

Lemma handleData_nil s :
  session (cn s) = None → fromReceived (cn s) = true → recipients (cn s) ≠ [] →
  handleData env "" s = Panicked (log [EvPrintfLine (text (cn s)) go_ahead] s).
Proof.
  intros Hs Hfrom Hrcpt. unfold handleData. simpl. unfold_monad. simpl.
  assert (negb (fromReceived (cn s))
          || bool_decide (length (recipients (cn s)) = 0%nat) = false) as ->.
  { rewrite Hfrom. simpl. apply bool_decide_eq_false_2.
    by destruct (recipients (cn s)). }
  simpl. explicit_reply Hwf. fold go_ahead.
  destruct (dataReader (wire s)) as [body rest]. by rewrite Hs.
Qed.

Lemma handleMail_nil arg from params s :
  session (cn s) = None → helo (cn s) ≠ "" →
  AnonymousLogin env (hist s) (State (cn s)) = (None, None) →
  mail_argument env (Strict (server (cn s))) arg from params →
  mail_params_refusal env (server (cn s)) params = None →
  handleMail env arg s
  = Panicked (log [EvAnonymousLogin (State (cn s)) (None, None)] s).
Proof.
  intros Hs Hhelo Hlogin (Hlen & Hpre & from0 & Hsplit & Hstrict & Hfrom & Hne) Hpar.
  assert (Hcn : set_session None (cn s) = cn s)
    by (destruct (cn s); simpl in *; by subst).
  unfold handleMail, ensure_session, mail_syntax_error, check_mail_params,
    reply_error.
  unfold mail_params_refusal in Hpar.
  unfold_monad. simpl.
  rewrite (bool_decide_eq_false_2 (helo (cn s) = "")) by done.
  rewrite Hs, Hlogin. simpl. rewrite Hpre.
  rewrite (bool_decide_eq_false_2 (String.length arg < 6)%nat) by lia. simpl.
  rewrite Hsplit.
  assert (Strict (server (cn s))
          && (negb (HasPrefix from0 "<") || negb (HasSuffix from0 ">")) = false)
    as ->.
  { destruct (Strict (server (cn s))); [|done].
    by destruct (Hstrict eq_refl) as [-> ->]. }
  rewrite <- Hfrom. rewrite (bool_decide_eq_false_2 (from = "")) by done.
  rewrite Hcn.
  destruct (bool_decide (params = [])) eqn:Hp; simpl.
  { by rewrite Hs. }
  destruct (parseArgs env params) as [args|]; simpl; [|done].
  destruct (bool_decide (default "" (args !! "SIZE") = "")) eqn:Hsz; simpl.
  { by rewrite Hs. }
  destruct (ParseInt env _) as [size|]; simpl; [|done].
  destruct (_ && _); simpl; [done|].
  by rewrite Hs.
Qed.

Lemma handle_recovered cmd arg s evs :
  session (cn s) = None →
  dispatch env cmd arg s = Panicked (log evs s) →
  state_of (handle env cmd arg s) = recovered s evs.
Proof.
  intros Hs Hd. rewrite handle_state, Hd. simpl. rewrite recover_state.
  unfold recovered, close_events. simpl. rewrite Hs.
  explicit_reply Hwf. fold internal_error_line. by rewrite <- ?app_assoc.
Qed.

End NilSession.

(** X3.  A command that calls the session while the engine holds none.
    MAIL after the greeting, when the anonymous login returns neither a
    session nor an error and the argument and its parameters pass the
    checks; RCPT after a sender was accepted, with a well-formed argument
    and below the limit; DATA without argument after a sender and a
    recipient were accepted (the 354 line is printed first).  In each case
    the deferred recovery prints [421 4.0.0 Internal server error] and
    closes the transport; the engine fields and the lines on the wire are as
    they were, and the session is not called.  What the recovery then writes
    to the error log is outside of this statement. *)
Theorem nil_session_recovered (env : Env) (cmd arg : string) (s : St) :
  sentinels_wf env → session (cn s) = None →
  let s' := state_of (handle env cmd arg s) in
  (is_verb env cmd "MAIL" → helo (cn s) ≠ "" →
   AnonymousLogin env (hist s) (State (cn s)) = (None, None) →
   ∀ from params,
     mail_argument env (Strict (server (cn s))) arg from params →
     mail_params_refusal env (server (cn s)) params = None →
     s' = recovered s [EvAnonymousLogin (State (cn s)) (None, None)])
  ∧ (is_verb env cmd "RCPT" → fromReceived (cn s) = true →
     rcpt_argument env arg →
     ¬ (0 < MaxRecipients (server (cn s)) ≤ Z.of_nat (length (recipients (cn s)))) →
     s' = recovered s [])
  ∧ (is_verb env cmd "DATA" → arg = "" → fromReceived (cn s) = true →
     recipients (cn s) ≠ [] →
     s' = recovered s [EvPrintfLine (text (cn s)) go_ahead]).
Proof.
  intros Hwf Hs s'. subst s'. split; [|split].
  - intros Hverb Hhelo Hlogin from params Harg Hpar.
    apply (handle_recovered env Hwf); [done|].
    rewrite (dispatch_MAIL env cmd arg s Hverb).
    by apply (handleMail_nil env arg from params).
  - intros Hverb Hfrom Harg Hmax.
    apply (handle_recovered env Hwf); [done|].
    rewrite (dispatch_RCPT env cmd arg s Hverb), log_nil.
    by apply handleRcpt_nil.
  - intros Hverb -> Hfrom Hrcpt.
    apply (handle_recovered env Hwf); [done|].
    rewrite (dispatch_DATA env cmd "" s Hverb).
    by apply handleData_nil.
Qed.

Lemma nil_session_recovered_witness :
  let env := with_login (None, None) (Sample.env true) in
  let plain := RawConn "192.0.2.1:25" in
  let s := serve env [("EHLO", "a.example")] (accepted plain Sample.srv []) in
  let s' := state_of (handle env "MAIL" "FROM:<u@a.example>" s) in
  sentinels_wf env ∧ session (cn s) = None ∧
  is_verb env "MAIL" "MAIL" ∧ helo (cn s) ≠ "" ∧
  AnonymousLogin env (hist s) (State (cn s)) = (None, None) ∧
  mail_argument env (Strict (server (cn s))) "FROM:<u@a.example>" "u@a.example" [] ∧
  mail_params_refusal env (server (cn s)) [] = None ∧
  closed s' = true ∧
  added s s'
  = [EvAnonymousLogin (State (cn s)) (None, None);
     EvPrintfLine plain internal_error_line; EvConnClose plain].
Proof.
  intros env plain s s'.
  assert (Hwf : sentinels_wf env) by (repeat split; done).
  assert (Hv : is_verb env "MAIL" "MAIL") by (split; [discriminate|reflexivity]).
  assert (Hh : helo (cn s) ≠ "") by (vm_compute; discriminate).
  assert (Ha : mail_argument env (Strict (server (cn s))) "FROM:<u@a.example>"
                 "u@a.example" []).
  { split; [vm_compute; lia|]. split; [reflexivity|].
    exists "<u@a.example>". split; [reflexivity|]. split; [discriminate|].
    split; [reflexivity|discriminate]. }
  split; [exact Hwf|]. split; [reflexivity|]. split; [exact Hv|].
  split; [exact Hh|]. split; [reflexivity|]. split; [exact Ha|].
  split; [reflexivity|].
  destruct (nil_session_recovered env "MAIL" "FROM:<u@a.example>" s Hwf eq_refl)
    as (Hmail & _).
  subst s'. rewrite (Hmail Hv Hh eq_refl "u@a.example" [] Ha eq_refl).
  split; [reflexivity|]. vm_compute. reflexivity.
Defined.

(** ** The recipient sequence *)

Section Recipients.
Context (env : Env).

Lemma accepted_recipients_app h evs :
  accepted_recipients (h ++ evs) = foldl track_recipients (accepted_recipients h) evs.
Proof. apply foldl_app. Qed.

Lemma track_recipients_auth evs acc :
  Forall (λ e, auth_event e = true) evs → foldl track_recipients acc evs = acc.
Proof.
  intros Hall. revert acc. induction Hall as [|e evs He _ IH]; intros acc; [done|].
  simpl. rewrite <- (IH acc) at 2. f_equal. by destruct e.
Qed.

Lemma auth_event_reply via code enhCode text_ :
  Forall (λ e, auth_event e = true) (reply env via code enhCode text_).
Proof. unfold reply. by apply Forall_fmap, Forall_true. Qed.

Lemma track_recipients_reply via code enhCode text_ acc :
  foldl track_recipients acc (reply env via code enhCode text_) = acc.
Proof. apply track_recipients_auth, auth_event_reply. Qed.

Lemma track_recipients_replies via code enhCode (f : string -> string) l acc :
  foldl track_recipients acc
    (concat ((λ x, reply env via code enhCode [f x]) <$> l)) = acc.
Proof.
  apply track_recipients_auth, Forall_concat, Forall_fmap, Forall_true.
  intros x. apply auth_event_reply.
Qed.

(** Closes a goal on the recipient sequence of an explicit final state. *)
Ltac rcpt_leaf :=
  unfold recipients_inv in *; simpl in *;
  rewrite ?accepted_recipients_app, ?foldl_app in *; simpl in *;
  rewrite ?track_recipients_reply, ?track_recipients_replies in *; simpl in *;
  try congruence.

Ltac auth_events H :=
  repeat first [ exact H
               | apply Forall_nil_2
               | apply auth_event_reply
               | apply Forall_app; split
               | apply Forall_cons; split; [reflexivity|] ].

Lemma saslLoop_events f w response s :
  ∃ evs, hist (state_of (saslLoop env f w response s)) = hist s ++ evs
         ∧ Forall (λ e, auth_event e = true) evs.
Proof.
  revert response s.
  induction w as [|line w IH]; intros response s; simpl; unfold reply_error; run.
  all: try match goal with
           | |- context [saslLoop env ?f ?w ?r ?s0] =>
               destruct (IH r s0) as (evs & -> & Hevs); simpl;
               eexists; split; [rewrite <- ?app_assoc; reflexivity|];
               auth_events Hevs
           end.
  all: eexists; (split; [rewrite <- ?app_assoc; reflexivity|]); auth_events I.
Qed.

Lemma handleAuth_events arg s :
  ∃ evs, hist (state_of (handleAuth env arg s)) = hist s ++ evs
         ∧ Forall (λ e, auth_event e = true) evs.
Proof.
  unfold handleAuth, auth_exchange.
  run.
  all: try match goal with
           | H : saslLoop env ?f ?w ?r ?s0 = _ |- _ =>
               destruct (saslLoop_events f w r s0) as (evs & Hh & Hevs);
               rewrite H in Hh; simpl in Hh; simpl; rewrite ?Hh;
               eexists; split; [rewrite <- ?app_assoc; reflexivity|];
               auth_events Hevs
           end.
  all: first [ exists []; split; [by rewrite app_nil_r|apply Forall_nil_2]
             | eexists; (split; [rewrite <- ?app_assoc; reflexivity|]);
               auth_events I ].
Qed.

Lemma handleMail_recipients arg s :
  recipients_inv s → recipients_inv (state_of (handleMail env arg s)).
Proof.
  intros Hinv. unfold handleMail, ensure_session, check_mail_params,
    reply_error, mail_syntax_error.
  run; rcpt_leaf.
Qed.

Lemma handleRcpt_recipients arg s :
  recipients_inv s → recipients_inv (state_of (handleRcpt env arg s)).
Proof.
  intros Hinv. unfold handleRcpt, reply_error. run; rcpt_leaf.
Qed.

Lemma handleData_recipients arg s :
  recipients_inv s → recipients_inv (state_of (handleData env arg s)).
Proof.
  intros Hinv. unfold handleData, reset. run; rcpt_leaf.
Qed.

Lemma handleGreet_recipients enhanced arg s :
  recipients_inv s → recipients_inv (state_of (handleGreet env enhanced arg s)).
Proof. intros Hinv. unfold handleGreet. run; rcpt_leaf. Qed.

Lemma handleStartTLS_recipients s :
  recipients_inv s → recipients_inv (state_of (handleStartTLS env s)).
Proof. intros Hinv. unfold handleStartTLS, reset. run; rcpt_leaf. Qed.

Lemma unrecognizedCommand_recipients verb s :
  recipients_inv s → recipients_inv (state_of (unrecognizedCommand env verb s)).
Proof. intros Hinv. unfold unrecognizedCommand. run; rcpt_leaf. Qed.

Lemma handleAuth_recipients arg s :
  recipients_inv s → recipients_inv (state_of (handleAuth env arg s)).
Proof.
  intros Hinv. unfold recipients_inv.
  destruct (handleAuth_same_envelope env arg s) as (_ & -> & _).
  destruct (handleAuth_events arg s) as (evs & -> & Hevs).
  by rewrite accepted_recipients_app, track_recipients_auth.
Qed.

Lemma dispatch_recipients cmd arg s :
  recipients_inv s → recipients_inv (state_of (dispatch env cmd arg s)).
Proof.
  intros Hinv. unfold dispatch, reset.
  run;
    first [ apply handleGreet_recipients | apply handleMail_recipients
          | apply handleRcpt_recipients | apply handleData_recipients
          | apply handleStartTLS_recipients | apply unrecognizedCommand_recipients
          | apply handleAuth_recipients | idtac ];
    rcpt_leaf.
Qed.

Lemma handle_recipients cmd arg s :
  recipients_inv s → recipients_inv (state_of (handle env cmd arg s)).
Proof.
  intros Hinv. rewrite handle_state.
  pose proof (dispatch_recipients cmd arg s Hinv) as Hd.
  destruct (panicked (dispatch env cmd arg s)); [|done].
  rewrite recover_state. unfold close_events. rcpt_leaf.
  destruct (session _); simpl; congruence.
Qed.

End Recipients.

(** X4.  The recipient sequence, on every connection and whatever the
    collaborators do, is the sequence of the addresses that the session has
    accepted since the last [reset()], in the order in which it accepted
    them and with their repetitions. *)
Theorem recipients_in_order (env : Env) (c : NetConn) (srv : Server)
    (w : list string) (cmds : list (string * string)) :
  let s := serve env cmds (accepted c srv w) in
  recipients (cn s) = accepted_recipients (hist s).
Proof.
  intros s. subst s.
  assert (H : ∀ s0, recipients_inv s0 → recipients_inv (serve env cmds s0)).
  { induction cmds as [|[cmd arg] cmds IH]; intros s0 Hinv; simpl; [done|].
    destruct (closed s0); [done|]. by apply IH, handle_recipients. }
  by apply H.
Qed.

(** ** AUTH and the envelope *)

(** X5.  An AUTH command, whatever the mechanism does and even when it
    installs a new session in the middle of a mail transaction, leaves the
    sender flag and the recipient sequence as they were, changes neither the
    transport nor the declared identity nor the counter, does not close the
    connection, and adds to the history only printed lines, turns of the
    mechanism and lines read: it calls neither the backend nor the session. *)
Theorem auth_keeps_envelope (env : Env) (cmd arg : string) (s : St) :
  is_verb env cmd "AUTH" → AuthDisabled (server (cn s)) = false →
  let s' := state_of (handle env cmd arg s) in
  fromReceived (cn s') = fromReceived (cn s)
  ∧ recipients (cn s') = recipients (cn s)
  ∧ shell s' = shell s
  ∧ Forall (λ e, auth_event e = true) (added s s').
Proof.
  intros Hverb Hauth s'. subst s'.
  rewrite handle_no_panic;
    rewrite (dispatch_AUTH env cmd arg s Hverb Hauth); [|apply handleAuth_returns].
  destruct (handleAuth_same_envelope env arg s) as (Hf & Hr & _).
  destruct (handleAuth_events env arg s) as (evs & Hh & Hevs).
  split; [done|]. split; [done|]. split; [apply handleAuth_shell|].
  by rewrite (added_log evs).
Qed.

Lemma auth_keeps_envelope_witness :
  let env := Sample.env true in
  let s := serve env [("EHLO", "a.example"); ("MAIL", "FROM:<u@a.example>");
                      ("RCPT", "TO:<v@b.example>")]
             (accepted (RawConn "192.0.2.1:25") Sample.srv []) in
  let s' := state_of (handle env "AUTH" "PLAIN" s) in
  is_verb env "AUTH" "AUTH" ∧ AuthDisabled (server (cn s)) = false ∧
  session (cn s) = Some 1%nat ∧ session (cn s') = Some 2%nat ∧
  fromReceived (cn s') = true ∧ recipients (cn s') = ["v@b.example"].
Proof.
  intros env s s'.
  assert (Hverb : is_verb env "AUTH" "AUTH") by (split; [discriminate|reflexivity]).
  split; [exact Hverb|]. do 3 (split; [reflexivity|]).
  destruct (auth_keeps_envelope env "AUTH" "PLAIN" s Hverb eq_refl)
    as (Hf & Hr & _).
  split; [exact Hf|exact Hr].
Defined.

(** ** The text layer and the transport *)

Section TextLayer.
Context (env : Env).

Lemma handleStartTLS_text s :
  text (cn s) = conn (cn s) →
  text (cn (state_of (handleStartTLS env s)))
  = conn (cn (state_of (handleStartTLS env s))).
Proof. intros Heq. unfold handleStartTLS, reset. run; done. Qed.

Lemma handle_text cmd arg s :
  text (cn s) = conn (cn s) →
  text (cn (state_of (handle env cmd arg s)))
  = conn (cn (state_of (handle env cmd arg s))).
Proof.
  intros Heq.
  assert (Htr : conn (cn (state_of (handle env cmd arg s))) ≠ conn (cn s)
                ∨ text (cn (state_of (handle env cmd arg s))) ≠ text (cn s) →
                is_verb env cmd "STARTTLS").
  { rewrite handle_state.
    destruct (dispatch_frame env cmd arg s) as (_ & _ & _ & H4 & _).
    destruct (panicked (dispatch env cmd arg s)); [|done].
    by rewrite recover_state. }
  destruct (decide (conn (cn (state_of (handle env cmd arg s))) = conn (cn s)))
    as [Hc|Hc];
    [destruct (decide (text (cn (state_of (handle env cmd arg s))) = text (cn s)))
       as [Ht|Ht]; [congruence|]|].
  all: assert (Hverb : is_verb env cmd "STARTTLS") by (apply Htr; auto).
  all: rewrite handle_no_panic;
    rewrite (dispatch_STARTTLS env cmd arg s Hverb);
    [by apply handleStartTLS_text|apply handleStartTLS_returns].
Qed.

End TextLayer.

(** X6.  On every connection, after every command, the text layer that the
    replies are printed through is built over the transport the engine
    currently holds: [init] follows every swap of [c.conn]. *)
Theorem text_over_conn (env : Env) (c : NetConn) (srv : Server)
    (w : list string) (cmds : list (string * string)) :
  let s := serve env cmds (accepted c srv w) in
  text (cn s) = conn (cn s).
Proof.
  intros s. subst s.
  assert (H : ∀ s0, text (cn s0) = conn (cn s0) →
                    text (cn (serve env cmds s0)) = conn (cn (serve env cmds s0))).
  { induction cmds as [|[cmd arg] cmds IH]; intros s0 Heq; simpl; [done|].
    destruct (closed s0); [done|]. by apply IH, handle_text. }
  by apply H.
Qed.

(** ** Reset, and the end of a transaction *)

Section Transactions.
Context (env : Env) (Hwf : sentinels_wf env).

Lemma reset_eq s :
  reset s = Returned tt (mkSt (cleared (cn s)) (wire s) (closed s)
                           (hist s ++ reset_events (cn s))).
Proof.
  unfold reset, reset_events, cleared. unfold_monad. simpl.
  destruct (session (cn s)); simpl; by rewrite <- ?app_assoc.
Qed.

Lemma dispatch_RSET cmd arg s :
  is_verb env cmd "RSET" →
  dispatch env cmd arg s
  = (reset ;; WriteResponse env 250 (2, 0, 0) ["Session reset"]) s.
Proof.
  intros [Hne Hup]. unfold dispatch.
  rewrite bool_decide_eq_false_2 by done. by rewrite Hup.
Qed.

Lemma dispatch_QUIT cmd arg s :
  is_verb env cmd "QUIT" →
  dispatch env cmd arg s
  = (WriteResponse env 221 (2, 0, 0) ["Goodnight and good luck"] ;; Close) s.
Proof.
  intros [Hne Hup]. unfold dispatch.
  rewrite bool_decide_eq_false_2 by done. by rewrite Hup.
Qed.

Lemma handleData_eq s sess :
  fromReceived (cn s) = true → recipients (cn s) ≠ [] →
  session (cn s) = Some sess →
  let via := text (cn s) in
  let body := (dataReader (wire s)).1 in
  let r := Data env (hist s ++ [EvPrintfLine via go_ahead]) sess body in
  handleData env "" s
  = Returned tt
      (mkSt (cleared (cn s)) (dataReader (wire s)).2 (closed s)
         (hist s ++ [EvPrintfLine via go_ahead; EvData sess body r]
          ++ data_replies env (cn s) r ++ [EvReset; EvSessionReset sess])).
Proof.
  intros Hfrom Hrcpt Hsess via body r. subst via body r.
  unfold handleData. simpl. unfold_monad. simpl.
  assert (negb (fromReceived (cn s))
          || bool_decide (length (recipients (cn s)) = 0%nat) = false) as ->.
  { rewrite Hfrom. simpl. apply bool_decide_eq_false_2.
    by destruct (recipients (cn s)). }
  simpl. explicit_reply Hwf. fold go_ahead.
  destruct (dataReader (wire s)) as [body rest] eqn:Hdr. rewrite Hsess. simpl.
  unfold data_replies, data_outcome.
  destruct (Data env _ sess body) as [[e|t]|]; simpl;
    destruct (LMTP (server (cn s))); simpl;
    rewrite ?for_each_WriteResponse, ?WriteResponse_eq by done; simpl;
    rewrite reset_eq; unfold reset_events, cleared; simpl; rewrite Hsess;
    rewrite <- ?app_assoc; reflexivity.
Qed.

End Transactions.

Section TransactionReplies.
Context (env : Env) (Hwf : sentinels_wf env).

Lemma printed_app h1 h2 : printed (h1 ++ h2) = printed h1 ++ printed h2.
Proof. unfold printed. apply omap_app. Qed.

Lemma printed_reply via code enhCode text_ :
  printed (reply env via code enhCode text_) = reply_lines env code enhCode text_.
Proof.
  unfold reply. induction (reply_lines env code enhCode text_) as [|l ls IH];
    [done|]. simpl. by f_equal.
Qed.

Lemma reply_line_explicit code a b c t :
  generic_class a = true →
  reply_lines env code (a, b, c) [t]
  = [pretty code +:+ " " +:+ fmt_enhanced (a, b, c) +:+ " " +:+ t].
Proof.
  intros Ha. unfold reply_lines. simpl.
  by rewrite (final_line_explicit _ _ _ _ _ _ Hwf).
Qed.

Lemma printed_queued_lmtp via l :
  printed (concat ((λ rcpt, reply env via 250 (2, 0, 0)
                              ["<" +:+ rcpt +:+ "> " +:+ "OK: queued"]) <$> l))
  = (λ rcpt, "250 2.0.0 <" +:+ rcpt +:+ "> OK: queued") <$> l.
Proof.
  induction l as [|rcpt l IH]; [done|].
  rewrite !fmap_cons. change (concat (?x :: ?xs)) with (x ++ concat xs).
  rewrite printed_app, IH, printed_reply, reply_line_explicit by done.
  reflexivity.
Qed.

End TransactionReplies.

(** X7.  RSET, with any argument and in any state, answers [250 2.0.0
    Session reset] after it has cleared the sender flag and the recipient
    sequence and, if the engine holds a session, called its [Reset]; it
    keeps the session, the declared identity and the transport.  A RCPT
    command sent right after it is refused with 502. *)
Theorem rset_clears_envelope (env : Env) (cmd arg cmd' arg' : string) (s : St) :
  sentinels_wf env → is_verb env cmd "RSET" → is_verb env cmd' "RCPT" →
  let s' := state_of (handle env cmd arg s) in
  s' = mkSt (cleared (cn s)) (wire s) (closed s)
         (hist s ++ reset_events (cn s)
          ++ [EvPrintfLine (text (cn s)) "250 2.0.0 Session reset"])
  ∧ fromReceived (cn s') = false ∧ recipients (cn s') = []
  ∧ state_of (handle env cmd' arg' s')
    = log [EvPrintfLine (text (cn s)) "502 5.5.1 Missing MAIL FROM command."] s'.
Proof.
  intros Hwf Hverb Hverb' s'.
  assert (Hs' : s' = mkSt (cleared (cn s)) (wire s) (closed s)
         (hist s ++ reset_events (cn s)
          ++ [EvPrintfLine (text (cn s)) "250 2.0.0 Session reset"])).
  { subst s'. rewrite handle_no_panic; rewrite (dispatch_RSET env cmd arg s Hverb);
      unfold_monad; rewrite reset_eq; rewrite WriteResponse_eq by done; [|done].
    simpl. explicit_reply Hwf. unfold log. simpl. by rewrite <- app_assoc. }
  split; [done|]. rewrite Hs'. split; [done|]. split; [done|].
  rewrite handle_no_panic; rewrite (dispatch_RCPT env cmd' arg' _ Hverb');
    rewrite (handleRcpt_no_sender env Hwf) by done; done.
Qed.

Lemma rset_clears_envelope_witness :
  let env := Sample.env true in
  let s := serve env [("EHLO", "a.example"); ("MAIL", "FROM:<u@a.example>");
                      ("RCPT", "TO:<v@b.example>")]
             (accepted (RawConn "192.0.2.1:25") Sample.srv []) in
  let s' := state_of (handle env "RSET" "" s) in
  sentinels_wf env ∧ is_verb env "RSET" "RSET" ∧ is_verb env "RCPT" "RCPT" ∧
  recipients (cn s) = ["v@b.example"] ∧ recipients (cn s') = [] ∧
  printed (added s s') = ["250 2.0.0 Session reset"].
Proof.
  intros env s s'.
  assert (Hv : is_verb env "RSET" "RSET") by (split; [discriminate|reflexivity]).
  assert (Hv' : is_verb env "RCPT" "RCPT") by (split; [discriminate|reflexivity]).
  split; [apply sample_sentinels_wf|]. do 3 (split; [done|]).
  destruct (rset_clears_envelope env "RSET" "" "RCPT" "TO:<x@b.example>" s
              (sample_sentinels_wf true) Hv Hv') as (_ & _ & Hr & _).
  split; [exact Hr|reflexivity].
Defined.

(** X8.  A DATA command without argument, on a server without a limit on
    the size of a message, with a sender and at least one recipient accepted
    and a session held, when the peer sends a body that ends with the
    terminator line: the engine prints 354, hands the session the body that
    the data reader yields, leaves on the wire what follows the terminator
    whatever the session answers, replies according to the answer (nothing
    wrong: 250 [OK: queued]; a structured error: its own code and text; any
    other error: 554 with the text of the error), in LMTP mode once for each
    recipient with the recipient in front, and then resets the envelope and
    the session. *)
Theorem data_transaction (env : Env) (cmd : string) (s : St) (sess : Session) :
  sentinels_wf env → is_verb env cmd "DATA" →
  MaxMessageBytes (server (cn s)) ≤ 0 → "." ∈ wire s →
  fromReceived (cn s) = true → recipients (cn s) ≠ [] →
  session (cn s) = Some sess →
  let via := text (cn s) in
  let body := (dataReader (wire s)).1 in
  let r := Data env (hist s ++ [EvPrintfLine via go_ahead]) sess body in
  state_of (handle env cmd "" s)
  = mkSt (cleared (cn s)) (dataReader (wire s)).2 (closed s)
      (hist s ++ [EvPrintfLine via go_ahead; EvData sess body r]
       ++ data_replies env (cn s) r ++ [EvReset; EvSessionReset sess])
  ∧ (r = None →
     printed (data_replies env (cn s) r)
     = if LMTP (server (cn s))
       then (λ rcpt, "250 2.0.0 <" +:+ rcpt +:+ "> OK: queued") <$> recipients (cn s)
       else ["250 2.0.0 OK: queued"])
  ∧ (∀ t, r = Some (OtherErr t) → LMTP (server (cn s)) = false →
     printed (data_replies env (cn s) r)
     = ["554 5.0.0 Error: transaction failed, blame it on the weather: " +:+ t]).
Proof.
  intros Hwf Hverb _ _ Hfrom Hrcpt Hsess via body r. split; [|split].
  - rewrite handle_no_panic;
      rewrite (dispatch_DATA env cmd "" s Hverb),
        (handleData_eq env Hwf s sess Hfrom Hrcpt Hsess); done.
  - intros ->. unfold data_replies. simpl.
    destruct (LMTP (server (cn s))).
    + apply (printed_queued_lmtp env Hwf).
    + by rewrite printed_reply, (reply_line_explicit env Hwf).
  - intros t -> Hl. unfold data_replies. simpl. rewrite Hl.
    by rewrite printed_reply, (reply_line_explicit env Hwf).
Qed.

Lemma data_transaction_witness :
  let env := Sample.env true in
  let s := serve env [("EHLO", "a.example"); ("MAIL", "FROM:<u@a.example>");
                      ("RCPT", "TO:<v@b.example>")]
             (accepted (RawConn "192.0.2.1:25") unlimited_srv
                ["Hi"; "..dot"; "."; "NOOP"]) in
  let s' := state_of (handle env "DATA" "" s) in
  sentinels_wf env ∧ is_verb env "DATA" "DATA" ∧
  MaxMessageBytes (server (cn s)) ≤ 0 ∧ ("." ∈ wire s) ∧
  fromReceived (cn s) = true ∧ recipients (cn s) ≠ [] ∧
  session (cn s) = Some 1%nat ∧
  wire s' = ["NOOP"] ∧ recipients (cn s') = [] ∧
  added s s'
  = [EvPrintfLine (RawConn "192.0.2.1:25") go_ahead;
     EvData 1%nat ["Hi"; ".dot"] None;
     EvPrintfLine (RawConn "192.0.2.1:25") "250 2.0.0 OK: queued";
     EvReset; EvSessionReset 1%nat].
Proof.
  intros env s s'.
  assert (Hv : is_verb env "DATA" "DATA") by (split; [discriminate|reflexivity]).
  assert (Hr : recipients (cn s) ≠ []) by (vm_compute; discriminate).
  assert (Hm : MaxMessageBytes (server (cn s)) ≤ 0) by (vm_compute; discriminate).
  assert (Hw : "." ∈ wire s).
  { change (wire s) with ["Hi"; "..dot"; "."; "NOOP"].
    do 2 apply list_elem_of_further. apply list_elem_of_here. }
  split; [apply sample_sentinels_wf|]. split; [exact Hv|]. split; [exact Hm|].
  split; [exact Hw|]. do 3 (split; [done|]).
  destruct (data_transaction env "DATA" s 1%nat (sample_sentinels_wf true) Hv
              Hm Hw eq_refl Hr eq_refl) as (Hs' & _).
  subst s'. rewrite Hs'. repeat split.
Defined.

(** X9.  QUIT, in any state, answers [221 2.0.0 Goodnight and good luck],
    logs the session out if the engine holds one, closes the transport, and
    the command loop handles no command after it. *)
Theorem quit_closes (env : Env) (cmd arg : string) (s : St)
    (rest : list (string * string)) :
  sentinels_wf env → is_verb env cmd "QUIT" → closed s = false →
  let s' := state_of (handle env cmd arg s) in
  s' = mkSt (cn s) (wire s) true
         (hist s ++ EvPrintfLine (text (cn s)) "221 2.0.0 Goodnight and good luck"
          :: close_events (cn s))
  ∧ serve env ((cmd, arg) :: rest) s = s'.
Proof.
  intros Hwf Hverb Hopen s'.
  assert (Hs' : s' = mkSt (cn s) (wire s) true
         (hist s ++ EvPrintfLine (text (cn s)) "221 2.0.0 Goodnight and good luck"
          :: close_events (cn s))).
  { subst s'. erewrite handle_returned; [reflexivity|].
    rewrite (dispatch_QUIT env cmd arg s Hverb).
    unfold_monad. rewrite WriteResponse_eq by done. unfold_monad.
    unfold close_events. simpl. explicit_reply Hwf.
    destruct (session (cn s)) eqn:Hsess; simpl; rewrite ?Hsess; simpl;
      by rewrite <- ?app_assoc. }
  split; [done|]. cbn [serve]. rewrite Hopen. fold s'. rewrite Hs'.
  by destruct rest as [|[??] ?].
Qed.

Lemma quit_closes_witness :
  let env := Sample.env true in
  let s := serve env [("EHLO", "a.example"); ("MAIL", "FROM:<u@a.example>")]
             (accepted (RawConn "192.0.2.1:25") Sample.srv []) in
  sentinels_wf env ∧ is_verb env "QUIT" "QUIT" ∧ closed s = false ∧
  added s (serve env [("QUIT", ""); ("NOOP", "")] s)
  = [EvPrintfLine (RawConn "192.0.2.1:25") "221 2.0.0 Goodnight and good luck";
     EvLogout 1%nat; EvConnClose (RawConn "192.0.2.1:25")].
Proof.
  intros env s.
  assert (Hv : is_verb env "QUIT" "QUIT") by (split; [discriminate|reflexivity]).
  split; [apply sample_sentinels_wf|]. do 2 (split; [done|]).
  destruct (quit_closes env "QUIT" "" s [("NOOP", "")] (sample_sentinels_wf true)
              Hv eq_refl) as (_ & ->).
  reflexivity.
Defined.

(** ** Commands with a fixed reply *)

(** X10.  An empty command line, the verbs SEND, SOML, SAML, EXPN, HELP and
    TURN, VRFY and NOOP are each answered with one fixed line, whatever the
    argument and the state, and change nothing else: no collaborator is
    called, the envelope stays, and the counter of unrecognized commands
    does not move, not even for the verbs that are not implemented. *)
Theorem fixed_replies (env : Env) (cmd arg line : string) (s : St) :
  sentinels_wf env → fixed_reply env cmd = Some line →
  state_of (handle env cmd arg s) = log [EvPrintfLine (text (cn s)) line] s.
Proof.
  intros Hwf Hfix. erewrite handle_returned; [reflexivity|].
  unfold dispatch, fixed_reply in *.
  destruct (bool_decide (cmd = "")) eqn:Hcmd.
  - injection Hfix as <-.
    rewrite WriteResponse_eq by done. by explicit_reply Hwf.
  - unfold_monad. simpl.
    destruct (bool_decide (ToUpper env cmd ∈ _)) eqn:Hun.
    { injection Hfix as <-. rewrite WriteResponse_eq by done.
      explicit_reply Hwf. reflexivity. }
    apply bool_decide_eq_false_1 in Hun.
    destruct (bool_decide (ToUpper env cmd = "VRFY")) eqn:Hvrfy.
    { apply bool_decide_eq_true_1 in Hvrfy. rewrite Hvrfy. simpl.
      injection Hfix as <-. rewrite WriteResponse_eq by done.
      by explicit_reply Hwf. }
    destruct (bool_decide (ToUpper env cmd = "NOOP")) eqn:Hnoop; [|done].
    apply bool_decide_eq_true_1 in Hnoop. rewrite Hnoop. simpl.
    injection Hfix as <-. rewrite WriteResponse_eq by done.
    by explicit_reply Hwf.
Qed.

Lemma fixed_replies_witness :
  let env := Sample.env true in
  let s := serve env [("EHLO", "a.example"); ("MAIL", "FROM:<u@a.example>")]
             (accepted (RawConn "192.0.2.1:25") Sample.srv []) in
  sentinels_wf env ∧
  fixed_reply env "help" = Some "502 5.5.1 HELP command not implemented" ∧
  state_of (handle env "help" "me" s)
  = log [EvPrintfLine (text (cn s)) "502 5.5.1 HELP command not implemented"] s.
Proof.
  intros env s. split; [apply sample_sentinels_wf|]. split; [reflexivity|].
  exact (fixed_replies env "help" "me" _ s (sample_sentinels_wf true) eq_refl).
Defined.

(** ** The sender command, case by case *)

Section MailCases.
Context (env : Env) (Hwf : sentinels_wf env).

Lemma handleMail_no_greeting arg s :
  helo (cn s) = "" →
  handleMail env arg s
  = Returned tt (log [EvPrintfLine (text (cn s))
      "502 2.5.1 Please introduce yourself first."] s).
Proof.
  intros Hhelo. unfold handleMail. unfold_monad. simpl.
  rewrite Hhelo. simpl.
  assert (Hcode : final_line env 502 (resolve_enhanced env 502 (2, 5, 1))
                    "Please introduce yourself first."
                  = "502 2.5.1 Please introduce yourself first.").
  { by rewrite (final_line_explicit _ _ _ _ _ _ Hwf). }
  rewrite WriteResponse_eq by done. unfold reply, reply_lines. simpl.
  by rewrite Hcode.
Qed.

Lemma handleAuth_no_greeting arg s :
  helo (cn s) = "" →
  handleAuth env arg s
  = Returned tt (log [EvPrintfLine (text (cn s))
      "502 5.5.1 Please introduce yourself first."] s).
Proof.
  intros Hhelo. unfold handleAuth. unfold_monad. simpl.
  rewrite Hhelo. simpl. rewrite WriteResponse_eq by done. by explicit_reply Hwf.
Qed.

Lemma handleMail_keeps arg s :
  let s' := state_of (handleMail env arg s) in
  recipients (cn s') = recipients (cn s)
  ∧ (fromReceived (cn s) = true → fromReceived (cn s') = true)
  ∧ (fromReceived (cn s') = true →
     fromReceived (cn s) = true
     ∨ ∃ sess from, EvMail sess from None ∈ added s s').
Proof.
  unfold handleMail, ensure_session, check_mail_params, reply_error,
    mail_syntax_error.
  run; (split; [done|]); (split; [done|]); intros Hf; try (by left).
  all: right; do 2 eexists;
    erewrite added_log by (simpl; rewrite <- ?app_assoc; reflexivity);
    rewrite !elem_of_app, !elem_of_cons;
    match goal with H : Mail _ _ _ _ = None |- _ => rewrite ?H end; eauto 10.
Qed.

End MailCases.

(** X11.  Before any greeting (an empty declared identity), a MAIL command
    is answered [502 2.5.1 Please introduce yourself first.] and an AUTH
    command, authentication being enabled, [502 5.5.1 Please introduce
    yourself first.]; neither calls the backend, the session or a mechanism,
    and the state is otherwise as it was. *)
Theorem greeting_required (env : Env) (cmd arg : string) (s : St) :
  sentinels_wf env → helo (cn s) = "" →
  (is_verb env cmd "MAIL" →
   state_of (handle env cmd arg s)
   = log [EvPrintfLine (text (cn s)) "502 2.5.1 Please introduce yourself first."] s)
  ∧ (is_verb env cmd "AUTH" → AuthDisabled (server (cn s)) = false →
     state_of (handle env cmd arg s)
     = log [EvPrintfLine (text (cn s)) "502 5.5.1 Please introduce yourself first."] s).
Proof.
  intros Hwf Hhelo. split.
  - intros Hverb. erewrite handle_returned; [reflexivity|].
    rewrite (dispatch_MAIL env cmd arg s Hverb).
    by apply handleMail_no_greeting.
  - intros Hverb Hauth. erewrite handle_returned; [reflexivity|].
    rewrite (dispatch_AUTH env cmd arg s Hverb Hauth).
    by apply handleAuth_no_greeting.
Qed.

Lemma greeting_required_witness :
  let env := Sample.env true in
  let s := accepted (RawConn "192.0.2.1:25") Sample.srv [] in
  sentinels_wf env ∧ helo (cn s) = "" ∧ is_verb env "MAIL" "MAIL" ∧
  printed (hist (state_of (handle env "MAIL" "FROM:<u@a.example>" s)))
  = ["502 2.5.1 Please introduce yourself first."].
Proof.
  intros env s.
  assert (Hv : is_verb env "MAIL" "MAIL") by (split; [discriminate|reflexivity]).
  split; [apply sample_sentinels_wf|]. do 2 (split; [done|]).
  destruct (greeting_required env "MAIL" "FROM:<u@a.example>" s
              (sample_sentinels_wf true) eq_refl) as [H _].
  by rewrite (H Hv).
Defined.

(** X12.  A MAIL command never takes anything back: whatever its argument
    and its outcome, it leaves the recipient sequence as it was and a sender
    flag that was set stays set, so a second MAIL that fails does not undo
    the first; and it sets the flag only when the session has just accepted
    the sender. *)
Theorem mail_never_resets (env : Env) (cmd arg : string) (s : St) :
  is_verb env cmd "MAIL" →
  let s' := state_of (handle env cmd arg s) in
  recipients (cn s') = recipients (cn s)
  ∧ (fromReceived (cn s) = true → fromReceived (cn s') = true)
  ∧ (fromReceived (cn s') = true →
     fromReceived (cn s) = true
     ∨ ∃ sess from, EvMail sess from None ∈ added s s').
Proof.
  intros Hverb s'. subst s'. rewrite handle_state.
  rewrite (dispatch_MAIL env cmd arg s Hverb).
  destruct (handleMail_keeps env arg s) as (Hr & Hkeep & Hset).
  destruct (panicked (handleMail env arg s)) eqn:Hp; [|done].
  rewrite recover_state. simpl. split; [done|]. split; [done|].
  intros Hf. destruct (Hset Hf) as [?|(sess & from & Hin)]; [by left|right].
  exists sess, from.
  destruct (handleMail_panic env arg s Hp) as (_ & evs & Hh).
  rewrite (added_log evs) in Hin by done.
  erewrite added_log by (simpl; rewrite Hh, <- app_assoc; reflexivity).
  apply elem_of_app. by left.
Qed.

Lemma mail_never_resets_witness :
  let env := Sample.env true in
  let s := serve env [("EHLO", "a.example"); ("MAIL", "FROM:<u@a.example>");
                      ("RCPT", "TO:<v@b.example>")]
             (accepted (RawConn "192.0.2.1:25") Sample.srv []) in
  let s' := state_of (handle env "MAIL" "nonsense" s) in
  is_verb env "MAIL" "MAIL" ∧ fromReceived (cn s) = true ∧
  fromReceived (cn s') = true ∧ recipients (cn s') = ["v@b.example"] ∧
  printed (added s s') = [mail_syntax_line].
Proof.
  intros env s s'.
  assert (Hv : is_verb env "MAIL" "MAIL") by (split; [discriminate|reflexivity]).
  split; [exact Hv|]. split; [reflexivity|].
  destruct (mail_never_resets env "MAIL" "nonsense" s Hv) as (Hr & Hkeep & _).
  split; [exact (Hkeep eq_refl)|]. split; [exact Hr|reflexivity].
Defined.

Section MailOutcomes.
Context (env : Env) (Hwf : sentinels_wf env).

Ltac finish :=
  simpl; rewrite ?WriteResponse_eq by done; explicit_reply Hwf;
  unfold log; simpl; rewrite <- ?app_assoc; reflexivity.

Lemma after_login_ready s sess :
  session_ready env s sess →
  session (cn (after_login env s)) = Some sess
  ∧ helo (cn (after_login env s)) = helo (cn s)
  ∧ server (cn (after_login env s)) = server (cn s)
  ∧ text (cn (after_login env s)) = text (cn s).
Proof.
  unfold after_login. intros [Hs|[Hs Hl]]; rewrite Hs; [done|].
  simpl. by rewrite Hl.
Qed.

Lemma handleMail_login arg s sess :
  helo (cn s) ≠ "" → session_ready env s sess →
  handleMail env arg s = handleMail env arg (after_login env s).
Proof.
  intros Hhelo [Hs|[Hs Hl]]; unfold after_login; rewrite Hs; [done|].
  unfold handleMail, ensure_session. unfold_monad. simpl.
  rewrite (bool_decide_eq_false_2 (helo (cn s) = "")) by done.
  rewrite Hs, Hl. reflexivity.
Qed.

Lemma handleMail_bad_argument arg s sess :
  helo (cn s) ≠ "" → session (cn s) = Some sess →
  mail_argument_bad env (Strict (server (cn s))) arg →
  handleMail env arg s
  = Returned tt (log [EvPrintfLine (text (cn s)) mail_syntax_line] s).
Proof.
  intros Hhelo Hs Hbad. unfold handleMail, ensure_session, mail_syntax_error.
  unfold_monad. simpl.
  rewrite (bool_decide_eq_false_2 (helo (cn s) = "")) by done.
  rewrite Hs. simpl.
  assert (Hline : WriteResponse env 501 (5, 5, 2)
            ["Was expecting MAIL arg syntax of FROM:<address>"] s
          = Returned tt (log [EvPrintfLine (text (cn s)) mail_syntax_line] s)).
  { rewrite WriteResponse_eq by done. by explicit_reply Hwf. }
  destruct (bool_decide (String.length arg < 6)%nat) eqn:Hlen; [done|].
  apply bool_decide_eq_false_1 in Hlen.
  destruct (bool_decide (ToUpper env (slice_to 5 arg) = "FROM:")) eqn:Hpre;
    [|done].
  apply bool_decide_eq_true_1 in Hpre. simpl.
  destruct Hbad as [?|[?|(from0 & params & Hsplit & Hcase)]]; [lia|done|].
  rewrite Hsplit.
  destruct Hcase as [[Hstrict Hbr]|Hempty].
  - rewrite Hstrict. simpl. by destruct Hbr as [-> | ->]; rewrite ?orb_true_r.
  - rewrite Hempty. simpl. by destruct (_ && _).
Qed.

Lemma handleMail_good_argument arg from params s sess :
  helo (cn s) ≠ "" → session (cn s) = Some sess →
  mail_argument env (Strict (server (cn s))) arg from params →
  handleMail env arg s
  = match mail_params_refusal env (server (cn s)) params with
    | Some line => Returned tt (log [EvPrintfLine (text (cn s)) line] s)
    | None =>
        let r := Mail env (hist s) sess from in
        Returned tt
          match r with
          | None =>
              mkSt (set_fromReceived true (cn s)) (wire s) (closed s)
                (hist s ++ [EvMail sess from None;
                            EvPrintfLine (text (cn s))
                              ("250 2.0.0 Roger, accepting mail from <"
                               +:+ from +:+ ">")])
          | Some err =>
              log (EvMail sess from r
                   :: error_reply env (text (cn s)) err 451 (4, 0, 0)) s
          end
    end.
Proof.
  intros Hhelo Hs (Hlen & Hpre & from0 & Hsplit & Hstrict & Hfrom & Hne).
  unfold handleMail, ensure_session, mail_syntax_error, check_mail_params,
    mail_params_refusal, reply_error, error_reply.
  unfold_monad. simpl.
  rewrite (bool_decide_eq_false_2 (helo (cn s) = "")) by done.
  rewrite Hs. simpl. rewrite Hpre.
  rewrite (bool_decide_eq_false_2 (String.length arg < 6)%nat) by lia. simpl.
  rewrite Hsplit.
  assert (Strict (server (cn s))
          && (negb (HasPrefix from0 "<") || negb (HasSuffix from0 ">")) = false)
    as ->.
  { destruct (Strict (server (cn s))); [|done].
    by destruct (Hstrict eq_refl) as [-> ->]. }
  rewrite <- Hfrom. rewrite (bool_decide_eq_false_2 (from = "")) by done.
  destruct (bool_decide (params = [])) eqn:Hp; simpl.
  { rewrite Hs. destruct (Mail env (hist s) sess from) as [[e|t]|]; finish. }
  destruct (parseArgs env params) as [args|]; simpl; [|finish].
  destruct (bool_decide (default "" (args !! "SIZE") = "")) eqn:Hsz; simpl.
  { rewrite Hs. destruct (Mail env (hist s) sess from) as [[e|t]|]; finish. }
  destruct (ParseInt env _) as [size|]; simpl; [|finish].
  destruct (_ && _); simpl; [finish|].
  rewrite Hs. destruct (Mail env (hist s) sess from) as [[e|t]|]; finish.
Qed.

End MailOutcomes.

(** X13.  When the engine holds no session and the backend refuses the
    anonymous login of a MAIL command, the refusal is the reply: a
    structured error with its own code, enhanced code and text, any other
    error as [502 5.7.0] with the text of the error.  The engine still holds
    no session, the argument is not even looked at, and no sender is
    accepted. *)
Theorem anonymous_login_refused (env : Env) (cmd arg : string) (s : St)
    (x : option Session) (err : error) :
  sentinels_wf env → is_verb env cmd "MAIL" → helo (cn s) ≠ "" →
  session (cn s) = None →
  AnonymousLogin env (hist s) (State (cn s)) = (x, Some err) →
  let s' := state_of (handle env cmd arg s) in
  s' = log (EvAnonymousLogin (State (cn s)) (x, Some err)
            :: error_reply env (text (cn s)) err 502 (5, 7, 0)) s
  ∧ (∀ t, err = OtherErr t → printed (added s s') = ["502 5.7.0 " +:+ t]).
Proof.
  intros Hwf Hverb Hhelo Hs Hl s'.
  assert (Hs' : s' = log (EvAnonymousLogin (State (cn s)) (x, Some err)
            :: error_reply env (text (cn s)) err 502 (5, 7, 0)) s).
  { subst s'. erewrite handle_returned; [reflexivity|].
    rewrite (dispatch_MAIL env cmd arg s Hverb).
    unfold handleMail, ensure_session, reply_error, error_reply.
    unfold_monad. simpl.
    rewrite (bool_decide_eq_false_2 (helo (cn s) = "")) by done.
    rewrite Hs, Hl. simpl.
    destruct err as [e|t]; simpl; rewrite ?WriteResponse_eq by done;
      unfold log, reply, reply_lines; simpl; by rewrite <- ?app_assoc. }
  split; [done|]. intros t ->. rewrite Hs'.
  erewrite added_log by reflexivity. simpl.
  explicit_reply Hwf. reflexivity.
Qed.

Lemma anonymous_login_refused_witness :
  let env := with_login (None, Some (OtherErr "no anonymous mail"))
               (Sample.env true) in
  let s := serve env [("EHLO", "a.example")]
             (accepted (RawConn "192.0.2.1:25") Sample.srv []) in
  let s' := state_of (handle env "MAIL" "FROM:<u@a.example>" s) in
  sentinels_wf env ∧ is_verb env "MAIL" "MAIL" ∧ helo (cn s) ≠ "" ∧
  session (cn s) = None ∧
  AnonymousLogin env (hist s) (State (cn s))
  = (None, Some (OtherErr "no anonymous mail")) ∧
  printed (added s s') = ["502 5.7.0 no anonymous mail"].
Proof.
  intros env s s'.
  assert (Hwf : sentinels_wf env) by (repeat split; done).
  assert (Hv : is_verb env "MAIL" "MAIL") by (split; [discriminate|reflexivity]).
  assert (Hh : helo (cn s) ≠ "") by (vm_compute; discriminate).
  split; [exact Hwf|]. do 4 (split; [done|]).
  destruct (anonymous_login_refused env "MAIL" "FROM:<u@a.example>" s None
              (OtherErr "no anonymous mail") Hwf Hv Hh eq_refl eq_refl)
    as (_ & H).
  exact (H _ eq_refl).
Defined.

(** X14.  A MAIL command after the greeting, with a session held or
    yielded by the anonymous login, whose argument passes the syntax checks
    and whose parameters are not refused, asks the session to accept the
    trimmed address.  If it does, the reply is [250 2.0.0 Roger, accepting
    mail from <address>] and the sender flag is set; if it answers with an
    error, the reply is that error (a structured one verbatim, any other as
    451 4.0.0) and the state is otherwise unchanged. *)
Theorem mail_outcome (env : Env) (cmd arg from : string) (params : list string)
    (s : St) (sess : Session) :
  sentinels_wf env → is_verb env cmd "MAIL" → helo (cn s) ≠ "" →
  session_ready env s sess →
  mail_argument env (Strict (server (cn s))) arg from params →
  mail_params_refusal env (server (cn s)) params = None →
  let s0 := after_login env s in
  let r := Mail env (hist s0) sess from in
  state_of (handle env cmd arg s)
  = match r with
    | None =>
        mkSt (set_fromReceived true (cn s0)) (wire s) (closed s)
          (hist s0 ++ [EvMail sess from None;
                       EvPrintfLine (text (cn s))
                         ("250 2.0.0 Roger, accepting mail from <" +:+ from +:+ ">")])
    | Some err =>
        log (EvMail sess from r :: error_reply env (text (cn s)) err 451 (4, 0, 0)) s0
    end.
Proof.
  intros Hwf Hverb Hhelo Hready Harg Hparams s0 r.
  destruct (after_login_ready env s sess Hready) as (Hs0 & Hh0 & Hsrv0 & Ht0).
  fold s0 in Hs0, Hh0, Hsrv0, Ht0.
  assert (Hrun : handleMail env arg s0
    = Returned tt
        match r with
        | None =>
            mkSt (set_fromReceived true (cn s0)) (wire s) (closed s)
              (hist s0 ++ [EvMail sess from None;
                           EvPrintfLine (text (cn s))
                             ("250 2.0.0 Roger, accepting mail from <"
                              +:+ from +:+ ">")])
        | Some err =>
            log (EvMail sess from r
                 :: error_reply env (text (cn s)) err 451 (4, 0, 0)) s0
        end).
  { rewrite (handleMail_good_argument env Hwf arg from params s0 sess)
      by (rewrite ?Hh0, ?Hsrv0; done).
    rewrite Hsrv0, Hparams, Ht0. cbv zeta. fold r.
    assert (wire s0 = wire s ∧ closed s0 = closed s) as [-> ->]
      by (subst s0; unfold after_login; by destruct (session (cn s))).
    reflexivity. }
  erewrite handle_returned; [reflexivity|].
  rewrite (dispatch_MAIL env cmd arg s Hverb).
  by rewrite (handleMail_login env arg s sess Hhelo Hready).
Qed.

Lemma mail_outcome_witness :
  let env := Sample.env true in
  let s := serve env [("EHLO", "a.example")]
             (accepted (RawConn "192.0.2.1:25") Sample.srv []) in
  let arg := "FROM:<u@a.example> SIZE=100 BODY=8BITMIME" in
  let s' := state_of (handle env "MAIL" arg s) in
  sentinels_wf env ∧ is_verb env "MAIL" "MAIL" ∧ helo (cn s) ≠ "" ∧
  session_ready env s 1%nat ∧
  mail_argument env (Strict (server (cn s))) arg "u@a.example"
    ["SIZE=100"; "BODY=8BITMIME"] ∧
  mail_params_refusal env (server (cn s)) ["SIZE=100"; "BODY=8BITMIME"] = None ∧
  fromReceived (cn s') = true ∧
  added s s'
  = [EvAnonymousLogin (State (cn s)) (Some 1%nat, None);
     EvMail 1%nat "u@a.example" None;
     EvPrintfLine (RawConn "192.0.2.1:25")
       "250 2.0.0 Roger, accepting mail from <u@a.example>"].
Proof.
  intros env s arg s'.
  assert (Hv : is_verb env "MAIL" "MAIL") by (split; [discriminate|reflexivity]).
  assert (Hh : helo (cn s) ≠ "") by (vm_compute; discriminate).
  assert (Hr : session_ready env s 1%nat) by (right; split; reflexivity).
  assert (Ha : mail_argument env (Strict (server (cn s))) arg "u@a.example"
                 ["SIZE=100"; "BODY=8BITMIME"]).
  { split; [vm_compute; lia|]. split; [reflexivity|].
    exists "<u@a.example>". split; [reflexivity|]. split; [discriminate|].
    split; [reflexivity|discriminate]. }
  split; [apply sample_sentinels_wf|]. do 5 (split; [done|]).
  subst s'. rewrite (mail_outcome env "MAIL" arg "u@a.example"
                       ["SIZE=100"; "BODY=8BITMIME"] s 1%nat
                       (sample_sentinels_wf true) Hv Hh Hr Ha eq_refl).
  split; reflexivity.
Defined.

(** X15.  A MAIL command whose argument passes the syntax checks but whose
    ESMTP parameters are refused is answered with the line of the refusal
    and nothing else: [501 5.5.4] when the parameters do not parse or SIZE
    is not an integer, [552 5.3.4 Max message size exceeded] when a positive
    maximum is configured and SIZE is above it.  The session is not asked
    and no sender is accepted. *)
Theorem mail_params_refused (env : Env) (cmd arg from line : string)
    (params : list string) (s : St) (sess : Session) :
  sentinels_wf env → is_verb env cmd "MAIL" → helo (cn s) ≠ "" →
  session_ready env s sess →
  mail_argument env (Strict (server (cn s))) arg from params →
  mail_params_refusal env (server (cn s)) params = Some line →
  state_of (handle env cmd arg s)
  = log [EvPrintfLine (text (cn s)) line] (after_login env s).
Proof.
  intros Hwf Hverb Hhelo Hready Harg Hparams.
  destruct (after_login_ready env s sess Hready) as (Hs0 & Hh0 & Hsrv0 & Ht0).
  erewrite handle_returned; [reflexivity|].
  rewrite (dispatch_MAIL env cmd arg s Hverb).
  rewrite (handleMail_login env arg s sess Hhelo Hready).
  rewrite (handleMail_good_argument env Hwf arg from params _ sess)
    by (rewrite ?Hh0, ?Hsrv0; done).
  by rewrite Hsrv0, Hparams, Ht0.
Qed.

Lemma mail_params_refused_witness :
  let env := Sample.env true in
  let s := serve env [("EHLO", "a.example"); ("MAIL", "FROM:<u@a.example>")]
             (accepted (RawConn "192.0.2.1:25") Sample.srv []) in
  let arg := "FROM:<w@a.example> SIZE=2048" in
  sentinels_wf env ∧ is_verb env "MAIL" "MAIL" ∧ helo (cn s) ≠ "" ∧
  session_ready env s 1%nat ∧
  mail_argument env (Strict (server (cn s))) arg "w@a.example" ["SIZE=2048"] ∧
  mail_params_refusal env (server (cn s)) ["SIZE=2048"]
  = Some "552 5.3.4 Max message size exceeded" ∧
  state_of (handle env "MAIL" arg s)
  = log [EvPrintfLine (text (cn s)) "552 5.3.4 Max message size exceeded"] s.
Proof.
  intros env s arg.
  assert (Hv : is_verb env "MAIL" "MAIL") by (split; [discriminate|reflexivity]).
  assert (Hh : helo (cn s) ≠ "") by (vm_compute; discriminate).
  assert (Hr : session_ready env s 1%nat) by (left; reflexivity).
  assert (Ha : mail_argument env (Strict (server (cn s))) arg "w@a.example"
                 ["SIZE=2048"]).
  { split; [vm_compute; lia|]. split; [reflexivity|].
    exists "<w@a.example>". split; [reflexivity|]. split; [discriminate|].
    split; [reflexivity|discriminate]. }
  assert (Hp : mail_params_refusal env (server (cn s)) ["SIZE=2048"]
               = Some "552 5.3.4 Max message size exceeded")
    by (vm_compute; reflexivity).
  split; [apply sample_sentinels_wf|].
  split; [exact Hv|]. split; [exact Hh|]. split; [exact Hr|].
  split; [exact Ha|]. split; [exact Hp|].
  rewrite (mail_params_refused env "MAIL" arg "w@a.example" _ ["SIZE=2048"] s 1%nat
             (sample_sentinels_wf true) Hv Hh Hr Ha Hp).
  vm_compute. reflexivity.
Defined.

(** X16.  A MAIL command after the greeting, with a session held or
    yielded by the anonymous login, whose argument is shorter than six
    bytes, does not start with [FROM:] in any letter case, is not in angle
    brackets while strict mode is on, or is empty once brackets and spaces
    are trimmed, is answered [501 5.5.2 Was expecting MAIL arg syntax of
    FROM:<address>]; the session is not asked and no sender is accepted. *)
Theorem mail_syntax_refused (env : Env) (cmd arg : string) (s : St)
    (sess : Session) :
  sentinels_wf env → is_verb env cmd "MAIL" → helo (cn s) ≠ "" →
  session_ready env s sess →
  mail_argument_bad env (Strict (server (cn s))) arg →
  state_of (handle env cmd arg s)
  = log [EvPrintfLine (text (cn s)) mail_syntax_line] (after_login env s).
Proof.
  intros Hwf Hverb Hhelo Hready Hbad.
  destruct (after_login_ready env s sess Hready) as (Hs0 & Hh0 & Hsrv0 & Ht0).
  erewrite handle_returned; [reflexivity|].
  rewrite (dispatch_MAIL env cmd arg s Hverb).
  rewrite (handleMail_login env arg s sess Hhelo Hready).
  rewrite (handleMail_bad_argument env Hwf arg _ sess)
    by (rewrite ?Hh0, ?Hsrv0; done).
  by rewrite Ht0.
Qed.

Lemma mail_syntax_refused_witness :
  let env := Sample.env true in
  let s := serve env [("EHLO", "a.example")]
             (accepted (RawConn "192.0.2.1:25") strict_srv []) in
  let arg := "FROM:u@a.example" in
  sentinels_wf env ∧ is_verb env "MAIL" "MAIL" ∧ helo (cn s) ≠ "" ∧
  session_ready env s 1%nat ∧
  mail_argument_bad env (Strict (server (cn s))) arg ∧
  printed (added s (state_of (handle env "MAIL" arg s))) = [mail_syntax_line].
Proof.
  intros env s arg.
  assert (Hv : is_verb env "MAIL" "MAIL") by (split; [discriminate|reflexivity]).
  assert (Hh : helo (cn s) ≠ "") by (vm_compute; discriminate).
  assert (Hr : session_ready env s 1%nat) by (right; split; reflexivity).
  assert (Hb : mail_argument_bad env (Strict (server (cn s))) arg).
  { right. right. exists "u@a.example", []. split; [reflexivity|].
    left. split; [reflexivity|]. left. reflexivity. }
  split; [apply sample_sentinels_wf|]. do 4 (split; [done|]).
  by rewrite (mail_syntax_refused env "MAIL" arg s 1%nat
                (sample_sentinels_wf true) Hv Hh Hr Hb).
Defined.

(** ** The recipient command, case by case *)

Section RcptCases.
Context (env : Env) (Hwf : sentinels_wf env).

Lemma handleRcpt_bad_argument arg s :
  fromReceived (cn s) = true → ¬ rcpt_argument env arg →
  handleRcpt env arg s
  = Returned tt (log [EvPrintfLine (text (cn s))
      "501 5.5.2 Was expecting RCPT arg syntax of TO:<address>"] s).
Proof.
  intros Hfrom Hbad. unfold handleRcpt. unfold_monad. simpl. rewrite Hfrom. simpl.
  assert (bool_decide (String.length arg < 4)%nat
          || negb (bool_decide (ToUpper env (slice_to 3 arg) = "TO:")) = true) as ->.
  { destruct (bool_decide (String.length arg < 4)%nat) eqn:Hlen; [done|].
    apply bool_decide_eq_false_1 in Hlen. simpl.
    rewrite bool_decide_eq_false_2; [done|]. intros Hto. apply Hbad.
    split; [lia|done]. }
  rewrite WriteResponse_eq by done. by explicit_reply Hwf.
Qed.

Lemma handleRcpt_good_argument arg s sess :
  fromReceived (cn s) = true → rcpt_argument env arg →
  ¬ (0 < MaxRecipients (server (cn s)) ≤ Z.of_nat (length (recipients (cn s)))) →
  session (cn s) = Some sess →
  let recipient := Trim (slice_from 3 arg) "<> " in
  let r := Rcpt env (hist s) sess recipient in
  handleRcpt env arg s
  = Returned tt
      match r with
      | None =>
          mkSt (set_recipients (recipients (cn s) ++ [recipient]) (cn s))
            (wire s) (closed s)
            (hist s ++ [EvRcpt sess recipient None;
                        EvPrintfLine (text (cn s))
                          ("250 2.0.0 I'll make sure <" +:+ recipient
                           +:+ "> gets this")])
      | Some err =>
          log (EvRcpt sess recipient r
               :: error_reply env (text (cn s)) err 451 (4, 0, 0)) s
      end.
Proof.
  intros Hfrom [Hlen Hto] Hmax Hs recipient r. subst recipient r.
  unfold handleRcpt, reply_error, error_reply. unfold_monad. simpl.
  rewrite Hfrom, Hto, Hs. simpl.
  rewrite (bool_decide_eq_false_2 (String.length arg < 4)%nat) by lia. simpl.
  assert (bool_decide (MaxRecipients (server (cn s)) > 0)
          && bool_decide (Z.of_nat (length (recipients (cn s)))
                          >= MaxRecipients (server (cn s))) = false) as ->.
  { destruct (bool_decide (MaxRecipients (server (cn s)) > 0)) eqn:H1; [|done].
    apply bool_decide_eq_true_1 in H1. simpl. apply bool_decide_eq_false_2. lia. }
  destruct (Rcpt env (hist s) sess _) as [[e|t]|]; simpl;
    rewrite ?WriteResponse_eq by done; explicit_reply Hwf;
    unfold log; simpl; rewrite <- ?app_assoc; reflexivity.
Qed.

End RcptCases.

(** X17.  A RCPT command once a sender has been accepted.  An argument
    shorter than four bytes or without the [TO:] prefix is answered [501
    5.5.2 Was expecting RCPT arg syntax of TO:<address>].  Otherwise, when
    the limit is not reached and a session is held, the session is asked to
    accept what is left of the argument once angle brackets and spaces are
    trimmed at both ends, empty or not: if it accepts, the address is added
    at the end of the recipient sequence and the reply is [250 2.0.0 I'll
    make sure <address> gets this]; if it answers with an error, the reply
    is that error (a structured one verbatim, any other as 451 4.0.0) and
    the sequence is unchanged. *)
Theorem rcpt_outcome (env : Env) (cmd arg : string) (s : St) :
  sentinels_wf env → is_verb env cmd "RCPT" → fromReceived (cn s) = true →
  let s' := state_of (handle env cmd arg s) in
  (¬ rcpt_argument env arg →
   s' = log [EvPrintfLine (text (cn s))
               "501 5.5.2 Was expecting RCPT arg syntax of TO:<address>"] s)
  ∧ (rcpt_argument env arg →
     ¬ (0 < MaxRecipients (server (cn s)) ≤ Z.of_nat (length (recipients (cn s)))) →
     ∀ sess, session (cn s) = Some sess →
       let recipient := Trim (slice_from 3 arg) "<> " in
       let r := Rcpt env (hist s) sess recipient in
       s' = match r with
            | None =>
                mkSt (set_recipients (recipients (cn s) ++ [recipient]) (cn s))
                  (wire s) (closed s)
                  (hist s ++ [EvRcpt sess recipient None;
                              EvPrintfLine (text (cn s))
                                ("250 2.0.0 I'll make sure <" +:+ recipient
                                 +:+ "> gets this")])
            | Some err =>
                log (EvRcpt sess recipient r
                     :: error_reply env (text (cn s)) err 451 (4, 0, 0)) s
            end).
Proof.
  intros Hwf Hverb Hfrom s'. split.
  - intros Hbad. subst s'. erewrite handle_returned; [reflexivity|].
    rewrite (dispatch_RCPT env cmd arg s Hverb).
    by apply handleRcpt_bad_argument.
  - intros Harg Hmax sess Hs recipient r. subst s'.
    erewrite handle_returned; [reflexivity|].
    rewrite (dispatch_RCPT env cmd arg s Hverb).
    by apply handleRcpt_good_argument.
Qed.

Lemma rcpt_outcome_witness :
  let env := Sample.env true in
  let s := serve env [("EHLO", "a.example"); ("MAIL", "FROM:<u@a.example>");
                      ("RCPT", "TO:<v@b.example>")]
             (accepted (RawConn "192.0.2.1:25") Sample.srv []) in
  let s' := state_of (handle env "RCPT" "TO:<>" s) in
  sentinels_wf env ∧ is_verb env "RCPT" "RCPT" ∧ fromReceived (cn s) = true ∧
  rcpt_argument env "TO:<>" ∧
  ¬ (0 < MaxRecipients (server (cn s)) ≤ Z.of_nat (length (recipients (cn s)))) ∧
  session (cn s) = Some 1%nat ∧
  recipients (cn s') = ["v@b.example"; ""] ∧
  printed (added s s') = ["250 2.0.0 I'll make sure <> gets this"].
Proof.
  intros env s s'.
  assert (Hv : is_verb env "RCPT" "RCPT") by (split; [discriminate|reflexivity]).
  assert (Ha : rcpt_argument env "TO:<>") by (split; [vm_compute; lia|reflexivity]).
  assert (Hm : ¬ (0 < MaxRecipients (server (cn s))
                  ≤ Z.of_nat (length (recipients (cn s)))))
    by (vm_compute; intros [_ H]; by apply H).
  split; [apply sample_sentinels_wf|]. split; [exact Hv|]. split; [reflexivity|].
  split; [exact Ha|]. split; [exact Hm|]. split; [reflexivity|].
  destruct (rcpt_outcome env "RCPT" "TO:<>" s (sample_sentinels_wf true) Hv eq_refl)
    as [_ H].
  subst s'. rewrite (H Ha Hm 1%nat eq_refl). vm_compute. split; reflexivity.
Defined.

(** ** AUTH, case by case *)

Section AuthCases.
Context (env : Env) (Hwf : sentinels_wf env).

Lemma handleAuth_exchange arg name ir s :
  helo (cn s) ≠ "" → auth_argument env arg name ir →
  handleAuth env arg s = auth_exchange env (ToUpper env name) ir s.
Proof.
  intros Hhelo Harg. unfold handleAuth. unfold_monad. simpl.
  rewrite (bool_decide_eq_false_2 (helo (cn s) = "")) by done.
  destruct Harg as [[-> ->]|(enc & more & dec & -> & Hdec & ->)]; [done|].
  by rewrite Hdec.
Qed.

(** The first turn of the loop, when the mechanism ends the exchange. *)
Lemma saslLoop_first_turn f w response s :
  let r := Next env (hist s) f response in
  let s1 := mkSt (installs r (cn s)) (wire s) (closed s)
              (hist s ++ [EvNext f response r]) in
  match next_err r with
  | Some err =>
      saslLoop env f w response s
      = Returned false
          (mkSt (cn s1) w (closed s)
             (hist s1 ++ error_reply env (text (cn s)) err 454 (4, 7, 0)))
  | None =>
      done_ r = true →
      saslLoop env f w response s = Returned true (mkSt (cn s1) w (closed s) (hist s1))
  end.
Proof.
  intros r s1. subst r s1. unfold installs.
  destruct (next_err (Next env (hist s) f response)) as [err|] eqn:Herr.
  - destruct w; simpl; unfold reply_error, error_reply; unfold_monad; simpl;
      rewrite Herr;
      destruct (installed (Next env (hist s) f response)); simpl;
      destruct err as [e|t]; simpl; rewrite ?WriteResponse_eq by done;
      unfold log, reply, reply_lines; simpl; reflexivity.
  - intros Hdone.
    destruct w; simpl; unfold_monad; simpl; rewrite Herr, Hdone;
      destruct (installed (Next env (hist s) f response)); reflexivity.
Qed.

End AuthCases.

(** X18.  An AUTH command after the greeting, authentication being
    enabled: without any field in its argument it is answered [502 5.5.4
    Missing parameter]; with a mechanism name that is not registered (and an
    initial response, if there is one, that decodes) it is answered [504
    5.7.4 Unsupported authentication mechanism].  In both cases no mechanism
    is run, nothing is read from the peer and the state is otherwise
    unchanged. *)
Theorem auth_refused (env : Env) (cmd arg : string) (s : St) :
  sentinels_wf env → is_verb env cmd "AUTH" →
  AuthDisabled (server (cn s)) = false → helo (cn s) ≠ "" →
  let s' := state_of (handle env cmd arg s) in
  (Fields env arg = [] →
   s' = log [EvPrintfLine (text (cn s)) "502 5.5.4 Missing parameter"] s)
  ∧ (∀ name ir, auth_argument env arg name ir →
       auths (server (cn s)) !! ToUpper env name = None →
       s' = log [EvPrintfLine (text (cn s))
                   "504 5.7.4 Unsupported authentication mechanism"] s).
Proof.
  intros Hwf Hverb Hauth Hhelo s'. subst s'. split.
  - intros Hf. erewrite handle_returned; [reflexivity|].
    rewrite (dispatch_AUTH env cmd arg s Hverb Hauth).
    unfold handleAuth. unfold_monad. simpl.
    rewrite (bool_decide_eq_false_2 (helo (cn s) = "")) by done.
    rewrite Hf. rewrite WriteResponse_eq by done. by explicit_reply Hwf.
  - intros name ir Harg Hnone. erewrite handle_returned; [reflexivity|].
    rewrite (dispatch_AUTH env cmd arg s Hverb Hauth).
    rewrite (handleAuth_exchange env arg name ir s Hhelo Harg).
    unfold auth_exchange. unfold_monad. simpl. rewrite Hnone.
    rewrite WriteResponse_eq by done. by explicit_reply Hwf.
Qed.

Lemma auth_refused_witness :
  let env := Sample.env true in
  let s := serve env [("EHLO", "a.example")]
             (accepted (RawConn "192.0.2.1:25") Sample.srv []) in
  sentinels_wf env ∧ is_verb env "AUTH" "AUTH" ∧
  AuthDisabled (server (cn s)) = false ∧ helo (cn s) ≠ "" ∧
  auth_argument env "login" "login" None ∧
  auths (server (cn s)) !! ToUpper env "login" = None ∧
  state_of (handle env "AUTH" "login" s)
  = log [EvPrintfLine (text (cn s))
           "504 5.7.4 Unsupported authentication mechanism"] s.
Proof.
  intros env s.
  assert (Hv : is_verb env "AUTH" "AUTH") by (split; [discriminate|reflexivity]).
  assert (Hh : helo (cn s) ≠ "") by (vm_compute; discriminate).
  assert (Ha : auth_argument env "login" "login" None)
    by (left; split; reflexivity).
  assert (Hn : auths (server (cn s)) !! ToUpper env "login" = None)
    by (vm_compute; reflexivity).
  split; [apply sample_sentinels_wf|]. split; [exact Hv|]. split; [reflexivity|].
  split; [exact Hh|]. split; [exact Ha|]. split; [exact Hn|].
  destruct (auth_refused env "AUTH" "login" s (sample_sentinels_wf true) Hv
              eq_refl Hh) as [_ H].
  exact (H "login" None Ha Hn).
Defined.

(** X19.  An AUTH command after the greeting that names a registered
    mechanism, when the first turn of the mechanism ends the exchange.  If
    the mechanism reports an error, the reply is that error (a structured
    one verbatim, any other as 454 4.7.0).  If it reports completion, the
    reply is [235 2.0.0 Authentication succeeded] when the engine then holds
    a session, and there is no reply at all when it holds none.  Nothing is
    read from the peer, and a session the mechanism installed stays
    installed in every case. *)
Theorem auth_first_turn (env : Env) (cmd arg name : string) (ir : option string)
    (f : SaslFactory) (s : St) :
  sentinels_wf env → is_verb env cmd "AUTH" →
  AuthDisabled (server (cn s)) = false → helo (cn s) ≠ "" →
  auth_argument env arg name ir →
  auths (server (cn s)) !! ToUpper env name = Some f →
  let r := Next env (hist s) f ir in
  let c' := installs r (cn s) in
  let s' := state_of (handle env cmd arg s) in
  (∀ err, next_err r = Some err →
     s' = mkSt c' (wire s) (closed s)
            (hist s ++ EvNext f ir r
             :: error_reply env (text (cn s)) err 454 (4, 7, 0)))
  ∧ (next_err r = None → done_ r = true →
     s' = mkSt c' (wire s) (closed s)
            (hist s ++ EvNext f ir r
             :: (if session c' is Some _
                 then [EvPrintfLine (text (cn s))
                         "235 2.0.0 Authentication succeeded"]
                 else []))).
Proof.
  intros Hwf Hverb Hauth Hhelo Harg Hf r c' s'.
  assert (Hrun : handle env cmd arg s = auth_exchange env (ToUpper env name) ir s).
  { unfold handle.
    rewrite (dispatch_AUTH env cmd arg s Hverb Hauth).
    pose proof (handleAuth_returns env arg s) as Hret.
    rewrite <- (handleAuth_exchange env arg name ir s Hhelo Harg).
    by destruct (handleAuth env arg s) as [[] ?|?]. }
  assert (Htext : text c' = text (cn s))
    by (subst c'; unfold installs; by destruct (installed r)).
  pose proof (saslLoop_first_turn env f (wire s) ir s) as Hturn.
  cbv zeta in Hturn. fold r in Hturn. fold c' in Hturn.
  subst s'. rewrite Hrun. unfold auth_exchange. unfold_monad. simpl. rewrite Hf.
  split.
  - intros err Herr. rewrite Herr in Hturn. rewrite Hturn. simpl.
    by rewrite <- app_assoc.
  - intros Herr Hdone. rewrite Herr in Hturn. rewrite (Hturn Hdone). simpl.
    destruct (session c') as [sess|] eqn:Hsess; simpl; [|reflexivity].
    rewrite ?WriteResponse_eq by done. simpl. rewrite ?Htext.
    explicit_reply Hwf. unfold log. simpl. rewrite <- ?app_assoc. reflexivity.
Qed.

Lemma auth_first_turn_witness :
  let env := with_next (mkNextResult "" true None None) (Sample.env true) in
  let s := serve env [("EHLO", "a.example")]
             (accepted (RawConn "192.0.2.1:25") Sample.srv ["QUIT"]) in
  let r := Next env (hist s) 0%nat (Some "Hi") in
  let s' := state_of (handle env "AUTH" "plain SGk=" s) in
  sentinels_wf env ∧ is_verb env "AUTH" "AUTH" ∧
  AuthDisabled (server (cn s)) = false ∧ helo (cn s) ≠ "" ∧
  auth_argument env "plain SGk=" "plain" (Some "Hi") ∧
  auths (server (cn s)) !! ToUpper env "plain" = Some 0%nat ∧
  next_err r = None ∧ done_ r = true ∧
  session (cn s') = None ∧ added s s' = [EvNext 0%nat (Some "Hi") r] ∧
  wire s' = ["QUIT"].
Proof.
  intros env s r s'.
  assert (Hwf : sentinels_wf env) by (repeat split; done).
  assert (Hv : is_verb env "AUTH" "AUTH") by (split; [discriminate|reflexivity]).
  assert (Hh : helo (cn s) ≠ "") by (vm_compute; discriminate).
  assert (Ha : auth_argument env "plain SGk=" "plain" (Some "Hi")).
  { right. exists "SGk=", [], "Hi". repeat split; vm_compute; reflexivity. }
  assert (Hn : auths (server (cn s)) !! ToUpper env "plain" = Some 0%nat)
    by (vm_compute; reflexivity).
  split; [exact Hwf|]. split; [exact Hv|]. split; [reflexivity|].
  split; [exact Hh|]. split; [exact Ha|]. split; [exact Hn|].
  split; [reflexivity|]. split; [reflexivity|].
  destruct (auth_first_turn env "AUTH" "plain SGk=" "plain" (Some "Hi") 0%nat s
              Hwf Hv eq_refl Hh Ha Hn) as [_ H].
  subst s'. rewrite (H eq_refl eq_refl). vm_compute. repeat split.
Defined.

(** X20.  An AUTH command after the greeting that names a registered
    mechanism, when the first turn of the mechanism neither fails nor ends
    the exchange.  The engine prints the challenge as a [334] line, in
    base64, or a bare [334 ] when the challenge is empty, and reads the next
    line of the peer.  If there is none, the command ends there without any
    further reply.  If the line is not valid base64, the reply is [454 4.7.0
    Invalid base64 data], the line is consumed and the exchange is over. *)
Theorem auth_continuation (env : Env) (cmd arg name : string)
    (ir : option string) (f : SaslFactory) (s : St) :
  sentinels_wf env → is_verb env cmd "AUTH" →
  AuthDisabled (server (cn s)) = false → helo (cn s) ≠ "" →
  auth_argument env arg name ir →
  auths (server (cn s)) !! ToUpper env name = Some f →
  let r := Next env (hist s) f ir in
  next_err r = None → done_ r = false →
  let c' := installs r (cn s) in
  let via := text (cn s) in
  let prompt :=
    EvPrintfLine via
      ("334 " +:+ (if bool_decide (0 < String.length (challenge r))%nat
                   then EncodeToString env (challenge r) else "")) in
  let s' := state_of (handle env cmd arg s) in
  (wire s = [] →
   s' = mkSt c' [] (closed s) (hist s ++ [EvNext f ir r; prompt; EvReadLine None]))
  ∧ (∀ line w, wire s = line :: w → DecodeString env line = None →
     s' = mkSt c' w (closed s)
            (hist s ++ [EvNext f ir r; prompt; EvReadLine (Some line);
                        EvPrintfLine via "454 4.7.0 Invalid base64 data"])).
Proof.
  intros Hwf Hverb Hauth Hhelo Harg Hf r Herr Hdone c' via prompt s'.
  assert (Hrun : handle env cmd arg s = auth_exchange env (ToUpper env name) ir s).
  { unfold handle.
    rewrite (dispatch_AUTH env cmd arg s Hverb Hauth).
    pose proof (handleAuth_returns env arg s) as Hret.
    rewrite <- (handleAuth_exchange env arg name ir s Hhelo Harg).
    by destruct (handleAuth env arg s) as [[] ?|?]. }
  assert (Htext : text c' = text (cn s))
    by (subst c'; unfold installs; by destruct (installed r)).
  subst s'. rewrite Hrun. unfold auth_exchange. unfold_monad. simpl. rewrite Hf.
  split.
  - intros Hw. rewrite Hw. simpl. unfold_monad. simpl. fold r.
    rewrite Herr, Hdone.
    subst c' prompt via. unfold installs in *.
    destruct (installed r); simpl in *;
      rewrite ?WriteResponse_eq by done; unfold reply, reply_lines; simpl;
      rewrite ?(final_line_no_code env _ _ Hwf), ?Htext, <- ?app_assoc;
      reflexivity.
  - intros line w Hw Hdec. rewrite Hw. simpl. unfold_monad. simpl. fold r.
    rewrite Herr, Hdone.
    subst c' prompt via. unfold installs in *.
    destruct (installed r); simpl in *;
      rewrite ?WriteResponse_eq by done; unfold reply, reply_lines; simpl;
      rewrite ?Hdec; simpl;
      rewrite ?WriteResponse_eq by done; unfold reply, reply_lines; simpl;
      rewrite ?(final_line_no_code env _ _ Hwf),
        ?(final_line_explicit env _ _ _ _ _ Hwf), ?Htext, <- ?app_assoc by done;
      reflexivity.
Qed.

Lemma auth_continuation_witness :
  let env := with_next (mkNextResult "Hi" false None None) (Sample.env true) in
  let s := serve env [("EHLO", "a.example")]
             (accepted (RawConn "192.0.2.1:25") Sample.srv ["!!!!"; "NOOP"]) in
  let r := Next env (hist s) 0%nat None in
  let s' := state_of (handle env "AUTH" "PLAIN" s) in
  sentinels_wf env ∧ is_verb env "AUTH" "AUTH" ∧
  AuthDisabled (server (cn s)) = false ∧ helo (cn s) ≠ "" ∧
  auth_argument env "PLAIN" "PLAIN" None ∧
  auths (server (cn s)) !! ToUpper env "PLAIN" = Some 0%nat ∧
  next_err r = None ∧ done_ r = false ∧
  wire s = ["!!!!"; "NOOP"] ∧ DecodeString env "!!!!" = None ∧
  wire s' = ["NOOP"] ∧
  printed (added s s') = ["334 SGk="; "454 4.7.0 Invalid base64 data"].
Proof.
  intros env s r s'.
  assert (Hwf : sentinels_wf env) by (repeat split; done).
  assert (Hv : is_verb env "AUTH" "AUTH") by (split; [discriminate|reflexivity]).
  assert (Hh : helo (cn s) ≠ "") by (vm_compute; discriminate).
  assert (Ha : auth_argument env "PLAIN" "PLAIN" None)
    by (left; split; vm_compute; reflexivity).
  assert (Hn : auths (server (cn s)) !! ToUpper env "PLAIN" = Some 0%nat)
    by (vm_compute; reflexivity).
  assert (Hw : wire s = ["!!!!"; "NOOP"]) by (vm_compute; reflexivity).
  assert (Hd : DecodeString env "!!!!" = None) by (vm_compute; reflexivity).
  split; [exact Hwf|]. split; [exact Hv|]. split; [reflexivity|].
  split; [exact Hh|]. split; [exact Ha|]. split; [exact Hn|].
  split; [reflexivity|]. split; [reflexivity|].
  split; [exact Hw|]. split; [exact Hd|].
  destruct (auth_continuation env "AUTH" "PLAIN" "PLAIN" None 0%nat s
              Hwf Hv eq_refl Hh Ha Hn eq_refl eq_refl) as [_ H].
  subst s'. rewrite (H "!!!!" ["NOOP"] Hw Hd). vm_compute. split; reflexivity.
Defined.

(** ** STARTTLS, case by case *)

(** X21.  A STARTTLS command on a transport that is already TLS is
    answered [502 5.5.1 Already running in TLS], and on a plain transport
    without a TLS configuration [502 5.5.1 TLS not supported]; both leave
    the state as it was and start no handshake.  On a plain transport with
    TLS configured, whatever the handshake returns, the engine afterwards
    holds the TLS transport with the text layer over it, an empty envelope,
    and the declared identity and the session it had; so a second STARTTLS,
    even after a failed handshake, is answered [Already running in TLS]. *)
Theorem starttls_once (env : Env) (cmd arg cmd2 arg2 : string) (s : St) :
  sentinels_wf env → is_verb env cmd "STARTTLS" → is_verb env cmd2 "STARTTLS" →
  let s' := state_of (handle env cmd arg s) in
  (isTLSConn (conn (cn s)) = true →
   s' = log [EvPrintfLine (text (cn s)) "502 5.5.1 Already running in TLS"] s)
  ∧ (isTLSConn (conn (cn s)) = false → TLSConfig (server (cn s)) = false →
     s' = log [EvPrintfLine (text (cn s)) "502 5.5.1 TLS not supported"] s)
  ∧ (isTLSConn (conn (cn s)) = false → TLSConfig (server (cn s)) = true →
     conn (cn s') = TLSConn (conn (cn s)) ∧ text (cn s') = TLSConn (conn (cn s))
     ∧ fromReceived (cn s') = false ∧ recipients (cn s') = []
     ∧ helo (cn s') = helo (cn s) ∧ session (cn s') = session (cn s)
     ∧ state_of (handle env cmd2 arg2 s')
       = log [EvPrintfLine (text (cn s')) "502 5.5.1 Already running in TLS"] s').
Proof.
  intros Hwf Hverb Hverb2 s'.
  assert (Htls : ∀ s0 c a, is_verb env c "STARTTLS" →
            isTLSConn (conn (cn s0)) = true →
            state_of (handle env c a s0)
            = log [EvPrintfLine (text (cn s0)) "502 5.5.1 Already running in TLS"] s0).
  { intros s0 c a Hv Hc. erewrite handle_returned; [reflexivity|].
    rewrite (dispatch_STARTTLS env c a s0 Hv).
    unfold handleStartTLS. unfold_monad. simpl. rewrite Hc.
    rewrite WriteResponse_eq by done. by explicit_reply Hwf. }
  split; [by apply Htls|]. split.
  - intros Hplain Hcfg. subst s'. erewrite handle_returned; [reflexivity|].
    rewrite (dispatch_STARTTLS env cmd arg s Hverb).
    unfold handleStartTLS. unfold_monad. simpl. rewrite Hplain, Hcfg. simpl.
    rewrite WriteResponse_eq by done. by explicit_reply Hwf.
  - intros Hplain Hcfg.
    assert (Hs' : handle env cmd arg s = handleStartTLS env s).
    { pose proof (handleStartTLS_eq env Hwf s Hplain Hcfg) as Heq. simpl in Heq.
      rewrite Heq. apply handle_returned.
      by rewrite (dispatch_STARTTLS env cmd arg s Hverb). }
    pose proof (handleStartTLS_eq env Hwf s Hplain Hcfg) as Heq. simpl in Heq.
    subst s'. rewrite Hs', Heq. simpl. do 6 (split; [done|]).
    by rewrite Htls.
Qed.

Lemma starttls_once_witness :
  let env := Sample.env false in
  let s := serve env [("EHLO", "a.example"); ("MAIL", "FROM:<u@a.example>")]
             (accepted (RawConn "192.0.2.1:25") Sample.srv []) in
  let s' := state_of (handle env "STARTTLS" "" s) in
  sentinels_wf env ∧ is_verb env "STARTTLS" "STARTTLS" ∧
  isTLSConn (conn (cn s)) = false ∧ TLSConfig (server (cn s)) = true ∧
  printed (added s s') = [ready_line; handshake_error_line] ∧
  printed (added s' (state_of (handle env "STARTTLS" "" s')))
  = ["502 5.5.1 Already running in TLS"].
Proof.
  intros env s s'.
  assert (Hv : is_verb env "STARTTLS" "STARTTLS")
    by (split; [discriminate|reflexivity]).
  split; [apply sample_sentinels_wf|]. split; [exact Hv|].
  split; [reflexivity|]. split; [reflexivity|]. split; [vm_compute; reflexivity|].
  destruct (starttls_once env "STARTTLS" "" "STARTTLS" "" s
              (sample_sentinels_wf false) Hv Hv) as (_ & _ & H).
  destruct (H eq_refl eq_refl) as (_ & _ & _ & _ & _ & _ & Hsecond).
  subst s'. rewrite Hsecond. erewrite added_log by reflexivity. reflexivity.
Defined.

(** ** The greeting of the right variant *)

Lemma mechanism_order_range (srv : Server) :
  mechanism_order srv (map_to_list (auths srv)).*1.
Proof.
  split; [apply NoDup_fst_map_to_list|].
  intros name. rewrite list_elem_of_fmap. split.
  - intros ([n f] & -> & Hin). apply elem_of_map_to_list in Hin. by exists f.
  - intros [f Hf]. exists (name, f). split; [done|]. by apply elem_of_map_to_list.
Qed.

(** X22.  HELO or EHLO on a server that is not in LMTP mode, and LHLO on
    one that is.  With an argument in which no domain is found the reply is
    [501 5.5.2 Domain/address argument required for HELO] (for EHLO and
    LHLO: [for EHLO]) and the declared identity is unchanged.  Otherwise the
    declared identity becomes the domain, sender flag, recipient sequence
    and session are untouched, and the reply is [250 2.0.0 Hello domain] for
    HELO; for EHLO and LHLO it is a reply without enhanced code whose lines
    are [Hello domain] and then the capabilities, every line but the last
    as [250-text] and the last as [250 text].  The AUTH capability names
    the registered mechanisms, each once, in an order that the statement
    leaves open: it is the order of a range over a Go map. *)
Theorem greeting_accepted (env : Env) (cmd arg : string) (s : St) :
  sentinels_wf env → cmd ≠ "" →
  let verb := ToUpper env cmd in
  let lmtp := LMTP (server (cn s)) in
  (lmtp = false ∧ (verb = "HELO" ∨ verb = "EHLO")) ∨ (lmtp = true ∧ verb = "LHLO") →
  let via := text (cn s) in
  let s' := state_of (handle env cmd arg s) in
  match parseHelloArgument env arg with
  | None =>
      s' = log [EvPrintfLine via
                  ("501 5.5.2 Domain/address argument required for "
                   +:+ (if bool_decide (verb = "HELO") then "HELO" else "EHLO"))] s
  | Some domain =>
      ∃ names, mechanism_order (server (cn s)) names ∧
      let c' := set_helo domain (cn s) in
      let texts := ("Hello " +:+ domain) :: ehlo_caps_in names c' in
      let lines :=
        if bool_decide (verb = "HELO") then ["250 2.0.0 Hello " +:+ domain]
        else ((λ t, "250-" +:+ t) <$> removelast texts)
             ++ ["250 " +:+ default "" (last texts)] in
      s' = mkSt c' (wire s) (closed s)
             (hist s ++ EvHelo domain :: (EvPrintfLine via <$> lines))
  end.
Proof.
  intros Hwf Hne verb lmtp Hcase via s'.
  set (enhanced := bool_decide (verb = "LHLO") || bool_decide (verb = "EHLO")).
  assert (Hd : dispatch env cmd arg s = handleGreet env enhanced arg s).
  { unfold dispatch. rewrite (bool_decide_eq_false_2 (cmd = "")) by done.
    fold verb. unfold_monad. simpl. fold lmtp. subst enhanced.
    destruct Hcase as [[Hl [Hv|Hv]]|[Hl Hv]]; rewrite Hv, Hl; reflexivity. }
  assert (Hs' : s' = state_of (handleGreet env enhanced arg s)).
  { subst s'. rewrite handle_no_panic; rewrite Hd; [done|].
    by rewrite handleGreet_eq. }
  rewrite handleGreet_eq in Hs' by done. simpl in Hs'.
  assert (Hhelo : enhanced = negb (bool_decide (verb = "HELO"))).
  { subst enhanced. by destruct Hcase as [[_ [-> | ->]]|[_ ->]]. }
  destruct (parseHelloArgument env arg) as [domain|].
  - exists (map_to_list (auths (server (cn s)))).*1.
    split; [apply mechanism_order_range|].
    change (ehlo_caps_in (map_to_list (auths (server (cn s)))).*1
              (set_helo domain (cn s)))
      with (ehlo_caps (set_helo domain (cn s))).
    rewrite Hs', Hhelo. cbv zeta. f_equal. f_equal. f_equal. f_equal.
    destruct (bool_decide (verb = "HELO")); simpl.
    + unfold reply_lines. simpl.
      by rewrite (final_line_explicit _ _ _ _ _ _ Hwf).
    + unfold reply_lines. rewrite (pretty_250).
      destruct (last _) as [t|] eqn:Hlast; [|by apply last_None in Hlast].
      simpl. rewrite (final_line_no_code env 250 t Hwf), pretty_250. reflexivity.
  - rewrite Hs', Hhelo. by destruct (bool_decide (verb = "HELO")).
Qed.

Lemma greeting_accepted_witness :
  let env := Sample.env true in
  let s := accepted (RawConn "192.0.2.1:25") Sample.srv [] in
  let s' := state_of (handle env "ehlo" "a.example ignored" s) in
  sentinels_wf env ∧ "ehlo" ≠ "" ∧
  ((LMTP (server (cn s)) = false
    ∧ (ToUpper env "ehlo" = "HELO" ∨ ToUpper env "ehlo" = "EHLO"))
   ∨ (LMTP (server (cn s)) = true ∧ ToUpper env "ehlo" = "LHLO")) ∧
  helo (cn s') = "a.example" ∧
  wire s' = wire s ∧ closed s' = closed s.
Proof.
  intros env s s'.
  assert (Hcase : (LMTP (server (cn s)) = false
    ∧ (ToUpper env "ehlo" = "HELO" ∨ ToUpper env "ehlo" = "EHLO"))
   ∨ (LMTP (server (cn s)) = true ∧ ToUpper env "ehlo" = "LHLO"))
    by (left; split; [reflexivity|right; reflexivity]).
  assert (Hne : "ehlo" ≠ "") by discriminate.
  split; [apply sample_sentinels_wf|]. split; [exact Hne|]. split; [exact Hcase|].
  pose proof (greeting_accepted env "ehlo" "a.example ignored" s
                (sample_sentinels_wf true) Hne Hcase) as H.
  change (parseHelloArgument env "a.example ignored") with (Some "a.example") in H.
  cbv zeta in H. destruct H as (names & _ & H). subst s'. rewrite H.
  repeat split.
Defined.

(** ** The transport and the handshakes *)

Section Transport.
Context (env : Env).

Lemma handshakes_app h evs :
  handshakes (h ++ evs) = foldl count_handshake (handshakes h) evs.
Proof. apply foldl_app. Qed.

Lemma count_handshake_none evs acc :
  Forall (λ e, is_handshake e = false) evs → foldl count_handshake acc evs = acc.
Proof.
  intros Hall. revert acc. induction Hall as [|e evs He _ IH]; intros acc; [done|].
  simpl. rewrite <- (IH acc) at 2. f_equal. by destruct e.
Qed.

Lemma count_handshake_auth evs acc :
  Forall (λ e, auth_event e = true) evs → foldl count_handshake acc evs = acc.
Proof.
  intros Hall. apply count_handshake_none.
  eapply Forall_impl; [exact Hall|]. by intros [].
Qed.

Lemma count_handshake_reply via code enhCode text_ acc :
  foldl count_handshake acc (reply env via code enhCode text_) = acc.
Proof. apply count_handshake_auth, auth_event_reply. Qed.

Lemma count_handshake_replies via code enhCode (f : string -> string) l acc :
  foldl count_handshake acc
    (concat ((λ x, reply env via code enhCode [f x]) <$> l)) = acc.
Proof.
  apply count_handshake_auth, Forall_concat, Forall_fmap, Forall_true.
  intros x. apply auth_event_reply.
Qed.

(** Closes a goal on the transport of an explicit final state. *)
Ltac tls_leaf :=
  unfold transport_inv in *; simpl in *;
  rewrite ?handshakes_app, ?foldl_app in *; simpl in *;
  rewrite ?count_handshake_reply, ?count_handshake_replies in *; simpl in *;
  try done.

Context (c : NetConn).

Lemma handleMail_transport arg s :
  transport_inv c s → transport_inv c (state_of (handleMail env arg s)).
Proof.
  intros Hinv. unfold handleMail, ensure_session, check_mail_params,
    reply_error, mail_syntax_error.
  run; tls_leaf.
Qed.

Lemma handleRcpt_transport arg s :
  transport_inv c s → transport_inv c (state_of (handleRcpt env arg s)).
Proof. intros Hinv. unfold handleRcpt, reply_error. run; tls_leaf. Qed.

Lemma handleData_transport arg s :
  transport_inv c s → transport_inv c (state_of (handleData env arg s)).
Proof. intros Hinv. unfold handleData, reset. run; tls_leaf. Qed.

Lemma handleGreet_transport enhanced arg s :
  transport_inv c s → transport_inv c (state_of (handleGreet env enhanced arg s)).
Proof. intros Hinv. unfold handleGreet. run; tls_leaf. Qed.

Lemma unrecognizedCommand_transport verb s :
  transport_inv c s → transport_inv c (state_of (unrecognizedCommand env verb s)).
Proof. intros Hinv. unfold unrecognizedCommand. run; tls_leaf. Qed.

Lemma handleAuth_transport arg s :
  transport_inv c s → transport_inv c (state_of (handleAuth env arg s)).
Proof.
  intros Hinv. unfold transport_inv.
  pose proof (handleAuth_shell env arg s) as Hshell. unfold shell in Hshell.
  destruct (handleAuth_events env arg s) as (evs & Hh & Hevs).
  rewrite Hh, handshakes_app, count_handshake_auth by done.
  replace (conn (cn (state_of (handleAuth env arg s)))) with (conn (cn s))
    by congruence.
  exact Hinv.
Qed.

(** The one place where a handshake is run: the transport is plain, so none
    has been run before, and the transport becomes its TLS wrapping. *)
Lemma handleStartTLS_transport s :
  transport_inv c s → transport_inv c (state_of (handleStartTLS env s)).
Proof.
  intros (Hconn & Hle & Htls). unfold handleStartTLS, reset.
  run; tls_leaf.
  all: destruct (handshakes (hist s)) as [|n] eqn:Hn; simpl in *;
    [|rewrite Hconn in *; simpl in *; congruence].
  all: rewrite Hconn in *.
  all: split; [reflexivity|]; split; [lia|]; intros; congruence.
Qed.

Lemma dispatch_transport cmd arg s :
  transport_inv c s → transport_inv c (state_of (dispatch env cmd arg s)).
Proof.
  intros Hinv. unfold dispatch, reset.
  run;
    first [ apply handleGreet_transport | apply handleMail_transport
          | apply handleRcpt_transport | apply handleData_transport
          | apply handleStartTLS_transport | apply unrecognizedCommand_transport
          | apply handleAuth_transport | idtac ];
    tls_leaf.
Qed.

Lemma handle_transport cmd arg s :
  transport_inv c s → transport_inv c (state_of (handle env cmd arg s)).
Proof.
  intros Hinv. rewrite handle_state.
  pose proof (dispatch_transport cmd arg s Hinv) as Hd.
  destruct (panicked (dispatch env cmd arg s)); [|done].
  rewrite recover_state. unfold close_events. tls_leaf.
  destruct (session _); simpl; exact Hd.
Qed.

Lemma serve_transport cmds s :
  transport_inv c s → transport_inv c (serve env cmds s).
Proof.
  revert s. induction cmds as [|[cmd arg] cmds IH]; intros s Hinv; simpl; [done|].
  destruct (closed s); [done|]. by apply IH, handle_transport.
Qed.

End Transport.

(** X23.  On every connection, after any sequence of commands and whatever
    the collaborators do, at most one TLS handshake has been run, and none
    if the connection was accepted over TLS; the transport is the accepted
    one before the handshake and its TLS wrapping after it, whether the
    handshake succeeded or not.  So the remote address that [State] reports
    never changes, and [State] reports TLS exactly on a connection accepted
    over TLS or on which the handshake has been run. *)
Theorem one_handshake (env : Env) (c : NetConn) (srv : Server)
    (w : list string) (cmds : list (string * string)) :
  let s := serve env cmds (accepted c srv w) in
  let n := handshakes (hist s) in
  (n ≤ 1)%nat
  ∧ (isTLSConn c = true → n = 0%nat)
  ∧ conn (cn s) = transport_after c n
  ∧ RemoteAddr (State (cn s)) = RemoteAddrOf c
  ∧ TLS (State (cn s)) = isTLSConn c || bool_decide (n = 1%nat).
Proof.
  intros s n.
  assert (Hinv : transport_inv c s).
  { apply serve_transport. unfold transport_inv, handshakes, accepted. simpl.
    split; [reflexivity|]. split; [lia|done]. }
  destruct Hinv as (Hconn & Hle & Htls). fold n in Hconn, Hle, Htls.
  split; [exact Hle|]. split; [exact Htls|]. split; [exact Hconn|].
  unfold State. simpl. rewrite Hconn.
  clearbody n. destruct n as [|[|n]]; simpl; [| |lia].
  - split; [done|]. by rewrite orb_false_r.
  - split; [done|]. by rewrite orb_true_r.
Qed.

(** ** What EHLO advertises *)

Lemma TLSConn_neq n : TLSConn n ≠ n.
Proof. induction n as [r|n IH]; [done|]. intros E. by injection E. Qed.

Lemma append_empty (a : string) : a +:+ "" = a.
Proof.
  induction a as [|x a IH]; [done|].
  change (String x (a +:+ "") = String x a). by f_equal.
Qed.

Lemma append_append (a b c : string) : (a +:+ b) +:+ c = a +:+ (b +:+ c).
Proof.
  induction a as [|x a IH]; [done|].
  change (String x ((a +:+ b) +:+ c) = String x (a +:+ (b +:+ c))). by f_equal.
Qed.

Lemma auth_cap_prefix (l : list string) acc :
  ∃ t, foldl (λ authCap name, authCap +:+ " " +:+ name) acc l = acc +:+ t.
Proof.
  revert acc. induction l as [|x l IH]; intros acc; simpl.
  - exists "". by rewrite append_empty.
  - destruct (IH (acc +:+ " " +:+ x)) as (t & ->).
    exists (" " +:+ x +:+ t). by rewrite !append_append.
Qed.

Lemma STARTTLS_advertised c0 :
  "STARTTLS" ∉ caps (server c0) →
  "STARTTLS" ∈ ehlo_caps c0
  ↔ TLSConfig (server c0) = true ∧ isTLSConn (conn c0) = false.
Proof.
  intros Hcaps. unfold ehlo_caps.
  rewrite !elem_of_app.
  split.
  - intros [Hin|[Hin|[Hin|Hin]]]; [done|..].
    + destruct (TLSConfig (server c0)), (isTLSConn (conn c0));
        simpl in Hin; try by apply elem_of_nil in Hin.
      done.
    + destruct (authAllowed c0); [|by apply elem_of_nil in Hin].
      apply list_elem_of_singleton in Hin.
      destruct (auth_cap_prefix (map_to_list (auths (server c0))).*1 "AUTH")
        as (t & Ht).
      rewrite Ht in Hin.
      change ("AUTH" +:+ t) with (String "A" ("UTH" +:+ t)) in Hin. discriminate.
    + case_bool_decide; [|by apply elem_of_nil in Hin].
      apply list_elem_of_singleton in Hin.
      change ("SIZE " +:+ ?x) with (String "S" (String "I" ("ZE " +:+ x))) in Hin.
      discriminate.
  - intros [-> ->]. simpl. right. left. by apply list_elem_of_singleton.
Qed.

(** X24.  On a server whose own capability list does not name STARTTLS,
    the EHLO reply advertises STARTTLS exactly when a STARTTLS command would
    put the transport under TLS; and after a STARTTLS command, whatever its
    outcome, STARTTLS is not advertised. *)
Theorem starttls_advertised (env : Env) (cmd arg : string) (s : St) :
  sentinels_wf env → is_verb env cmd "STARTTLS" →
  "STARTTLS" ∉ caps (server (cn s)) →
  let s' := state_of (handle env cmd arg s) in
  ("STARTTLS" ∈ ehlo_caps (cn s) ↔ conn (cn s') = TLSConn (conn (cn s)))
  ∧ "STARTTLS" ∉ ehlo_caps (cn s').
Proof.
  intros Hwf Hverb Hcaps s'.
  assert (Hs' : s' = state_of (handleStartTLS env s)).
  { subst s'. rewrite handle_no_panic;
      rewrite (dispatch_STARTTLS env cmd arg s Hverb);
      [done|apply handleStartTLS_returns]. }
  rewrite (STARTTLS_advertised (cn s) Hcaps).
  destruct (isTLSConn (conn (cn s))) eqn:Hplain.
  - assert (Hsame : cn s' = cn s).
    { rewrite Hs'. unfold handleStartTLS. unfold_monad. simpl. rewrite Hplain.
      by rewrite WriteResponse_eq. }
    rewrite Hsame. split.
    + split; [intros [_ ?]; congruence|]. intros E. symmetry in E. by apply TLSConn_neq in E.
    + rewrite (STARTTLS_advertised (cn s) Hcaps). intros [_ ?]; congruence.
  - destruct (TLSConfig (server (cn s))) eqn:Hcfg.
    + pose proof (handleStartTLS_eq env Hwf s Hplain Hcfg) as Heq. simpl in Heq.
      rewrite Heq in Hs'. simpl in Hs'. rewrite Hs'. simpl. split; [done|].
      rewrite STARTTLS_advertised by done. simpl. intros [_ ?]; congruence.
    + assert (Hsame : cn s' = cn s).
      { rewrite Hs'. unfold handleStartTLS. unfold_monad. simpl.
        rewrite Hplain, Hcfg. simpl. by rewrite ?WriteResponse_eq. }
      rewrite Hsame. split.
      * split; [intros [? _]; congruence|]. intros E. symmetry in E.
        by apply TLSConn_neq in E.
      * rewrite (STARTTLS_advertised (cn s) Hcaps). rewrite Hcfg.
        intros [? _]; congruence.
Qed.

Lemma starttls_advertised_witness :
  let env := Sample.env true in
  let s := serve env [("EHLO", "a.example")]
             (accepted (RawConn "192.0.2.1:25") Sample.srv []) in
  let s' := state_of (handle env "STARTTLS" "" s) in
  sentinels_wf env ∧ is_verb env "STARTTLS" "STARTTLS" ∧
  ("STARTTLS" ∉ caps (server (cn s))) ∧
  ("STARTTLS" ∈ ehlo_caps (cn s)) ∧ ("STARTTLS" ∉ ehlo_caps (cn s')).
Proof.
  intros env s s'.
  assert (Hv : is_verb env "STARTTLS" "STARTTLS")
    by (split; [discriminate|reflexivity]).
  assert (Hcaps : "STARTTLS" ∉ caps (server (cn s))).
  { vm_compute. intros Hin.
    repeat (apply elem_of_cons in Hin as [Hin|Hin]; [discriminate|]).
    by apply elem_of_nil in Hin. }
  split; [apply sample_sentinels_wf|]. split; [exact Hv|]. split; [exact Hcaps|].
  destruct (starttls_advertised env "STARTTLS" "" s (sample_sentinels_wf true)
              Hv Hcaps) as [Hiff Hafter].
  split; [|exact Hafter]. apply Hiff. vm_compute. reflexivity.
Defined.

(** ** Greeting banner and rejection *)

Lemma pretty_220 : pretty 220 = "220".
Proof. by vm_compute. Qed.

(** X25.  [greet] prints the one line [220 domain ESMTP Service Ready],
    without enhanced code, and changes nothing.  [Reject] prints
    [421 4.4.5 Too busy. Try again later.], logs out the session if one is
    held and closes the transport, leaving the engine as it was; the command
    loop then handles no command. *)
Theorem greet_and_reject (env : Env) (s : St) (cmds : list (string * string)) :
  sentinels_wf env →
  let via := text (cn s) in
  let rejected := mkSt (cn s) (wire s) true
                    (hist s ++ EvPrintfLine via too_busy_line :: close_events (cn s)) in
  greet env s
  = Returned tt (log [EvPrintfLine via
                        ("220 " +:+ Domain (server (cn s)) +:+ " ESMTP Service Ready")] s)
  ∧ Reject env s = Returned tt rejected
  ∧ serve env cmds rejected = rejected.
Proof.
  intros Hwf via rejected. split; [|split].
  - unfold greet. unfold_monad. simpl. rewrite WriteResponse_eq by done.
    unfold reply, reply_lines. simpl.
    rewrite (final_line_no_code env 220 _ Hwf).
    by rewrite pretty_220.
  - unfold Reject, mbind, M_bind. rewrite WriteResponse_eq by done.
    rewrite Close_eq. simpl. subst rejected via. unfold close_events.
    explicit_reply Hwf. by rewrite <- ?app_assoc.
  - by destruct cmds as [|[cmd arg] cmds].
Qed.

Lemma greet_and_reject_witness :
  let env := Sample.env true in
  let s := accepted (RawConn "192.0.2.1:25") Sample.srv [] in
  sentinels_wf env ∧
  printed (hist (state_of (greet env s))) = ["220 mx.example ESMTP Service Ready"] ∧
  hist (state_of (Reject env s))
  = [EvPrintfLine (RawConn "192.0.2.1:25") too_busy_line;
     EvConnClose (RawConn "192.0.2.1:25")] ∧
  closed (serve env [("NOOP", "")] (state_of (Reject env s))) = true.
Proof.
  intros env s.
  destruct (greet_and_reject env s [("NOOP", "")] (sample_sentinels_wf true))
    as (Hg & Hr & Hs).
  split; [apply sample_sentinels_wf|].
  rewrite Hg, Hr. unfold state_of. rewrite Hs. vm_compute. done.
Defined.

(** ** The reply writer with an explicit enhanced code *)

(** X26.  Given an enhanced code that is neither sentinel, [WriteResponse]
    prints it as it is on the last line, whatever the base code: the class
    of the enhanced code is not checked against the hundreds digit.  Given
    no text at all it panics without printing anything. *)
Theorem WriteResponse_explicit_code (env : Env) (s : St) (code : Z)
    (enh : EnhancedCode) (texts : list string) (t : string) :
  enh ≠ NoEnhancedCode env → enh ≠ EnhancedCodeNotSet env →
  let via := text (cn s) in
  WriteResponse env code enh (texts ++ [t]) s
  = Returned tt
      (log (((λ x, EvPrintfLine via (pretty code +:+ "-" +:+ x)) <$> texts)
            ++ [EvPrintfLine via
                  (pretty code +:+ " " +:+ fmt_enhanced enh +:+ " " +:+ t)]) s)
  ∧ WriteResponse env code enh [] s = Panicked s.
Proof.
  intros Hno Hns via. split; [|reflexivity].
  rewrite WriteResponse_eq by (by destruct texts).
  unfold reply. rewrite reply_lines_snoc, fmap_app, <- list_fmap_compose.
  unfold final_line, resolve_enhanced.
  rewrite (bool_decide_eq_false_2 _ Hns), (bool_decide_eq_false_2 _ Hno).
  reflexivity.
Qed.

Lemma WriteResponse_explicit_code_witness :
  let env := Sample.env true in
  let s := accepted (RawConn "192.0.2.1:25") Sample.srv [] in
  (2, 5, 1) ≠ NoEnhancedCode env ∧ (2, 5, 1) ≠ EnhancedCodeNotSet env ∧
  printed (hist (state_of (WriteResponse env 502 (2, 5, 1) (["a"] ++ ["b"]) s)))
  = ["502-a"; "502 2.5.1 b"].
Proof.
  intros env s.
  assert (H1 : (2, 5, 1) ≠ NoEnhancedCode env) by discriminate.
  assert (H2 : (2, 5, 1) ≠ EnhancedCodeNotSet env) by discriminate.
  split; [exact H1|]. split; [exact H2|].
  destruct (WriteResponse_explicit_code env s 502 (2, 5, 1) ["a"] "b" H1 H2)
    as [Hw _].
  rewrite Hw. vm_compute. reflexivity.
Defined.
